(** * Purchase-order aggregate: a shallow embedding and its properties

    The development follows the JavaScript sources of the procurement
    bounded context:
    - [shared/domain/model/currency.js]   ([Currency])
    - [shared/domain/model/money.js]      ([Money])
    - [shared/domain/model/date-time.js]  ([DateTime])
    - [purchase-order-state.js]           ([PurchaseOrderState])
    - [purchase-order-item.js]            ([PurchaseOrderItem])
    - [purchase-order.js]                 ([PurchaseOrder])
    - [scm/domain/model/supplier.js]      ([Supplier])

    JavaScript numbers are IEEE 754 binary64 values, taken from the
    executable specification [SpecFloat] (precision 53, emax 1024).
    A [throw] is an explicit [Throw] completion; the methods of the
    aggregate root, which assign private fields, are state transformers
    that keep the state reached at the moment of a throw. *)

From Stdlib Require Import ZArith List String Ascii Bool Lia DecimalString.
From Stdlib Require Import Floats.SpecFloat.
Import ListNotations.

Open Scope string_scope.

(* ================================================================= *)
(** ** Completions: normal return or thrown [ValidationError] *)

(** [errors.js] is not among the sources; [ValidationError] is an [Error]
    subclass carrying its message. *)
Inductive Error : Type :=
| ValidationError (message : string).

Inductive Completion (A : Type) : Type :=
| Normal (a : A)
| Throw (e : Error).
Arguments Normal {A} a.
Arguments Throw {A} e.

Definition bind {A B} (c : Completion A) (k : A -> Completion B) : Completion B :=
  match c with
  | Normal a => k a
  | Throw e => Throw e
  end.

Notation "x <- c ;; k" := (bind c (fun x => k))
  (at level 61, c at next level, right associativity).

Definition throws {A} (c : Completion A) : Prop :=
  exists message, c = Throw (ValidationError message).

Definition returns {A} (c : Completion A) : Prop :=
  exists a, c = Normal a.

Definition is_throw {A} (c : Completion A) : bool :=
  match c with
  | Throw _ => true
  | Normal _ => false
  end.

(* ================================================================= *)
(** ** Numbers *)

Module Number.

Definition prec : Z := 53.
Definition emax : Z := 1024.

Definition number : Type := spec_float.

Definition zero : number := S754_zero false.

(** The Number value of an integer literal. *)
Definition ofZ (n : Z) : number := binary_normalize prec emax n 0 false.

(** [x + y] and [x * y]. *)
Definition add : number -> number -> number := SFadd prec emax.
Definition mul : number -> number -> number := SFmul prec emax.

(** [x < y], [x <= y]: false as soon as an operand is NaN. *)
Definition ltb : number -> number -> bool := SFltb.
Definition leb : number -> number -> bool := SFleb.

Definition finite (x : number) : bool :=
  match x with
  | S754_zero _ | S754_finite _ _ _ => true
  | S754_infinity _ | S754_nan => false
  end.

(** The mathematical value of a finite number is an integer. *)
Definition integral (x : number) : bool :=
  match x with
  | S754_zero _ => true
  | S754_finite _ m (Zneg p) => (Zpos m mod 2 ^ Zpos p =? 0)%Z
  | S754_finite _ _ _ => true
  | S754_infinity _ | S754_nan => false
  end.

(** [toFixed(2)] on the magnitude [m * 2^e]: the integer [n] for which
    [n / 100 - m * 2^e] is as close to zero as possible, the larger
    one when there are two.  The digits printed are those of [n] with
    a point before the last two. *)
Definition hundredths (m : positive) (e : Z) : Z :=
  match e with
  | Zneg p => (200 * Zpos m + 2 ^ Zpos p) / 2 ^ (Zpos p + 1)
  | _ => 100 * Zpos m * 2 ^ e
  end.

(** [Number(s)] for the decimal literal [n / 100] with sign [s]: the
    binary64 value nearest to it, ties to even. *)
Definition ofHundredths (s : bool) (n : Z) : number :=
  match n with
  | Z0 => S754_zero s
  | _ =>
      let '(q, e, l) := SFdiv_core_binary prec emax n 0 100 0 in
      binary_round_aux prec emax s q e l
  end.

(** [Number(x.toFixed(2))].  [toFixed] prints NaN and the infinities
    by name and a zero of either sign as "0.00".  From 1e21 on it
    prints the shortest literal that reads back as [x]; such an [x] is
    an integer, so [hundredths] is exactly [100 * x] there and the
    composition is again [x]. *)
Definition toFixed2 (x : number) : number :=
  match x with
  | S754_zero _ => S754_zero false
  | S754_finite s m e => ofHundredths s (hundredths m e)
  | S754_infinity _ | S754_nan => x
  end.

End Number.

Abbreviation number := Number.number.

(* ================================================================= *)
(** ** Value objects and the universe of JavaScript values *)

(** [Currency]: private field [#code]. *)
Record Currency : Type := mkCurrency {
  Currency_code : string
}.

(** [Money]: private fields [#amount], [#currency]. *)
Record Money : Type := mkMoney {
  Money_amount : number;
  Money_currency : Currency
}.

(** [ProductId], [SupplierId]: private field [#value]. *)
Record ProductId : Type := mkProductId {
  ProductId_value : string
}.

Record SupplierId : Type := mkSupplierId {
  SupplierId_value : string
}.

(** [DateTime]: private field [#date], a valid [Date] kept as its time
    value in milliseconds. *)
Record DateTime : Type := mkDateTime {
  DateTime_date : Z
}.

(** What a caller can pass where the sources test [typeof], truthiness
    or [instanceof]. *)
Inductive Value : Type :=
| VUndefined
| VNull
| VBoolean (b : bool)
| VNumber (x : number)
| VString (s : string)
| VCurrency (c : Currency)
| VMoney (m : Money)
| VProductId (p : ProductId)
| VSupplierId (s : SupplierId)
| VDateTime (d : DateTime)
| VObject.                     (* any other object *)

(** [!!v] *)
Definition ToBoolean (v : Value) : bool :=
  match v with
  | VUndefined | VNull => false
  | VBoolean b => b
  | VNumber (S754_zero _) | VNumber S754_nan => false
  | VNumber _ => true
  | VString s => negb (s =? "")
  | _ => true
  end.

(** [v instanceof Currency] *)
Definition instanceof_Currency (v : Value) : bool :=
  match v with
  | VCurrency _ => true
  | _ => false
  end.

(** [Number.isFinite(v)], [Number.isInteger(v)]: false on every value
    that is not a Number. *)
Definition Number_isFinite (v : Value) : bool :=
  match v with
  | VNumber x => Number.finite x
  | _ => false
  end.

Definition Number_isInteger (v : Value) : bool :=
  match v with
  | VNumber x => Number.integral x
  | _ => false
  end.

(* ================================================================= *)
(** ** currency.js *)

Definition Currency_VALID_CODES : list string := ["USD"; "EUR"; "GBP"; "JPY"].

(** [Array.prototype.includes] on an array of strings. *)
Definition includes (l : list string) (s : string) : bool :=
  existsb (String.eqb s) l.

Definition Currency_new (code : string) : Completion Currency :=
  if negb (includes Currency_VALID_CODES code) then
    Throw (ValidationError
             ("Invalid code: " ++ code ++ ". Valid codes are: "
                ++ String.concat ", " Currency_VALID_CODES))
  else Normal (mkCurrency code).

Definition Currency_equals (this : Currency) (other : Value) : bool :=
  match other with
  | VCurrency o => Currency_code this =? Currency_code o
  | _ => false
  end.

(* ================================================================= *)
(** ** money.js *)

Definition Money_new (amount currency : Value) : Completion Money :=
  match amount with
  | VNumber x =>
      if negb (Number.finite x) || Number.ltb x Number.zero then
        Throw (ValidationError "Amount must be a non-negative finite number")
      else
        match currency with
        | VCurrency c => Normal (mkMoney (Number.toFixed2 x) c)
        | _ => Throw (ValidationError "Currency must be an instance of Currency")
        end
  | _ => Throw (ValidationError "Amount must be a non-negative finite number")
  end.

Definition Money_add (this : Money) (other : Value) : Completion Money :=
  match other with
  | VMoney o =>
      if negb (Currency_equals (Money_currency this) (VCurrency (Money_currency o))) then
        Throw (ValidationError "Can only add Money with the same currency")
      else
        Money_new (VNumber (Number.add (Money_amount this) (Money_amount o)))
                  (VCurrency (Money_currency this))
  | _ => Throw (ValidationError "Can only add Money with the same currency")
  end.

Definition Money_multiply (this : Money) (multiplier : Value) : Completion Money :=
  match multiplier with
  | VNumber k =>
      if negb (Number.finite k) || Number.ltb k Number.zero then
        Throw (ValidationError "Multiplier must be a non-negative finite number")
      else
        Money_new (VNumber (Number.mul (Money_amount this) k))
                  (VCurrency (Money_currency this))
  | _ => Throw (ValidationError "Multiplier must be a non-negative finite number")
  end.

(** [===] on two Numbers. *)
Definition Money_equals (this : Money) (other : Value) : bool :=
  match other with
  | VMoney o =>
      SFeqb (Money_amount this) (Money_amount o)
      && Currency_equals (Money_currency this) (VCurrency (Money_currency o))
  | _ => false
  end.

(* ================================================================= *)
(** ** date-time.js *)

(** A [Date] object: its time value, [None] for an invalid date (whose
    [getTime()] is NaN). *)
Definition JsDate : Type := option Z.

(** What the host hands to one run of the aggregate's constructor: the
    string [uuidv4()] returns and the instant [new Date()] reads. *)
Record Host : Type := mkHost {
  Host_uuidv4 : string;
  Host_now : Z
}.

Definition Date_new (host : Host) : JsDate := Some (Host_now host).

(** The constructor applied to a [Date] object. *)
Definition DateTime_new (date : JsDate) : Completion DateTime :=
  match date with
  | None => Throw (ValidationError "Invalid date: Invalid Date")
  | Some t => Normal (mkDateTime t)
  end.

(* ================================================================= *)
(** ** uuid.js *)

Definition generateUUID (host : Host) : string := Host_uuidv4 host.

(* ================================================================= *)
(** ** purchase-order-state.js *)

Record PurchaseOrderState : Type := mkPurchaseOrderState {
  PurchaseOrderState_value : string
}.

Definition DRAFT : string := "Draft".
Definition SUBMITTED : string := "Submitted".
Definition APPROVED : string := "Approved".
Definition SHIPPED : string := "Shipped".
Definition COMPLETED : string := "Completed".
Definition CANCELLED : string := "Cancelled".

(** [Object.values(PurchaseOrderState.#VALID_STATES)] *)
Definition VALID_STATES : list string :=
  [DRAFT; SUBMITTED; APPROVED; SHIPPED; COMPLETED; CANCELLED].

Definition validateState (state : string) : Completion unit :=
  if negb (includes VALID_STATES state) then
    Throw (ValidationError
             ("Invalid purchase order state: " ++ state ++ ". Valid states are: "
                ++ String.concat ", " VALID_STATES))
  else Normal tt.

Definition PurchaseOrderState_new (value : string) : Completion PurchaseOrderState :=
  _ <- validateState value ;;
  Normal (mkPurchaseOrderState value).

(** The transition methods read only their argument, never [this]. *)
Definition toSubmittedFrom (currentState : PurchaseOrderState)
  : Completion PurchaseOrderState :=
  if negb (PurchaseOrderState_value currentState =? DRAFT) then
    Throw (ValidationError
             ("Cannot transition from " ++ PurchaseOrderState_value currentState
                ++ " to Submitted"))
  else PurchaseOrderState_new SUBMITTED.

Definition toApprovedFrom (currentState : PurchaseOrderState)
  : Completion PurchaseOrderState :=
  if negb (PurchaseOrderState_value currentState =? SUBMITTED) then
    Throw (ValidationError
             ("Cannot transition from " ++ PurchaseOrderState_value currentState
                ++ " to Approved"))
  else PurchaseOrderState_new APPROVED.

Definition toShippedFrom (currentState : PurchaseOrderState)
  : Completion PurchaseOrderState :=
  if negb (PurchaseOrderState_value currentState =? APPROVED) then
    Throw (ValidationError
             ("Cannot transition from " ++ PurchaseOrderState_value currentState
                ++ " to Shipped"))
  else PurchaseOrderState_new SHIPPED.

Definition toCompletedFrom (currentState : PurchaseOrderState)
  : Completion PurchaseOrderState :=
  if negb (PurchaseOrderState_value currentState =? SHIPPED) then
    Throw (ValidationError
             ("Cannot transition from " ++ PurchaseOrderState_value currentState
                ++ " to Completed"))
  else PurchaseOrderState_new COMPLETED.

Definition toCancelledFrom (currentState : PurchaseOrderState)
  : Completion PurchaseOrderState :=
  if PurchaseOrderState_value currentState =? COMPLETED then
    Throw (ValidationError
             ("Cannot transition from " ++ PurchaseOrderState_value currentState
                ++ " to Cancelled"))
  else PurchaseOrderState_new CANCELLED.

Definition isDraft (this : PurchaseOrderState) : bool :=
  PurchaseOrderState_value this =? DRAFT.

(* ================================================================= *)
(** ** purchase-order-item.js *)

Record PurchaseOrderItem : Type := mkPurchaseOrderItem {
  PurchaseOrderItem_orderId : string;
  PurchaseOrderItem_productId : ProductId;
  PurchaseOrderItem_quantity : number;
  PurchaseOrderItem_unitPrice : Money
}.

(** The four guards run in the order of the source; [quantity <= 0] and
    [quantity > 1000] are reached only for a Number, since
    [Number.isInteger] fails first on anything else. *)
Definition PurchaseOrderItem_new (orderId productId quantity unitPrice : Value)
  : Completion PurchaseOrderItem :=
  match orderId with
  | VString oid =>
      if negb (ToBoolean orderId) then
        Throw (ValidationError "orderId must be a string")
      else
        match productId with
        | VProductId pid =>
            match quantity with
            | VNumber q =>
                if negb (Number.integral q)
                   || Number.leb q Number.zero
                   || Number.ltb (Number.ofZ 1000) q
                then
                  Throw (ValidationError
                           "quantity must be a positive integer not exceeding 1000")
                else
                  match unitPrice with
                  | VMoney price => Normal (mkPurchaseOrderItem oid pid q price)
                  | _ => Throw (ValidationError "unitPrice must be a valid Money instance")
                  end
            | _ =>
                Throw (ValidationError
                         "quantity must be a positive integer not exceeding 1000")
            end
        | _ => Throw (ValidationError "productId must be an instance of ProductId")
        end
  | _ => Throw (ValidationError "orderId must be a string")
  end.

Definition calculateSubtotal (this : PurchaseOrderItem) : Completion Money :=
  Money_multiply (PurchaseOrderItem_unitPrice this)
                 (VNumber (PurchaseOrderItem_quantity this)).

(* ================================================================= *)
(** ** Methods that assign private fields *)

(** A method of an object whose private state is [S]: it ends in a
    completion and leaves the state it had reached by then.  An
    assignment made before a [throw] stays made. *)
Definition Method (S A : Type) : Type := S -> Completion A * S.

Definition mret {S A} (a : A) : Method S A := fun s => (Normal a, s).

Definition mthrow {S A} (e : Error) : Method S A := fun s => (Throw e, s).

Definition mbind {S A B} (c : Method S A) (k : A -> Method S B) : Method S B :=
  fun s =>
    match c s with
    | (Normal a, s') => k a s'
    | (Throw e, s') => (Throw e, s')
    end.

(** Read [this]. *)
Definition this_ {S} : Method S S := fun s => (Normal s, s).

(** Run a computation that touches no field of [this]. *)
Definition call {S A} (c : Completion A) : Method S A := fun s => (c, s).

Notation "x <~ c ;; k" := (mbind c (fun x => k))
  (at level 61, c at next level, right associativity).

(** [Array.prototype.reduce] with an initial value and a callback that
    may throw: left to right, the first throw ends the loop. *)
Fixpoint reduce {A B} (callback : B -> A -> Completion B) (l : list A)
  (initialValue : B) : Completion B :=
  match l with
  | [] => Normal initialValue
  | x :: l' =>
      accumulator <- callback initialValue x ;;
      reduce callback l' accumulator
  end.

(* ================================================================= *)
(** ** purchase-order.js *)

Record PurchaseOrder : Type := mkPurchaseOrder {
  PurchaseOrder_id : string;
  PurchaseOrder_supplierId : Value;
  PurchaseOrder_currency : Value;
  PurchaseOrder_orderDate : DateTime;
  PurchaseOrder_items : list PurchaseOrderItem;
  PurchaseOrder_state : PurchaseOrderState
}.

Definition MAX_ITEMS : nat := 50.

(** [`${n}`] for a small natural number. *)
Definition string_of_nat (n : nat) : string :=
  NilEmpty.string_of_uint (Nat.to_uint n).

(** The second guard is written [!currency instanceof Currency]: the
    negation binds tighter than [instanceof], so the left operand is
    the boolean [!currency]. *)
Definition PurchaseOrder_new (host : Host) (supplierId currency orderDate : Value)
  : Completion PurchaseOrder :=
  if negb (ToBoolean supplierId) then
    Throw (ValidationError "supplierId is required")
  else if instanceof_Currency (VBoolean (negb (ToBoolean currency))) then
    Throw (ValidationError "currency must be an instance of Currency")
  else
    let id := generateUUID host in
    date <- match orderDate with
            | VDateTime d => Normal d
            | _ => DateTime_new (Date_new host)
            end ;;
    state <- PurchaseOrderState_new DRAFT ;;
    Normal (mkPurchaseOrder id supplierId currency date [] state).

(** Field assignments. *)
Definition set_items (items : list PurchaseOrderItem) : Method PurchaseOrder unit :=
  fun this =>
    (Normal tt,
     mkPurchaseOrder (PurchaseOrder_id this) (PurchaseOrder_supplierId this)
       (PurchaseOrder_currency this) (PurchaseOrder_orderDate this)
       items (PurchaseOrder_state this)).

Definition set_state (state : PurchaseOrderState) : Method PurchaseOrder unit :=
  fun this =>
    (Normal tt,
     mkPurchaseOrder (PurchaseOrder_id this) (PurchaseOrder_supplierId this)
       (PurchaseOrder_currency this) (PurchaseOrder_orderDate this)
       (PurchaseOrder_items this) state).

(** [this.#items.push(item)] *)
Definition push (item : PurchaseOrderItem) : Method PurchaseOrder unit :=
  this <~ this_ ;;
  set_items (PurchaseOrder_items this ++ [item])%list.

Definition addItem (productId quantity unitPrice : Value) : Method PurchaseOrder unit :=
  this <~ this_ ;;
  if negb (isDraft (PurchaseOrder_state this)) then
    mthrow (ValidationError "Cannot add items to a non-draft purchase order")
  else if (MAX_ITEMS <=? List.length (PurchaseOrder_items this))%nat then
    mthrow (ValidationError
              ("Cannot add more than " ++ string_of_nat MAX_ITEMS
                 ++ " items to a purchase order"))
  else
    match unitPrice with
    | VNumber price =>
        if negb (Number.finite price) || Number.ltb price Number.zero then
          mthrow (ValidationError "unitPrice must be a non-negative number")
        else
          money <~ call (Money_new unitPrice (PurchaseOrder_currency this)) ;;
          item <~ call (PurchaseOrderItem_new (VString (PurchaseOrder_id this))
                          productId quantity (VMoney money)) ;;
          push item
    | _ => mthrow (ValidationError "unitPrice must be a non-negative number")
    end.

Definition calculateTotalPrice : Method PurchaseOrder Money :=
  this <~ this_ ;;
  if (List.length (PurchaseOrder_items this) =? 0)%nat then
    mthrow (ValidationError
              "Cannot calculate total price of a purchase order with no items")
  else
    initialValue <~ call (Money_new (VNumber Number.zero) (PurchaseOrder_currency this)) ;;
    call (reduce (fun sum item =>
                    subtotal <- calculateSubtotal item ;;
                    Money_add sum (VMoney subtotal))
                 (PurchaseOrder_items this) initialValue).

Definition approve : Method PurchaseOrder unit :=
  this <~ this_ ;;
  state <~ call (toApprovedFrom (PurchaseOrder_state this)) ;;
  set_state state.

Definition ship : Method PurchaseOrder unit :=
  this <~ this_ ;;
  state <~ call (toShippedFrom (PurchaseOrder_state this)) ;;
  set_state state.

Definition complete : Method PurchaseOrder unit :=
  this <~ this_ ;;
  state <~ call (toCompletedFrom (PurchaseOrder_state this)) ;;
  set_state state.

Definition cancel : Method PurchaseOrder unit :=
  this <~ this_ ;;
  state <~ call (toCancelledFrom (PurchaseOrder_state this)) ;;
  set_state state.

(** Getters.  [items] answers with a fresh array of the same elements. *)
Definition get_items (this : PurchaseOrder) : list PurchaseOrderItem :=
  map (fun item => item) (PurchaseOrder_items this).

Definition get_state (this : PurchaseOrder) : string :=
  PurchaseOrderState_value (PurchaseOrder_state this).

Definition get_isDraft (this : PurchaseOrder) : bool :=
  isDraft (PurchaseOrder_state this).

(* ================================================================= *)
(** ** The public contract of the aggregate root *)

(** One call on a [PurchaseOrder] through its public interface. *)
Inductive Call : Type :=
| CallAddItem (productId quantity unitPrice : Value)
| CallCalculateTotalPrice
| CallApprove
| CallShip
| CallComplete
| CallCancel
| CallGetter.      (* id, supplierId, currency, orderDate, items, state, isDraft *)

(** The aggregate after the call, whether it returned or threw. *)
Definition after (c : Call) (po : PurchaseOrder) : PurchaseOrder :=
  match c with
  | CallAddItem productId quantity unitPrice =>
      snd (addItem productId quantity unitPrice po)
  | CallCalculateTotalPrice => snd (calculateTotalPrice po)
  | CallApprove => snd (approve po)
  | CallShip => snd (ship po)
  | CallComplete => snd (complete po)
  | CallCancel => snd (cancel po)
  | CallGetter => po
  end.

(** Orders obtainable from the constructor by public calls. *)
Inductive reachable : PurchaseOrder -> Prop :=
| reachable_new host supplierId currency orderDate po :
    PurchaseOrder_new host supplierId currency orderDate = Normal po ->
    reachable po
| reachable_after c po :
    reachable po ->
    reachable (after c po).

(** The five mutators, for statements that range over all of them. *)
Inductive Mutator : Type :=
| MAddItem (productId quantity unitPrice : Value)
| MApprove
| MShip
| MComplete
| MCancel.

Definition invoke (m : Mutator) : Method PurchaseOrder unit :=
  match m with
  | MAddItem productId quantity unitPrice => addItem productId quantity unitPrice
  | MApprove => approve
  | MShip => ship
  | MComplete => complete
  | MCancel => cancel
  end.

(* ================================================================= *)
(** ** Vocabulary of the specification *)

(** One row of the transition table: from a state satisfying [source]
    the operation yields [target]; from any other state it throws. *)
Definition table_row (operation : PurchaseOrderState -> Completion PurchaseOrderState)
  (source : string -> Prop) (target : string) (s : PurchaseOrderState) : Prop :=
  (source (PurchaseOrderState_value s)
   /\ operation s = Normal (mkPurchaseOrderState target))
  \/ (~ source (PurchaseOrderState_value s) /\ throws (operation s)).

(** A non-negative finite number. *)
Definition nonnegative_finite (v : Value) : Prop :=
  exists x, v = VNumber x /\ Number.finite x = true /\ Number.ltb x Number.zero = false.

(** An integer between [lo] and [hi]. *)
Definition integer_between (lo hi : Z) (v : Value) : Prop :=
  exists n, (lo <= n <= hi)%Z /\ v = VNumber (Number.ofZ n).

Definition nonempty_string (v : Value) : Prop :=
  exists s, v = VString s /\ s <> "".

Definition is_ProductId (v : Value) : Prop := exists p, v = VProductId p.
Definition is_Money (v : Value) : Prop := exists m, v = VMoney m.
Definition is_Currency (v : Value) : Prop := exists c, v = VCurrency c.

(** Number values as the engine holds them: canonical binary64. *)
Definition canonical (v : Value) : Prop :=
  match v with
  | VNumber x => valid_binary Number.prec Number.emax x = true
  | _ => True
  end.

(** The total as the specification words it: every subtotal
    [unitPrice x quantity], folded with [Money.add] from a zero amount
    in the order's currency. *)
Definition fold_of_subtotals (currency : Value) (items : list PurchaseOrderItem)
  : Completion Money :=
  fold_left
    (fun (sum : Completion Money) (item : PurchaseOrderItem) =>
       s <- sum ;;
       subtotal <- Money_multiply (PurchaseOrderItem_unitPrice item)
                     (VNumber (PurchaseOrderItem_quantity item)) ;;
       Money_add s (VMoney subtotal))
    items
    (Money_new (VNumber Number.zero) currency).

(** The guard on [quantity] in the item constructor, for a Number [q]:
    [!Number.isInteger(q) || q <= 0 || q > 1000]. *)
Definition quantity_guard (q : number) : bool :=
  negb (Number.integral q) || Number.leb q Number.zero
  || Number.ltb (Number.ofZ 1000) q.

(** [n] is an integer nearest to a hundred times [m * 2^e]:
    [|n - 100 * m * 2^e| <= 1/2], cleared of denominators. *)
Definition nearest_hundredths (m : positive) (e : Z) (n : Z) : Prop :=
  match e with
  | Zneg p => (2 * Z.abs (n * 2 ^ Zpos p - 100 * Zpos m) <= 2 ^ Zpos p)%Z
  | _ => n = (100 * Zpos m * 2 ^ e)%Z
  end.

(** The value of a finite Number in units of 2^-1074, the spacing of
    the smallest binary64 values: an integer for every finite binary64
    value. *)
Definition scaled (z : number) : Z :=
  match z with
  | S754_finite s m e => (cond_Zopp s (Zpos m) * 2 ^ (e + 1074))%Z
  | _ => 0%Z
  end.

(** [|z - n / 100|], times [100 * 2^1074]. *)
Definition distance (n : Z) (z : number) : Z :=
  Z.abs (100 * scaled z - n * 2 ^ 1074)%Z.

(** The finite values a Number can take. *)
Definition binary64 (z : number) : Prop :=
  valid_binary Number.prec Number.emax z = true /\ Number.finite z = true.

Definition even_mantissa (z : number) : Prop :=
  match z with
  | S754_finite _ m _ => Z.even (Zpos m) = true
  | _ => True
  end.

(** [y] is the Number for the decimal [n / 100]: a binary64 value with
    no other nearer to [n / 100], the one with the even mantissa when
    another is as near, and not negative. *)
Definition nearest_binary64 (n : Z) (y : number) : Prop :=
  binary64 y
  /\ match y with
     | S754_zero s | S754_finite s _ _ => s = false
     | _ => False
     end
  /\ (forall z, binary64 z -> (distance n y <= distance n z)%Z)
  /\ (forall z, binary64 z -> distance n z = distance n y ->
                scaled z <> scaled y -> even_mantissa y).

(** [y] is [x] rounded to two decimal places: the Number for the
    decimal [n / 100], where [n / 100] is a two-place decimal nearest
    to [x].  Stated over the integers alone, with no reference to the
    conversions of [Number]. *)
Definition rounded_to_2_places (x y : number) : Prop :=
  match x with
  | S754_zero _ => y = Number.zero
  | S754_finite s m e =>
      exists n, (0 <= n)%Z /\ nearest_hundredths m e n /\ nearest_binary64 n y
  | _ => False
  end.

(** What a rounding location says of the remainder [num] of a division
    by [den]. *)
Definition loc_spec (l : location) (num den : Z) : Prop :=
  (0 <= num < den)%Z
  /\ match l with
     | loc_Exact => num = 0%Z
     | loc_Inexact Lt => (0 < 2 * num < den)%Z
     | loc_Inexact Eq => (2 * num = den)%Z
     | loc_Inexact Gt => (den < 2 * num)%Z
     end.

(* ================================================================= *)
(** ** Sample data *)

Definition sample_host : Host :=
  mkHost "3f2b8c1e-5d4a-4e6f-9a7b-0c1d2e3f4a5b" 1762128000000.

Definition USD : Currency := mkCurrency "USD".
Definition EUR : Currency := mkCurrency "EUR".

Definition sample_supplier : Value :=
  VSupplierId (mkSupplierId "1c2d3e4f-5a6b-4c7d-8e9f-0a1b2c3d4e5f").

Definition sample_product : Value :=
  VProductId (mkProductId "9b2e4d6f-1a3c-4b5d-8e7f-6a5b4c3d2e1f").

(** An integer literal and a literal with two decimals. *)
Definition int (n : Z) : Value := VNumber (Number.ofZ n).
Definition dec (n : Z) : number := Number.ofHundredths false n.

(** [new PurchaseOrder({supplierId, currency: new Currency('USD')})] *)
Definition draft_order : PurchaseOrder :=
  mkPurchaseOrder (Host_uuidv4 sample_host) sample_supplier (VCurrency USD)
    (mkDateTime (Host_now sample_host)) [] (mkPurchaseOrderState DRAFT).

(** The order after [n] calls [addItem({productId, quantity: 1, unitPrice: 1})]. *)
Fixpoint order_with (n : nat) : PurchaseOrder :=
  match n with
  | O => draft_order
  | S n' => snd (addItem sample_product (int 1) (int 1) (order_with n'))
  end.

(** Items [qty = 2, price = 10.00] and [qty = 1, price = 5.00]. *)
Definition two_item_order : PurchaseOrder :=
  snd (addItem sample_product (int 1) (VNumber (dec 500))
         (snd (addItem sample_product (int 2) (VNumber (dec 1000)) draft_order))).

(* ================================================================= *)
(** ** Invariants of the aggregate, in words *)

(** An item as [addItem] builds it for the order [po]: bound to the
    order's id, priced in the order's currency, with a quantity the
    item constructor lets through. *)
Definition item_of (po : PurchaseOrder) (item : PurchaseOrderItem) : Prop :=
  PurchaseOrderItem_orderId item = PurchaseOrder_id po
  /\ VCurrency (Money_currency (PurchaseOrderItem_unitPrice item))
     = PurchaseOrder_currency po
  /\ quantity_guard (PurchaseOrderItem_quantity item) = false.

(** The fields no method assigns after construction. *)
Definition identity_of (po : PurchaseOrder)
  : string * Value * Value * DateTime :=
  (PurchaseOrder_id po, PurchaseOrder_supplierId po,
   PurchaseOrder_currency po, PurchaseOrder_orderDate po).

(** The two messages with which [calculateTotalPrice] can fail on an
    order built through the public interface. *)
Definition EMPTY_ORDER : string :=
  "Cannot calculate total price of a purchase order with no items".
Definition AMOUNT_RANGE : string :=
  "Amount must be a non-negative finite number".

(** The place of a state in the lifecycle; Cancelled comes last. *)
Definition rank (value : string) : nat :=
  if value =? DRAFT then 0
  else if value =? SUBMITTED then 1
  else if value =? APPROVED then 2
  else if value =? SHIPPED then 3
  else if value =? COMPLETED then 4
  else 5.

(** [s'] is what some transition operation returns on [s]. *)
Definition transition (s s' : PurchaseOrderState) : Prop :=
  toSubmittedFrom s = Normal s'
  \/ toApprovedFrom s = Normal s'
  \/ toShippedFrom s = Normal s'
  \/ toCompletedFrom s = Normal s'
  \/ toCancelledFrom s = Normal s'.

(** A Number that is neither NaN nor below zero nor the negative zero:
    what [Money] keeps as its amount. *)
Definition unsigned (x : number) : Prop :=
  match x with
  | S754_nan => False
  | S754_zero s | S754_infinity s | S754_finite s _ _ => s = false
  end.

(* ================================================================= *)
(** ** Regular expressions *)

(** The fragment of regular expressions [supplier.js] uses, with the
    forms that taking a derivative brings in.  A string stands for the
    sequence of its code units, here those below 256. *)
Inductive regex : Type :=
| Empty                               (* matches nothing *)
| Eps                                 (* matches the empty string *)
| Class (accept : ascii -> bool)      (* one character of a class *)
| Cat (r1 r2 : regex)
| Alt (r1 r2 : regex)
| Star (r : regex).

(** [r+] *)
Definition Plus (r : regex) : regex := Cat r (Star r).

(** The strings an expression matches from [^] to [$]. *)
Inductive matches : regex -> string -> Prop :=
| matches_Eps : matches Eps ""
| matches_Class accept c : accept c = true -> matches (Class accept) (String c "")
| matches_Cat r1 r2 s1 s2 :
    matches r1 s1 -> matches r2 s2 -> matches (Cat r1 r2) (s1 ++ s2)
| matches_Alt_l r1 r2 s : matches r1 s -> matches (Alt r1 r2) s
| matches_Alt_r r1 r2 s : matches r2 s -> matches (Alt r1 r2) s
| matches_Star_nil r : matches (Star r) ""
| matches_Star_app r s1 s2 :
    matches r s1 -> matches (Star r) s2 -> matches (Star r) (s1 ++ s2).

Fixpoint nullable (r : regex) : bool :=
  match r with
  | Empty => false
  | Eps => true
  | Class _ => false
  | Cat r1 r2 => nullable r1 && nullable r2
  | Alt r1 r2 => nullable r1 || nullable r2
  | Star _ => true
  end.

(** What is left to match after the character [c]. *)
Fixpoint derivative (c : ascii) (r : regex) : regex :=
  match r with
  | Empty => Empty
  | Eps => Empty
  | Class accept => if accept c then Eps else Empty
  | Cat r1 r2 =>
      if nullable r1 then Alt (Cat (derivative c r1) r2) (derivative c r2)
      else Cat (derivative c r1) r2
  | Alt r1 r2 => Alt (derivative c r1) (derivative c r2)
  | Star r1 => Cat (derivative c r1) (Star r1)
  end.

(** [/^r$/.test(s)] *)
Fixpoint test (r : regex) (s : string) : bool :=
  match s with
  | "" => nullable r
  | String c s' => test (derivative c r) s'
  end.

(* ================================================================= *)
(** ** supplier.js *)

Record Supplier : Type := mkSupplier {
  Supplier_id : SupplierId;
  Supplier_name : string;
  Supplier_contactEmail : option string;
  Supplier_lastOrderTotalPrice : option Money
}.

(** [\s] on code units below 256: tab, line feed, vertical tab, form
    feed, carriage return, space and the no-break space. *)
Definition whitespace (c : ascii) : bool :=
  let n := nat_of_ascii c in
  ((9 <=? n) && (n <=? 13) || (n =? 32) || (n =? 160))%nat.

(** [[^\s@]] *)
Definition not_space_nor_at (c : ascii) : bool :=
  negb (whitespace c || (c =? "@")%char).

(** [/^[^\s@]+@[^\s@]+\.[^\s@]+$/] *)
Definition emailRegex : regex :=
  Cat (Plus (Class not_space_nor_at))
    (Cat (Class (Ascii.eqb "@"))
       (Cat (Plus (Class not_space_nor_at))
          (Cat (Class (Ascii.eqb "."))
             (Plus (Class not_space_nor_at))))).

Definition isValidEmail (email : string) : bool := test emailRegex email.

(** The constructor, with [contactEmail] a string or [null] as its
    documentation has it ([None] is [null]). *)
Definition Supplier_new (id name : Value) (contactEmail : option string)
  (lastOrderTotalPrice : Value) : Completion Supplier :=
  match id with
  | VSupplierId sid =>
      match name with
      | VString n =>
          if (String.length n <? 2)%nat || (100 <? String.length n)%nat then
            Throw (ValidationError
                     "Supplier name must be a string between 2 and 100 characters")
          else if match contactEmail with
                  | Some email => negb (isValidEmail email)
                  | None => false
                  end
          then
            Throw (ValidationError "Contact email must be a valid email address or null")
          else
            match lastOrderTotalPrice with
            | VNull => Normal (mkSupplier sid n contactEmail None)
            | VMoney price => Normal (mkSupplier sid n contactEmail (Some price))
            | _ =>
                Throw (ValidationError
                         "Last order total price must be an instance of Money or null")
            end
      | _ =>
          Throw (ValidationError
                   "Supplier name must be a string between 2 and 100 characters")
      end
  | _ => Throw (ValidationError "Supplier ID must be an instance of SupplierId")
  end.

(** A run of one or more characters, none of them a space or an at
    sign. *)
Definition word (w : string) : Prop :=
  w <> "" /\ forall c, In c (list_ascii_of_string w) -> not_space_nor_at c = true.

(** [local@domain.tail], each part a [word]. *)
Definition address (s : string) : Prop :=
  exists local domain tail,
    s = local ++ "@" ++ domain ++ "." ++ tail
    /\ word local /\ word domain /\ word tail.

(** Arguments the Supplier constructor is meant to take. *)
Definition supplier_arguments (id name : Value) (contactEmail : option string)
  (lastOrderTotalPrice : Value) : Prop :=
  (exists sid, id = VSupplierId sid)
  /\ (exists n, name = VString n /\ (2 <= String.length n <= 100)%nat)
  /\ (forall email, contactEmail = Some email -> address email)
  /\ (lastOrderTotalPrice = VNull \/ is_Money lastOrderTotalPrice).

(* ================================================================= *)
(** ** Whole amounts *)

(** The mantissa of the binary64 value of a positive integer of at most
    53 bits: the integer shifted up to 53 bits. *)
Definition canon (k : positive) : positive :=
  Pos.shiftl k (Z.to_N (53 - Zpos (digits2_pos k))).

(** A whole amount: a non-negative integer below 2^53. *)
Definition whole (k : Z) : Prop := (0 <= k < 2 ^ 53)%Z.

(** One call [addItem({productId, quantity, unitPrice})] with a whole
    price. *)
Record Line : Type := mkLine {
  Line_productId : ProductId;
  Line_quantity : Z;
  Line_unitPrice : Z
}.

Definition add_line (po : PurchaseOrder) (line : Line) : PurchaseOrder :=
  snd (addItem (VProductId (Line_productId line)) (int (Line_quantity line))
         (int (Line_unitPrice line)) po).

(** The order after one [addItem] per line, in order. *)
Definition add_lines (lines : list Line) (po : PurchaseOrder) : PurchaseOrder :=
  fold_left add_line lines po.

(** The sum of price times quantity, in exact integer arithmetic. *)
Definition lines_total (lines : list Line) : Z :=
  fold_right (fun line sum => (Line_unitPrice line * Line_quantity line + sum)%Z)
    0%Z lines.

(** The item [addItem] builds for a line of an order with id [id] and
    currency [c]. *)
Definition line_item (id : string) (c : Currency) (line : Line) : PurchaseOrderItem :=
  mkPurchaseOrderItem id (Line_productId line) (Number.ofZ (Line_quantity line))
    (mkMoney (Number.ofZ (Line_unitPrice line)) c).

(** A line the aggregate accepts: whole price, quantity from 1 to 1000. *)
Definition valid_line (line : Line) : Prop :=
  (0 <= Line_unitPrice line)%Z /\ (1 <= Line_quantity line <= 1000)%Z.

(* ================================================================= *)
(** * Properties *)

(** ** Completions *)

Lemma throws_Throw {A} (e : Error) : throws (@Throw A e).
Proof. destruct e as [message]. now exists message. Qed.

Lemma throws_not_Normal {A} (a : A) : ~ throws (Normal a).
Proof. intros [message H]. discriminate H. Qed.

Lemma returns_or_throws {A} (c : Completion A) : returns c \/ throws c.
Proof.
  destruct c as [a | e].
  - left. now exists a.
  - right. apply throws_Throw.
Qed.

Lemma returns_not_throws {A} (c : Completion A) : returns c -> ~ throws c.
Proof. intros [a ->]. apply throws_not_Normal. Qed.

Lemma not_throws_returns {A} (c : Completion A) : ~ throws c -> returns c.
Proof. intros H. destruct (returns_or_throws c); [assumption | contradiction]. Qed.

Create HintDb completion.
#[local] Hint Resolve throws_Throw throws_not_Normal : completion.

(** ** purchase-order-state.js *)

Section Transitions.

Variable s : PurchaseOrderState.

Lemma toSubmittedFrom_row : table_row toSubmittedFrom (fun x => x = DRAFT) SUBMITTED s.
Proof.
  unfold table_row, toSubmittedFrom.
  destruct (String.eqb_spec (PurchaseOrderState_value s) DRAFT) as [E | E]; cbn.
  - left. split; [exact E | reflexivity].
  - right. split; [exact E | auto with completion].
Qed.

Lemma toApprovedFrom_row : table_row toApprovedFrom (fun x => x = SUBMITTED) APPROVED s.
Proof.
  unfold table_row, toApprovedFrom.
  destruct (String.eqb_spec (PurchaseOrderState_value s) SUBMITTED) as [E | E]; cbn.
  - left. split; [exact E | reflexivity].
  - right. split; [exact E | auto with completion].
Qed.

Lemma toShippedFrom_row : table_row toShippedFrom (fun x => x = APPROVED) SHIPPED s.
Proof.
  unfold table_row, toShippedFrom.
  destruct (String.eqb_spec (PurchaseOrderState_value s) APPROVED) as [E | E]; cbn.
  - left. split; [exact E | reflexivity].
  - right. split; [exact E | auto with completion].
Qed.

Lemma toCompletedFrom_row : table_row toCompletedFrom (fun x => x = SHIPPED) COMPLETED s.
Proof.
  unfold table_row, toCompletedFrom.
  destruct (String.eqb_spec (PurchaseOrderState_value s) SHIPPED) as [E | E]; cbn.
  - left. split; [exact E | reflexivity].
  - right. split; [exact E | auto with completion].
Qed.

Lemma toCancelledFrom_row : table_row toCancelledFrom (fun x => x <> COMPLETED) CANCELLED s.
Proof.
  unfold table_row, toCancelledFrom.
  destruct (String.eqb_spec (PurchaseOrderState_value s) COMPLETED) as [E | E]; cbn.
  - right. split; [tauto | auto with completion].
  - left. split; [exact E | reflexivity].
Qed.

End Transitions.

(** C4. The transition table holds exactly: for every current state,
    [toSubmittedFrom] returns Submitted when the state is Draft,
    [toApprovedFrom] returns Approved when it is Submitted,
    [toShippedFrom] returns Shipped when it is Approved,
    [toCompletedFrom] returns Completed when it is Shipped,
    [toCancelledFrom] returns Cancelled when it is not Completed, and
    each throws a ValidationError from every other state. *)
Theorem transition_table_exact (s : PurchaseOrderState) :
  table_row toSubmittedFrom (fun x => x = DRAFT) SUBMITTED s
  /\ table_row toApprovedFrom (fun x => x = SUBMITTED) APPROVED s
  /\ table_row toShippedFrom (fun x => x = APPROVED) SHIPPED s
  /\ table_row toCompletedFrom (fun x => x = SHIPPED) COMPLETED s
  /\ table_row toCancelledFrom (fun x => x <> COMPLETED) CANCELLED s.
Proof.
  repeat split.
  - apply toSubmittedFrom_row.
  - apply toApprovedFrom_row.
  - apply toShippedFrom_row.
  - apply toCompletedFrom_row.
  - apply toCancelledFrom_row.
Qed.

(** A row read from left to right: a throw excludes the source state. *)
Lemma table_row_throws operation source target s :
  table_row operation source target s ->
  ~ source (PurchaseOrderState_value s) ->
  throws (operation s).
Proof. intros [[H _] | [_ H]] N; [contradiction | exact H]. Qed.

Lemma table_row_returns operation source target s :
  table_row operation source target s ->
  source (PurchaseOrderState_value s) ->
  operation s = Normal (mkPurchaseOrderState target).
Proof. intros [[_ H] | [N _]] Hs; [exact H | contradiction]. Qed.

(** C2, as the code has it.  From Completed every transition throws;
    from Cancelled the four forward transitions throw, while
    [toCancelledFrom] returns Cancelled again. *)
Theorem terminal_states (s : PurchaseOrderState) :
  PurchaseOrderState_value s = COMPLETED \/ PurchaseOrderState_value s = CANCELLED ->
  throws (toSubmittedFrom s)
  /\ throws (toApprovedFrom s)
  /\ throws (toShippedFrom s)
  /\ throws (toCompletedFrom s)
  /\ (PurchaseOrderState_value s = COMPLETED /\ throws (toCancelledFrom s)
      \/ PurchaseOrderState_value s = CANCELLED
         /\ toCancelledFrom s = Normal (mkPurchaseOrderState CANCELLED)).
Proof.
  intros H.
  pose proof (toSubmittedFrom_row s) as R1. pose proof (toApprovedFrom_row s) as R2.
  pose proof (toShippedFrom_row s) as R3. pose proof (toCompletedFrom_row s) as R4.
  pose proof (toCancelledFrom_row s) as R5.
  repeat split.
  - apply (table_row_throws _ _ _ _ R1). destruct H as [-> | ->]; discriminate.
  - apply (table_row_throws _ _ _ _ R2). destruct H as [-> | ->]; discriminate.
  - apply (table_row_throws _ _ _ _ R3). destruct H as [-> | ->]; discriminate.
  - apply (table_row_throws _ _ _ _ R4). destruct H as [-> | ->]; discriminate.
  - destruct H as [E | E].
    + left. split; [exact E |].
      apply (table_row_throws _ _ _ _ R5). rewrite E. tauto.
    + right. split; [exact E |].
      apply (table_row_returns _ _ _ _ R5). rewrite E. discriminate.
Qed.

Lemma terminal_states_witness :
  throws (toSubmittedFrom (mkPurchaseOrderState CANCELLED))
  /\ toCancelledFrom (mkPurchaseOrderState CANCELLED)
     = Normal (mkPurchaseOrderState CANCELLED).
Proof.
  destruct (terminal_states (mkPurchaseOrderState CANCELLED)) as (H1 & _ & _ & _ & H5).
  - right. reflexivity.
  - split; [exact H1 |]. reflexivity.
Defined.

(** C2, as stated, fails: Cancelled has an outgoing transition, since
    [toCancelledFrom] applied to a Cancelled state does not throw. *)
Lemma cancelled_is_not_terminal :
  let s := mkPurchaseOrderState CANCELLED in
  PurchaseOrderState_value s = CANCELLED
  /\ toCancelledFrom s = Normal (mkPurchaseOrderState CANCELLED)
  /\ ~ throws (toCancelledFrom s).
Proof.
  cbn. repeat split. apply throws_not_Normal.
Qed.

(** ** purchase-order.js: the constructor *)

(** The only guard that can fire is the one on [supplierId]. *)
Lemma PurchaseOrder_new_outcome host supplierId currency orderDate :
  PurchaseOrder_new host supplierId currency orderDate =
  if ToBoolean supplierId then
    Normal (mkPurchaseOrder (Host_uuidv4 host) supplierId currency
              match orderDate with
              | VDateTime d => d
              | _ => mkDateTime (Host_now host)
              end
              [] (mkPurchaseOrderState DRAFT))
  else Throw (ValidationError "supplierId is required").
Proof.
  unfold PurchaseOrder_new.
  destruct (ToBoolean supplierId); cbn; [| reflexivity].
  destruct orderDate; reflexivity.
Qed.

(** C1.  The constructor is handed a supplier and, as currency, the
    string "USD", which is no [Currency] instance; it returns a Draft
    order holding that string instead of throwing. *)
Theorem PurchaseOrder_new_accepts_non_Currency :
  instanceof_Currency (VString "USD") = false
  /\ PurchaseOrder_new sample_host sample_supplier (VString "USD") VUndefined
     = Normal (mkPurchaseOrder (Host_uuidv4 sample_host) sample_supplier
                 (VString "USD") (mkDateTime (Host_now sample_host)) []
                 (mkPurchaseOrderState DRAFT)).
Proof. split; reflexivity. Qed.

(** ** purchase-order.js: what each method does to the aggregate *)

Ltac run_method :=
  unfold addItem, calculateTotalPrice, approve, ship, complete, cancel, push,
    set_items, set_state, mbind, mthrow, mret, this_, call; cbv beta iota.

Lemma transition_outcome
  (operation : PurchaseOrderState -> Completion PurchaseOrderState) po :
  let m := (this <~ this_ ;;
            state <~ call (operation (PurchaseOrder_state this)) ;;
            set_state state) in
  match operation (PurchaseOrder_state po) with
  | Normal state =>
      m po = (Normal tt,
              mkPurchaseOrder (PurchaseOrder_id po) (PurchaseOrder_supplierId po)
                (PurchaseOrder_currency po) (PurchaseOrder_orderDate po)
                (PurchaseOrder_items po) state)
  | Throw e => m po = (Throw e, po)
  end.
Proof.
  run_method. destruct (operation (PurchaseOrder_state po)); reflexivity.
Qed.

(** [addItem] either throws and leaves the aggregate alone, or returns
    after appending one item bound to this order. *)
Lemma addItem_outcome productId quantity unitPrice po :
  (exists e, addItem productId quantity unitPrice po = (Throw e, po))
  \/ (exists item,
        addItem productId quantity unitPrice po
        = (Normal tt,
           mkPurchaseOrder (PurchaseOrder_id po) (PurchaseOrder_supplierId po)
             (PurchaseOrder_currency po) (PurchaseOrder_orderDate po)
             (PurchaseOrder_items po ++ [item])%list (PurchaseOrder_state po))).
Proof.
  run_method.
  destruct (negb (isDraft (PurchaseOrder_state po))); [left; eauto |].
  destruct (MAX_ITEMS <=? List.length (PurchaseOrder_items po))%nat; [left; eauto |].
  destruct unitPrice as [ | | ? | x | ? | ? | ? | ? | ? | ? | ]; try (left; eauto; fail).
  destruct (negb (Number.finite x) || Number.ltb x Number.zero); [left; eauto |].
  destruct (Money_new (VNumber x) (PurchaseOrder_currency po)); [| left; eauto].
  destruct (PurchaseOrderItem_new _ productId quantity _); [| left; eauto].
  right. eauto.
Qed.

Lemma calculateTotalPrice_pure po : snd (calculateTotalPrice po) = po.
Proof.
  run_method.
  destruct (List.length (PurchaseOrder_items po) =? 0)%nat; [reflexivity |].
  destruct (Money_new _ _); reflexivity.
Qed.

(** A call leaves the state as it was, unless the order has been
    submitted, approved or shipped, or the call cancels it. *)
Lemma state_after c po :
  PurchaseOrder_state (after c po) = PurchaseOrder_state po
  \/ PurchaseOrderState_value (PurchaseOrder_state po) = SUBMITTED
  \/ PurchaseOrderState_value (PurchaseOrder_state po) = APPROVED
  \/ PurchaseOrderState_value (PurchaseOrder_state po) = SHIPPED
  \/ PurchaseOrder_state (after c po) = mkPurchaseOrderState CANCELLED.
Proof.
  destruct c; cbn [after].
  - left. destruct (addItem_outcome productId quantity unitPrice po) as [[e ->] | [item ->]];
      reflexivity.
  - left. now rewrite calculateTotalPrice_pure.
  - pose proof (transition_outcome toApprovedFrom po) as H. cbn zeta in H.
    fold approve in H.
    destruct (toApprovedFrom_row (PurchaseOrder_state po)) as [[E R] | [E R]].
    + tauto.
    + destruct R as [msg R]. rewrite R in H. rewrite H. now left.
  - pose proof (transition_outcome toShippedFrom po) as H. cbn zeta in H.
    fold ship in H.
    destruct (toShippedFrom_row (PurchaseOrder_state po)) as [[E R] | [E R]].
    + tauto.
    + destruct R as [msg R]. rewrite R in H. rewrite H. now left.
  - pose proof (transition_outcome toCompletedFrom po) as H. cbn zeta in H.
    fold complete in H.
    destruct (toCompletedFrom_row (PurchaseOrder_state po)) as [[E R] | [E R]].
    + tauto.
    + destruct R as [msg R]. rewrite R in H. rewrite H. now left.
  - pose proof (transition_outcome toCancelledFrom po) as H. cbn zeta in H.
    fold cancel in H.
    destruct (toCancelledFrom_row (PurchaseOrder_state po)) as [[E R] | [E R]].
    + do 4 right. rewrite R in H. now rewrite H.
    + destruct R as [msg R]. rewrite R in H. rewrite H. now left.
  - now left.
Qed.

(** The state a public caller can bring about. *)
Lemma reachable_state po :
  reachable po ->
  get_state po = DRAFT \/ get_state po = CANCELLED.
Proof.
  unfold get_state.
  induction 1 as [host supplierId currency orderDate po Hnew | c po Hreach IH].
  - rewrite PurchaseOrder_new_outcome in Hnew.
    destruct (ToBoolean supplierId); [| discriminate].
    injection Hnew as <-. now left.
  - destruct (state_after c po) as [-> | [E | [E | [E | ->]]]];
      try (rewrite E in IH; destruct IH; discriminate).
    + exact IH.
    + now right.
Qed.

(** C3.  Every order reachable from the constructor through public
    calls is in state Draft or Cancelled, so [approve], [ship] and
    [complete] throw a ValidationError on it. *)
Theorem reachable_orders_never_advance po :
  reachable po ->
  (get_state po = DRAFT \/ get_state po = CANCELLED)
  /\ throws (fst (approve po))
  /\ throws (fst (ship po))
  /\ throws (fst (complete po)).
Proof.
  intros Hreach. pose proof (reachable_state po Hreach) as Hstate.
  unfold get_state in Hstate. split; [exact Hstate |].
  pose proof (transition_outcome toApprovedFrom po) as HA.
  pose proof (transition_outcome toShippedFrom po) as HS.
  pose proof (transition_outcome toCompletedFrom po) as HC.
  cbn zeta in HA, HS, HC. fold approve in HA. fold ship in HS. fold complete in HC.
  assert (TA : throws (toApprovedFrom (PurchaseOrder_state po))).
  { apply (table_row_throws _ _ _ _ (toApprovedFrom_row _)).
    destruct Hstate as [-> | ->]; discriminate. }
  assert (TS : throws (toShippedFrom (PurchaseOrder_state po))).
  { apply (table_row_throws _ _ _ _ (toShippedFrom_row _)).
    destruct Hstate as [-> | ->]; discriminate. }
  assert (TC : throws (toCompletedFrom (PurchaseOrder_state po))).
  { apply (table_row_throws _ _ _ _ (toCompletedFrom_row _)).
    destruct Hstate as [-> | ->]; discriminate. }
  destruct TA as [ma TA], TS as [ms TS], TC as [mc TC].
  rewrite TA in HA. rewrite TS in HS. rewrite TC in HC.
  rewrite HA, HS, HC. cbn. auto with completion.
Qed.

Lemma reachable_orders_never_advance_witness :
  get_state draft_order = DRAFT /\ throws (fst (approve draft_order)).
Proof.
  assert (R : reachable draft_order).
  { apply (reachable_new sample_host sample_supplier (VCurrency USD) VUndefined).
    reflexivity. }
  destruct (reachable_orders_never_advance draft_order R) as (_ & HA & _).
  split; [reflexivity | exact HA].
Defined.

(** C5.  Each of [addItem], [approve], [ship], [complete] and [cancel]
    either returns, or throws a ValidationError and leaves the whole
    aggregate (id, supplierId, currency, orderDate, items, state) as it
    was; for [addItem] this covers every cause of failure, the item
    constructor's rejection of [productId] or [quantity] included. *)
Theorem mutators_are_atomic (m : Mutator) (po : PurchaseOrder) :
  fst (invoke m po) = Normal tt
  \/ (throws (fst (invoke m po)) /\ snd (invoke m po) = po).
Proof.
  destruct m as [productId quantity unitPrice | | | |]; cbn [invoke].
  - destruct (addItem_outcome productId quantity unitPrice po) as [[e ->] | [item ->]].
    + right. cbn. auto with completion.
    + now left.
  - pose proof (transition_outcome toApprovedFrom po) as H. cbn zeta in H.
    fold approve in H.
    destruct (toApprovedFrom (PurchaseOrder_state po)); rewrite H;
      [now left | right; cbn; auto with completion].
  - pose proof (transition_outcome toShippedFrom po) as H. cbn zeta in H.
    fold ship in H.
    destruct (toShippedFrom (PurchaseOrder_state po)); rewrite H;
      [now left | right; cbn; auto with completion].
  - pose proof (transition_outcome toCompletedFrom po) as H. cbn zeta in H.
    fold complete in H.
    destruct (toCompletedFrom (PurchaseOrder_state po)); rewrite H;
      [now left | right; cbn; auto with completion].
  - pose proof (transition_outcome toCancelledFrom po) as H. cbn zeta in H.
    fold cancel in H.
    destruct (toCancelledFrom (PurchaseOrder_state po)); rewrite H;
      [now left | right; cbn; auto with completion].
Qed.

(** ** purchase-order.js: the total *)

Section Fold.

Variables A B : Type.
Variable callback : B -> A -> Completion B.

Let step (acc : Completion B) (x : A) : Completion B :=
  b <- acc ;; callback b x.

Lemma fold_left_Throw (l : list A) (e : Error) :
  fold_left step l (Throw e) = Throw e.
Proof. induction l as [| x l IH]; [reflexivity | exact IH]. Qed.

(** [reduce] is a left fold that stops at the first throw. *)
Lemma reduce_fold_left (l : list A) (initialValue : B) :
  reduce callback l initialValue = fold_left step l (Normal initialValue).
Proof.
  revert initialValue.
  induction l as [| x l IH]; intros initialValue; [reflexivity |].
  cbn [reduce fold_left]. unfold step at 2. cbn [bind].
  destruct (callback initialValue x) as [b | e]; cbn [bind].
  - apply IH.
  - symmetry. apply fold_left_Throw.
Qed.

End Fold.

Lemma fold_left_ext {A B} (f g : B -> A -> B) (l : list A) (b : B) :
  (forall b x, f b x = g b x) ->
  fold_left f l b = fold_left g l b.
Proof.
  intros H. revert b.
  induction l as [| x l IH]; intros b; [reflexivity |].
  cbn. rewrite H. apply IH.
Qed.

Lemma calculateTotalPrice_nonempty po :
  PurchaseOrder_items po <> [] ->
  fst (calculateTotalPrice po)
  = fold_of_subtotals (PurchaseOrder_currency po) (PurchaseOrder_items po).
Proof.
  intros Hne. run_method. unfold fold_of_subtotals.
  destruct (PurchaseOrder_items po) as [| item items] eqn:E; [contradiction |].
  cbn [List.length Nat.eqb].
  destruct (Money_new (VNumber Number.zero) (PurchaseOrder_currency po)) as [zero | e].
  - cbn [fst]. rewrite reduce_fold_left. apply fold_left_ext.
    intros [s | e] x; reflexivity.
  - cbn [fst]. symmetry.
    rewrite (fold_left_ext _
               (fun acc x => b <- acc ;;
                             (fun sum item' =>
                                subtotal <- calculateSubtotal item' ;;
                                Money_add sum (VMoney subtotal)) b x)).
    + apply fold_left_Throw.
    + intros [s | e'] x; reflexivity.
Qed.

(** C6.  On an empty item list [calculateTotalPrice] throws a
    ValidationError; on a non-empty one its outcome is the fold of the
    item subtotals with [Money.add] from a zero amount in the order's
    currency; the USD order with items (quantity 2, price 10.00) and
    (quantity 1, price 5.00) totals 25.00 USD. *)
Theorem calculateTotalPrice_is_fold_of_subtotals (po : PurchaseOrder) :
  (PurchaseOrder_items po = [] /\ throws (fst (calculateTotalPrice po))
   \/ PurchaseOrder_items po <> []
      /\ fst (calculateTotalPrice po)
         = fold_of_subtotals (PurchaseOrder_currency po) (PurchaseOrder_items po))
  /\ map (fun item => (PurchaseOrderItem_quantity item, PurchaseOrderItem_unitPrice item))
       (PurchaseOrder_items two_item_order)
     = [(Number.ofZ 2, mkMoney (dec 1000) USD); (Number.ofZ 1, mkMoney (dec 500) USD)]
  /\ fst (calculateTotalPrice two_item_order) = Normal (mkMoney (dec 2500) USD).
Proof.
  split; [| split; vm_compute; reflexivity].
  destruct (PurchaseOrder_items po) as [| item items] eqn:E.
  - left. split; [reflexivity |].
    run_method. rewrite E. cbn. auto with completion.
  - right. split; [discriminate |].
    rewrite <- E. apply calculateTotalPrice_nonempty. rewrite E. discriminate.
Qed.

(* ================================================================= *)
(** ** Numbers: canonical binary64 values *)

Section Binary64.

Local Open Scope Z_scope.

Lemma digits2_pos_size m : digits2_pos m = Pos.size m.
Proof. induction m; cbn; congruence. Qed.

Lemma digits2_pos_iter_xO k n :
  digits2_pos (Pos.iter xO k n) = (digits2_pos k + n)%positive.
Proof.
  induction n as [| n IH] using Pos.peano_ind.
  - cbn. lia.
  - rewrite Pos.iter_succ. cbn. rewrite IH. lia.
Qed.

Lemma Zpos_iter_xO k n : Zpos (Pos.iter xO k n) = Zpos k * 2 ^ Zpos n.
Proof.
  induction n as [| n IH] using Pos.peano_ind.
  - cbn. lia.
  - rewrite Pos.iter_succ, Pos2Z.inj_xO, IH, Pos2Z.inj_succ, Z.pow_succ_r by lia. lia.
Qed.

Lemma digits2_pos_bounds m :
  2 ^ (Zpos (digits2_pos m) - 1) <= Zpos m < 2 ^ Zpos (digits2_pos m).
Proof.
  rewrite digits2_pos_size.
  pose proof (Pos.size_gt m) as G. pose proof (Pos.size_le m) as L.
  split.
  - assert (2 ^ Zpos (Pos.size m) <= 2 * Zpos m).
    { change (2 * Zpos m) with (Zpos m~0). rewrite <- Pos2Z.inj_pow. lia. }
    replace (Zpos (Pos.size m)) with (Z.succ (Zpos (Pos.size m) - 1)) in H by lia.
    rewrite Z.pow_succ_r in H by lia. lia.
  - rewrite <- Pos2Z.inj_pow. lia.
Qed.

Lemma binary_round_aux_exact s m e :
  digits2_pos m = 53%positive ->
  -1074 <= e <= 971 ->
  binary_round_aux Number.prec Number.emax s (Zpos m) e loc_Exact = S754_finite s m e.
Proof.
  intros D He.
  assert (F : fexp Number.prec Number.emax (53 + e) - e = 0).
  { unfold fexp, emin, Number.prec, Number.emax. lia. }
  unfold binary_round_aux, shr_fexp. cbn [Zdigits2 shr_record_of_loc].
  rewrite D, F. cbn [shr shr_m loc_of_shr_record round_nearest_even Zdigits2 shr_record_of_loc].
  rewrite D, F. cbn [shr shr_m].
  unfold Number.emax, Number.prec.
  destruct (Z.leb_spec e (1024 - 53)); [reflexivity | lia].
Qed.

Lemma ofZ_pos k :
  Zpos (digits2_pos k) <= 53 ->
  Number.ofZ (Zpos k)
  = S754_finite false
      (Pos.shiftl k (Z.to_N (53 - Zpos (digits2_pos k))))
      (Zpos (digits2_pos k) - 53).
Proof.
  intros D.
  unfold Number.ofZ, binary_normalize, binary_round.
  assert (F : fexp Number.prec Number.emax (Zpos (digits2_pos k) + 0)
              = Zpos (digits2_pos k) - 53).
  { unfold fexp, emin, Number.prec, Number.emax. lia. }
  rewrite F. unfold shl_align.
  destruct (Zpos (digits2_pos k) - 53 - 0) as [| d | d] eqn:E; try lia.
  - replace (53 - Zpos (digits2_pos k)) with 0 by lia. cbn [Z.to_N Pos.shiftl].
    replace (Zpos (digits2_pos k) - 53) with 0 by lia.
    apply binary_round_aux_exact; [| lia].
    apply Pos2Z.inj. lia.
  - replace (53 - Zpos (digits2_pos k)) with (Zpos d) by lia. cbn [Z.to_N Pos.shiftl].
    apply binary_round_aux_exact; [| lia].
    rewrite digits2_pos_iter_xO. apply Pos2Z.inj. rewrite Pos2Z.inj_add. lia.
Qed.

Lemma quantity_guard_ofZ n :
  1 <= n <= 1000 -> quantity_guard (Number.ofZ n) = false.
Proof.
  intros H.
  assert (A : forallb (fun i => negb (quantity_guard (Number.ofZ (Z.of_nat i))))
                (seq 1 1000) = true) by (vm_compute; reflexivity).
  rewrite forallb_forall in A.
  specialize (A (Z.to_nat n)).
  rewrite Z2Nat.id in A by lia.
  apply negb_true_iff, A, in_seq. lia.
Qed.

Lemma quantity_guard_inv q :
  valid_binary Number.prec Number.emax q = true ->
  quantity_guard q = false ->
  exists n, 1 <= n <= 1000 /\ q = Number.ofZ n.
Proof.
  unfold quantity_guard. intros V G.
  apply orb_false_iff in G as [G G3]. apply orb_false_iff in G as [G1 G2].
  apply negb_false_iff in G1.
  destruct q as [s | s | | s m e]; try discriminate.
  destruct s; [cbn in G2; discriminate |].
  change (Number.ofZ 1000) with (S754_finite false 8796093022208000 (-43)) in G3.
  unfold Number.ltb, SFltb, SFcompare in G3.
  cbn [valid_binary] in V. unfold bounded, canonical_mantissa in V.
  apply andb_true_iff in V as [V _]. apply Z.eqb_eq in V.
  unfold fexp, emin, Number.prec, Number.emax in V.
  pose proof (digits2_pos_bounds m) as B.
  destruct e as [| e | p]; cbn [Number.integral] in G1.
  + discriminate.
  + discriminate.
  + apply Z.eqb_eq in G1.
    apply Z.mod_divide in G1; [| lia]. destruct G1 as [k Hk].
    assert (P2 : 0 < 2 ^ Zpos p) by (apply Z.pow_pos_nonneg; lia).
    assert (Kpos : 0 < k) by nia.
    destruct k as [| k | k]; try lia.
    assert (Hm : m = Pos.iter xO k p).
    { apply Pos2Z.inj. rewrite Zpos_iter_xO. exact Hk. }
    pose proof (digits2_pos_iter_xO k p) as Dk. rewrite <- Hm in Dk.
    assert (D53 : Zpos (digits2_pos m) = 53).
    { destruct (Z.max_spec (Zpos (digits2_pos m) + Zneg p - 53) (3 - 1024 - 53))
        as [[_ M] | [_ M]]; rewrite M in V; [| lia].
      exfalso.
      assert (Zpos p = 1074) by lia.
      assert (2 ^ 1074 <= Zpos m) by (rewrite Hk, H; nia).
      assert (Zpos m < 2 ^ 53).
      { destruct B as [_ B]. eapply Z.lt_le_trans; [exact B |].
        apply Z.pow_le_mono_r; lia. }
      assert (2 ^ 53 <= 2 ^ 1074) by (apply Z.pow_le_mono_r; lia).
      lia. }
    assert (Dk' : Zpos (digits2_pos k) = 53 - Zpos p).
    { rewrite Dk in D53. rewrite Pos2Z.inj_add in D53. lia. }
    exists (Zpos k). split.
    * split; [lia |].
      
      destruct (Z.compare_spec (-43) (Zneg p)) as [E | L | L].
      2: discriminate G3.
      -- injection E as <-. 
         change (Pos.compare_cont Eq 8796093022208000 m)
           with (Pos.compare 8796093022208000 m) in G3.
         destruct (Pos.compare_spec 8796093022208000 m) as [E' | L' | L'].
         2: discriminate G3.
         ++ clear - E' Hk. rewrite <- E' in Hk. change (2 ^ Zpos 43) with 8796093022208 in Hk. lia.
         ++ apply Pos2Z.pos_lt_pos in L'.
            change (2 ^ Zpos 43) with 8796093022208 in Hk. clear - L' Hk. lia.
      -- pose proof (digits2_pos_bounds k) as Bk. rewrite Dk' in Bk.
         destruct Bk as [_ Bk]. 
         assert (2 ^ (53 - Zpos p) <= 2 ^ 9) by (apply Z.pow_le_mono_r; lia).
         
         change (2 ^ 9) with 512 in H. clear - H Bk. lia.
    * rewrite ofZ_pos by lia. rewrite Dk'.
      replace (53 - (53 - Zpos p)) with (Zpos p) by lia.
      replace (53 - Zpos p - 53) with (Zneg p) by lia.
      cbn [Z.to_N Pos.shiftl]. now rewrite <- Hm.
Qed.

(** [toFixed(2)] picks a nearest count of hundredths. *)
Lemma hundredths_nearest m e :
  0 <= Number.hundredths m e /\ nearest_hundredths m e (Number.hundredths m e).
Proof.
  unfold Number.hundredths, nearest_hundredths.
  destruct e as [| e | p].
  - split; [lia | reflexivity].
  - split; [| reflexivity].
    assert (0 < 2 ^ Zpos e) by (apply Z.pow_pos_nonneg; lia). nia.
  - assert (P : 0 < 2 ^ Zpos p) by (apply Z.pow_pos_nonneg; lia).
    rewrite Z.pow_add_r, Z.pow_1_r by lia.
    set (d := 2 ^ Zpos p) in *.
    pose proof (Z.div_mod (200 * Zpos m + d) (d * 2) ltac:(lia)) as E.
    pose proof (Z.mod_pos_bound (200 * Zpos m + d) (d * 2) ltac:(lia)) as R.
    set (n := (200 * Zpos m + d) / (d * 2)) in *.
    set (r := (200 * Zpos m + d) mod (d * 2)) in *.
    assert (N : 0 <= n) by (unfold n; apply Z.div_pos; lia).
    clearbody n r d. split; lia.
Qed.

(** Binary64 addition does not depend on the order of its operands. *)
Lemma Number_add_comm x y : Number.add x y = Number.add y x.
Proof.
  unfold Number.add.
  destruct x as [sx | sx | | sx mx ex], y as [sy | sy | | sy my ey];
    try reflexivity;
    try (destruct sx, sy; reflexivity).
  unfold SFadd. rewrite (Z.min_comm ex ey). f_equal. apply Z.add_comm.
Qed.

End Binary64.

(* ================================================================= *)
(** ** purchase-order-item.js: the constructor *)

(** The guard on [quantity] lets through exactly the integers from 1
    to 1000. *)
Lemma quantity_guard_integer q :
  canonical (VNumber q) ->
  quantity_guard q = false <-> integer_between 1 1000 (VNumber q).
Proof.
  intros V. split.
  - intros G. destruct (quantity_guard_inv q V G) as (n & Hn & ->).
    exists n. split; [exact Hn | reflexivity].
  - intros (n & Hn & E). injection E as ->. now apply quantity_guard_ofZ.
Qed.

(** When the constructor returns, and what. *)
Lemma PurchaseOrderItem_new_Normal orderId productId quantity unitPrice item :
  PurchaseOrderItem_new orderId productId quantity unitPrice = Normal item
  <-> exists oid pid q price,
        orderId = VString oid /\ oid <> ""
        /\ productId = VProductId pid
        /\ quantity = VNumber q /\ quantity_guard q = false
        /\ unitPrice = VMoney price
        /\ item = mkPurchaseOrderItem oid pid q price.
Proof.
  split.
  - unfold PurchaseOrderItem_new.
    destruct orderId as [ | | ? | ? | oid | ? | ? | ? | ? | ? | ]; try discriminate.
    cbn [ToBoolean]. destruct (String.eqb_spec oid "") as [E | E]; cbn [negb];
      [discriminate |].
    destruct productId as [ | | ? | ? | ? | ? | ? | pid | ? | ? | ]; try discriminate.
    destruct quantity as [ | | ? | q | ? | ? | ? | ? | ? | ? | ]; try discriminate.
    fold (quantity_guard q). destruct (quantity_guard q) eqn:G; [discriminate |].
    destruct unitPrice as [ | | ? | ? | ? | ? | price | ? | ? | ? | ]; try discriminate.
    intros H. injection H as <-. exists oid, pid, q, price. repeat split; assumption.
  - intros (oid & pid & q & price & -> & Ho & -> & -> & G & -> & ->).
    unfold PurchaseOrderItem_new. cbn [ToBoolean].
    destruct (String.eqb_spec oid "") as [E | E]; [contradiction |]. cbn [negb].
    fold (quantity_guard q). now rewrite G.
Qed.

(** C8.  The item constructor returns exactly when [orderId] is a
    non-empty string, [productId] a ProductId, [quantity] an integer
    from 1 to 1000 and [unitPrice] a Money, and throws a ValidationError
    otherwise; quantity 1000 passes, quantities 1001 and 0 throw. *)
Theorem PurchaseOrderItem_new_validates orderId productId quantity unitPrice :
  canonical quantity ->
  ((nonempty_string orderId /\ is_ProductId productId
    /\ integer_between 1 1000 quantity /\ is_Money unitPrice)
   /\ returns (PurchaseOrderItem_new orderId productId quantity unitPrice)
   \/ ~ (nonempty_string orderId /\ is_ProductId productId
         /\ integer_between 1 1000 quantity /\ is_Money unitPrice)
      /\ throws (PurchaseOrderItem_new orderId productId quantity unitPrice))
  /\ (nonempty_string orderId -> is_ProductId productId -> is_Money unitPrice ->
      returns (PurchaseOrderItem_new orderId productId (int 1000) unitPrice))
  /\ throws (PurchaseOrderItem_new orderId productId (int 1001) unitPrice)
  /\ throws (PurchaseOrderItem_new orderId productId (int 0) unitPrice).
Proof.
  intros V. repeat split.
  - destruct (PurchaseOrderItem_new orderId productId quantity unitPrice)
      as [item | e] eqn:E.
    + left. split; [| now exists item].
      apply PurchaseOrderItem_new_Normal in E
        as (oid & pid & q & price & -> & Ho & -> & -> & G & -> & _).
      repeat split.
      * exists oid. now split.
      * now exists pid.
      * now apply quantity_guard_integer.
      * now exists price.
    + right. split; [| apply throws_Throw].
      intros ((oid & -> & Ho) & (pid & ->) & Hq & (price & ->)).
      destruct Hq as (n & Hn & ->).
      assert (N : PurchaseOrderItem_new (VString oid) (VProductId pid)
                    (VNumber (Number.ofZ n)) (VMoney price)
                  = Normal (mkPurchaseOrderItem oid pid (Number.ofZ n) price)).
      { apply PurchaseOrderItem_new_Normal.
        exists oid, pid, (Number.ofZ n), price. repeat split; try assumption.
        now apply quantity_guard_ofZ. }
      rewrite N in E. discriminate.
  - intros (oid & -> & Ho) (pid & ->) (price & ->).
    exists (mkPurchaseOrderItem oid pid (Number.ofZ 1000) price).
    apply PurchaseOrderItem_new_Normal.
    exists oid, pid, (Number.ofZ 1000), price. repeat split; assumption.
  - destruct (PurchaseOrderItem_new orderId productId (int 1001) unitPrice)
      as [item | e] eqn:E; [| apply throws_Throw].
    apply PurchaseOrderItem_new_Normal in E
      as (oid & pid & q & price & _ & _ & _ & Hq & G & _).
    injection Hq as <-. discriminate G.
  - destruct (PurchaseOrderItem_new orderId productId (int 0) unitPrice)
      as [item | e] eqn:E; [| apply throws_Throw].
    apply PurchaseOrderItem_new_Normal in E
      as (oid & pid & q & price & _ & _ & _ & Hq & G & _).
    injection Hq as <-. discriminate G.
Qed.

Lemma PurchaseOrderItem_new_validates_witness :
  returns (PurchaseOrderItem_new (VString "3f2b8c1e") sample_product (int 1000)
             (VMoney (mkMoney (dec 500) USD)))
  /\ throws (PurchaseOrderItem_new (VString "3f2b8c1e") sample_product (int 1001)
               (VMoney (mkMoney (dec 500) USD))).
Proof.
  assert (V : canonical (int 7)) by reflexivity.
  destruct (PurchaseOrderItem_new_validates (VString "3f2b8c1e") sample_product (int 7)
              (VMoney (mkMoney (dec 500) USD)) V) as (_ & H1000 & H1001 & _).
  split; [| exact H1001].
  apply H1000.
  - exists "3f2b8c1e". split; [reflexivity | discriminate].
  - now exists (mkProductId "9b2e4d6f-1a3c-4b5d-8e7f-6a5b4c3d2e1f").
  - now exists (mkMoney (dec 500) USD).
Defined.

(* ================================================================= *)
(** ** money.js: the constructor *)

(** When the constructor returns, and what. *)
Lemma Money_new_Normal amount currency money :
  Money_new amount currency = Normal money
  <-> exists x c,
        amount = VNumber x /\ Number.finite x = true
        /\ Number.ltb x Number.zero = false
        /\ currency = VCurrency c
        /\ money = mkMoney (Number.toFixed2 x) c.
Proof.
  split.
  - unfold Money_new.
    destruct amount as [ | | ? | x | ? | ? | ? | ? | ? | ? | ]; try discriminate.
    destruct (Number.finite x) eqn:F; cbn [negb orb]; [| discriminate].
    destruct (Number.ltb x Number.zero) eqn:L; [discriminate |].
    destruct currency as [ | | ? | ? | ? | c | ? | ? | ? | ? | ]; try discriminate.
    intros H. injection H as <-. exists x, c. repeat split; assumption.
  - intros (x & c & -> & F & L & -> & ->).
    unfold Money_new. now rewrite F, L.
Qed.

(* ================================================================= *)
(** ** purchase-order.js: [addItem] *)

(** When [addItem] returns, and the item it appends. *)
Lemma addItem_Normal productId quantity unitPrice po :
  fst (addItem productId quantity unitPrice po) = Normal tt
  <-> isDraft (PurchaseOrder_state po) = true
      /\ (List.length (PurchaseOrder_items po) < MAX_ITEMS)%nat
      /\ exists money item,
           nonnegative_finite unitPrice
           /\ Money_new unitPrice (PurchaseOrder_currency po) = Normal money
           /\ PurchaseOrderItem_new (VString (PurchaseOrder_id po)) productId quantity
                (VMoney money) = Normal item
           /\ snd (addItem productId quantity unitPrice po)
              = mkPurchaseOrder (PurchaseOrder_id po) (PurchaseOrder_supplierId po)
                  (PurchaseOrder_currency po) (PurchaseOrder_orderDate po)
                  (PurchaseOrder_items po ++ [item])%list (PurchaseOrder_state po).
Proof.
  run_method.
  destruct (isDraft (PurchaseOrder_state po)); cbn [negb];
    [| split; [discriminate | intros [H _]; discriminate]].
  destruct (Nat.leb_spec MAX_ITEMS (List.length (PurchaseOrder_items po))) as [Lm | Lm];
    [split; [discriminate | intros (_ & H & _); lia] |].
  destruct unitPrice as [ | | ? | x | ? | ? | ? | ? | ? | ? | ];
    try (split; [discriminate | intros (_ & _ & ? & ? & (y & Hy & _) & _); discriminate]).
  destruct (Number.finite x) eqn:F; cbn [negb orb].
  2: { split; [discriminate |].
       intros (_ & _ & m & i & (y & Hy & Fy & _) & _). injection Hy as <-. congruence. }
  destruct (Number.ltb x Number.zero) eqn:L.
  { split; [discriminate |].
    intros (_ & _ & m & i & (y & Hy & _ & Ly) & _). injection Hy as <-. congruence. }
  destruct (Money_new (VNumber x) (PurchaseOrder_currency po)) as [money | e].
  2: { split; [discriminate | intros (_ & _ & m & i & _ & H & _); discriminate]. }
  destruct (PurchaseOrderItem_new (VString (PurchaseOrder_id po)) productId quantity
              (VMoney money)) as [item | e] eqn:I.
  2: { split; [discriminate |].
       intros (_ & _ & m & i & _ & Hm & Hi & _). injection Hm as <-.
       rewrite I in Hi. discriminate. }
  cbn [fst snd]. split; [| reflexivity].
  intros _. split; [reflexivity |]. split; [exact Lm |].
  exists money, item. repeat split; try reflexivity; [| exact I].
  exists x. repeat split; assumption.
Qed.

Lemma unit_completion (c : Completion unit) : c = Normal tt \/ throws c.
Proof.
  destruct c as [[] | e]; [now left | right; apply throws_Throw].
Qed.

(** What a returning [addItem] tells about its arguments. *)
Lemma addItem_Normal_arguments productId quantity unitPrice po :
  canonical quantity ->
  fst (addItem productId quantity unitPrice po) = Normal tt ->
  get_isDraft po = true
  /\ (List.length (PurchaseOrder_items po) < MAX_ITEMS)%nat
  /\ nonnegative_finite unitPrice
  /\ is_ProductId productId
  /\ integer_between 1 1000 quantity.
Proof.
  intros V H.
  apply addItem_Normal in H as (D & L & money & item & U & _ & I & _).
  apply PurchaseOrderItem_new_Normal in I
    as (oid & pid & q & price & _ & _ & -> & -> & G & _).
  repeat split; try assumption.
  - now exists pid.
  - now apply quantity_guard_integer.
Qed.

(** The run of [addItem] when no guard fires. *)
Lemma addItem_returns productId quantity unitPrice po money item :
  isDraft (PurchaseOrder_state po) = true ->
  (List.length (PurchaseOrder_items po) < MAX_ITEMS)%nat ->
  nonnegative_finite unitPrice ->
  Money_new unitPrice (PurchaseOrder_currency po) = Normal money ->
  PurchaseOrderItem_new (VString (PurchaseOrder_id po)) productId quantity
    (VMoney money) = Normal item ->
  addItem productId quantity unitPrice po
  = (Normal tt,
     mkPurchaseOrder (PurchaseOrder_id po) (PurchaseOrder_supplierId po)
       (PurchaseOrder_currency po) (PurchaseOrder_orderDate po)
       (PurchaseOrder_items po ++ [item])%list (PurchaseOrder_state po)).
Proof.
  intros D L (x & -> & F & N) M I. run_method.
  rewrite D. cbn [negb].
  destruct (Nat.leb_spec MAX_ITEMS (List.length (PurchaseOrder_items po))); [lia |].
  rewrite F, N. cbn [negb orb]. now rewrite M, I.
Qed.

(** Arguments on which [addItem] returns. *)
Lemma addItem_accepts productId quantity unitPrice po :
  PurchaseOrder_id po <> "" ->
  is_Currency (PurchaseOrder_currency po) ->
  get_isDraft po = true ->
  (List.length (PurchaseOrder_items po) < MAX_ITEMS)%nat ->
  nonnegative_finite unitPrice ->
  is_ProductId productId ->
  integer_between 1 1000 quantity ->
  fst (addItem productId quantity unitPrice po) = Normal tt
  /\ List.length (PurchaseOrder_items (snd (addItem productId quantity unitPrice po)))
     = S (List.length (PurchaseOrder_items po)).
Proof.
  intros Hid (c & Hc) D L U (pid & ->) (n & Hn & ->).
  pose proof U as (x & Hx & F & N).
  assert (M : Money_new unitPrice (PurchaseOrder_currency po)
              = Normal (mkMoney (Number.toFixed2 x) c)).
  { apply Money_new_Normal. exists x, c. repeat split; assumption. }
  assert (I : PurchaseOrderItem_new (VString (PurchaseOrder_id po)) (VProductId pid)
                (VNumber (Number.ofZ n)) (VMoney (mkMoney (Number.toFixed2 x) c))
              = Normal (mkPurchaseOrderItem (PurchaseOrder_id po) pid (Number.ofZ n)
                          (mkMoney (Number.toFixed2 x) c))).
  { apply PurchaseOrderItem_new_Normal.
    exists (PurchaseOrder_id po), pid, (Number.ofZ n), (mkMoney (Number.toFixed2 x) c).
    repeat split; try assumption. now apply quantity_guard_ofZ. }
  rewrite (addItem_returns _ _ _ _ _ _ D L U M I). cbn [fst snd PurchaseOrder_items].
  split; [reflexivity |]. rewrite length_app. cbn. lia.
Qed.

(** C7, as the code has it.  On an order with a non-empty id and a
    Currency, [addItem] throws a ValidationError exactly when the order
    is not a draft, or already holds 50 items, or [unitPrice] is not a
    non-negative finite number, or [productId] is not a ProductId, or
    [quantity] is not an integer from 1 to 1000; so on a draft with 49
    items a well-formed item is appended as the 50th, and with 50 items
    every call throws. *)
Theorem addItem_throws_exactly po productId quantity unitPrice :
  PurchaseOrder_id po <> "" ->
  is_Currency (PurchaseOrder_currency po) ->
  canonical quantity ->
  (throws (fst (addItem productId quantity unitPrice po))
   <-> get_isDraft po = false
       \/ (MAX_ITEMS <= List.length (PurchaseOrder_items po))%nat
       \/ ~ nonnegative_finite unitPrice
       \/ ~ is_ProductId productId
       \/ ~ integer_between 1 1000 quantity)
  /\ (get_isDraft po = true ->
      List.length (PurchaseOrder_items po) = 49%nat ->
      nonnegative_finite unitPrice -> is_ProductId productId ->
      integer_between 1 1000 quantity ->
      fst (addItem productId quantity unitPrice po) = Normal tt
      /\ List.length (PurchaseOrder_items (snd (addItem productId quantity unitPrice po)))
         = 50%nat)
  /\ (List.length (PurchaseOrder_items po) = 50%nat ->
      throws (fst (addItem productId quantity unitPrice po))).
Proof.
  intros Hid Hc V.
  assert (Back : get_isDraft po = false
       \/ (MAX_ITEMS <= List.length (PurchaseOrder_items po))%nat
       \/ ~ nonnegative_finite unitPrice
       \/ ~ is_ProductId productId
       \/ ~ integer_between 1 1000 quantity ->
       throws (fst (addItem productId quantity unitPrice po))).
  { intros H.
    destruct (unit_completion (fst (addItem productId quantity unitPrice po)))
      as [R | T]; [| exact T].
    exfalso. apply (addItem_Normal_arguments _ _ _ _ V) in R as (D & L & U & P & Q).
    destruct H as [H | [H | [H | [H | H]]]]; try contradiction.
    - congruence.
    - lia. }
  split; [split; [| exact Back] |].
  - intros T.
    destruct (get_isDraft po) eqn:D; [| now left]. right.
    destruct (Nat.leb_spec MAX_ITEMS (List.length (PurchaseOrder_items po))) as [L | L];
      [now left |]. right.
    assert (DU : nonnegative_finite unitPrice \/ ~ nonnegative_finite unitPrice).
    { destruct unitPrice as [ | | ? | x | ? | ? | ? | ? | ? | ? | ];
        try (right; intros (y & Hy & _); discriminate).
      destruct (Number.finite x) eqn:F.
      - destruct (Number.ltb x Number.zero) eqn:N.
        + right. intros (y & Hy & _ & Ny). injection Hy as <-. congruence.
        + left. exists x. repeat split; assumption.
      - right. intros (y & Hy & Fy & _). injection Hy as <-. congruence. }
    destruct DU as [U | U]; [| now left]. right.
    assert (DP : is_ProductId productId \/ ~ is_ProductId productId).
    { destruct productId as [ | | ? | ? | ? | ? | ? | pid | ? | ? | ];
        try (right; intros (y & Hy); discriminate).
      left. now exists pid. }
    destruct DP as [P | P]; [| now left]. right.
    intros Q.
    destruct (addItem_accepts productId quantity unitPrice po Hid Hc D L U P Q) as [R _].
    rewrite R in T. now apply throws_not_Normal in T.
  - split.
    + intros D L U P Q.
      assert (L' : (List.length (PurchaseOrder_items po) < MAX_ITEMS)%nat)
        by (unfold MAX_ITEMS; lia).
      destruct (addItem_accepts productId quantity unitPrice po Hid Hc D L' U P Q)
        as [R Len].
      split; [exact R |]. rewrite Len, L. reflexivity.
    + intros L. apply Back. right. left. unfold MAX_ITEMS. lia.
Qed.

Lemma addItem_throws_exactly_witness :
  fst (addItem sample_product (int 1) (int 1) (order_with 49)) = Normal tt
  /\ throws (fst (addItem sample_product (int 1) (int 1) (order_with 50))).
Proof.
  split.
  - assert (Hid : PurchaseOrder_id (order_with 49) <> "") by (vm_compute; discriminate).
    assert (Hc : is_Currency (PurchaseOrder_currency (order_with 49)))
      by (exists USD; vm_compute; reflexivity).
    assert (V : canonical (int 1)) by reflexivity.
    destruct (addItem_throws_exactly (order_with 49) sample_product (int 1) (int 1)
                Hid Hc V) as (_ & H49 & _).
    apply H49.
    + vm_compute; reflexivity.
    + vm_compute; reflexivity.
    + exists (Number.ofZ 1). repeat split; reflexivity.
    + now exists (mkProductId "9b2e4d6f-1a3c-4b5d-8e7f-6a5b4c3d2e1f").
    + exists 1%Z. split; [lia | reflexivity].
  - assert (Hid : PurchaseOrder_id (order_with 50) <> "") by (vm_compute; discriminate).
    assert (Hc : is_Currency (PurchaseOrder_currency (order_with 50)))
      by (exists USD; vm_compute; reflexivity).
    assert (V : canonical (int 1)) by reflexivity.
    destruct (addItem_throws_exactly (order_with 50) sample_product (int 1) (int 1)
                Hid Hc V) as (_ & _ & H50).
    apply H50. vm_compute; reflexivity.
Defined.

(** C7, as stated, fails: a draft order with no items is handed a
    non-negative finite [unitPrice], yet [addItem] throws, because the
    quantity 0 is turned down by the item constructor. *)
Lemma addItem_throws_on_bad_quantity :
  get_isDraft draft_order = true
  /\ List.length (PurchaseOrder_items draft_order) = 0%nat
  /\ nonnegative_finite (int 10)
  /\ fst (addItem sample_product (int 0) (int 10) draft_order)
     = Throw (ValidationError "quantity must be a positive integer not exceeding 1000").
Proof.
  repeat split.
  exists (Number.ofZ 10). repeat split; reflexivity.
Qed.

(* ================================================================= *)
(** ** money.js: [add] and [multiply] *)

Lemma Currency_eq_dec (c d : Currency) : {c = d} + {c <> d}.
Proof.
  destruct c as [x], d as [y]. destruct (string_dec x y) as [-> | N].
  - now left.
  - right. intros H. injection H as H. contradiction.
Defined.

Lemma Currency_equals_eq (c d : Currency) :
  Currency_equals c (VCurrency d) = true <-> c = d.
Proof.
  destruct c as [x], d as [y]. cbn. rewrite String.eqb_eq. split.
  - now intros ->.
  - intros H. now injection H.
Qed.

(** C10, as the code has it.  For Money values of one currency
    [a.add(b)] and [b.add(a)] have the same outcome; for Money values
    of different currencies [add] throws a ValidationError either way
    round. *)
Theorem Money_add_commutes (a b : Money) :
  Money_currency a = Money_currency b
  /\ Money_add a (VMoney b) = Money_add b (VMoney a)
  \/ Money_currency a <> Money_currency b
     /\ throws (Money_add a (VMoney b))
     /\ throws (Money_add b (VMoney a)).
Proof.
  destruct (Currency_eq_dec (Money_currency a) (Money_currency b)) as [E | N].
  - left. split; [exact E |].
    unfold Money_add. rewrite <- E.
    now rewrite (Number_add_comm (Money_amount a) (Money_amount b)).
  - right. split; [exact N |].
    unfold Money_add.
    destruct (Currency_equals (Money_currency a) (VCurrency (Money_currency b))) eqn:Eab.
    { apply Currency_equals_eq in Eab. contradiction. }
    destruct (Currency_equals (Money_currency b) (VCurrency (Money_currency a))) eqn:Eba.
    { apply Currency_equals_eq in Eba. symmetry in Eba. contradiction. }
    cbn. auto with completion.
Qed.

(** C10, as stated, fails.  With a = 9007199254740992.00, b = c = 1.00
    USD, (a.add(b)).add(c) stays at 9007199254740992 while
    a.add(b.add(c)) is 9007199254740994.  With m = 0.01 USD,
    m.multiply(0.5).multiply(2) is 0.02 while m.multiply(2).multiply(0.5)
    and m.multiply(0.5 * 2) are 0.01. *)
Lemma Money_add_multiply_not_associative :
  let a := mkMoney (Number.ofZ 9007199254740992) USD in
  let b := mkMoney (Number.ofZ 1) USD in
  let c := mkMoney (Number.ofZ 1) USD in
  let m := mkMoney (dec 1) USD in
  Money_new (int 9007199254740992) (VCurrency USD) = Normal a
  /\ Money_new (int 1) (VCurrency USD) = Normal b
  /\ (ab <- Money_add a (VMoney b) ;; Money_add ab (VMoney c)) = Normal a
  /\ (bc <- Money_add b (VMoney c) ;; Money_add a (VMoney bc))
     = Normal (mkMoney (Number.ofZ 9007199254740994) USD)
  /\ (ab <- Money_add a (VMoney b) ;; Money_add ab (VMoney c))
     <> (bc <- Money_add b (VMoney c) ;; Money_add a (VMoney bc))
  /\ Money_new (VNumber (dec 1)) (VCurrency USD) = Normal m
  /\ (h <- Money_multiply m (VNumber (dec 50)) ;; Money_multiply h (int 2))
     = Normal (mkMoney (dec 2) USD)
  /\ (d <- Money_multiply m (int 2) ;; Money_multiply d (VNumber (dec 50)))
     = Normal (mkMoney (dec 1) USD)
  /\ Money_multiply m (VNumber (Number.mul (dec 50) (Number.ofZ 2)))
     = Normal (mkMoney (dec 1) USD).
Proof.
  cbv zeta. repeat split; try (vm_compute; reflexivity).
  vm_compute. discriminate.
Qed.

(* ================================================================= *)
(** ** purchase-order.js: invariants of the aggregate *)

(** The two ways a call to [addItem] can end. *)
Lemma addItem_cases productId quantity unitPrice po :
  (throws (fst (addItem productId quantity unitPrice po))
   /\ snd (addItem productId quantity unitPrice po) = po)
  \/ (exists item,
        isDraft (PurchaseOrder_state po) = true
        /\ (List.length (PurchaseOrder_items po) < MAX_ITEMS)%nat
        /\ item_of po item
        /\ addItem productId quantity unitPrice po
           = (Normal tt,
              mkPurchaseOrder (PurchaseOrder_id po) (PurchaseOrder_supplierId po)
                (PurchaseOrder_currency po) (PurchaseOrder_orderDate po)
                (PurchaseOrder_items po ++ [item])%list (PurchaseOrder_state po))).
Proof.
  destruct (addItem_outcome productId quantity unitPrice po) as [[e E] | [item E]].
  - left. rewrite E. cbn. auto with completion.
  - right. exists item.
    assert (R : fst (addItem productId quantity unitPrice po) = Normal tt)
      by now rewrite E.
    apply addItem_Normal in R as (D & L & money & item' & U & M & I & S).
    rewrite E in S. cbn [snd] in S.
    assert (item' = item).
    { injection S as S. apply app_inj_tail in S as [_ S]. now symmetry. }
    subst item'. repeat split; try assumption.
    + apply PurchaseOrderItem_new_Normal in I
        as (oid & pid & q & price & Ho & _ & _ & _ & _ & _ & ->).
      cbn. now injection Ho as <-.
    + apply Money_new_Normal in M as (x & c & _ & _ & _ & Hc & ->).
      apply PurchaseOrderItem_new_Normal in I
        as (oid & pid & q & price & _ & _ & _ & _ & _ & Hp & ->).
      injection Hp as <-. cbn. now symmetry.
    + apply PurchaseOrderItem_new_Normal in I
        as (oid & pid & q & price & _ & _ & _ & _ & G & _ & ->).
      exact G.
Qed.

(** A state transition changes the state field only. *)
Lemma transition_cases
  (operation : PurchaseOrderState -> Completion PurchaseOrderState) po :
  let m := (this <~ this_ ;;
            state <~ call (operation (PurchaseOrder_state this)) ;;
            set_state state) in
  identity_of (snd (m po)) = identity_of po
  /\ PurchaseOrder_items (snd (m po)) = PurchaseOrder_items po.
Proof.
  cbv zeta. pose proof (transition_outcome operation po) as H. cbv zeta in H.
  destruct (operation (PurchaseOrder_state po)); rewrite H; split; reflexivity.
Qed.

Lemma after_identity (c : Call) (po : PurchaseOrder) :
  identity_of (after c po) = identity_of po.
Proof.
  destruct c; cbn [after].
  - destruct (addItem_outcome productId quantity unitPrice po) as [[e ->] | [item ->]];
      reflexivity.
  - now rewrite calculateTotalPrice_pure.
  - apply (transition_cases toApprovedFrom).
  - apply (transition_cases toShippedFrom).
  - apply (transition_cases toCompletedFrom).
  - apply (transition_cases toCancelledFrom).
  - reflexivity.
Qed.

(** X1.  No call assigns [id], [supplierId], [currency] or
    [orderDate]: whatever is called on an order, with whatever
    arguments and outcome, these four fields stay as the constructor
    set them. *)
Theorem calls_keep_identity (c : Call) (po : PurchaseOrder) :
  identity_of (after c po) = identity_of po.
Proof. apply after_identity. Qed.

Lemma after_items (c : Call) (po : PurchaseOrder) :
  PurchaseOrder_items (after c po) = PurchaseOrder_items po
  \/ exists productId quantity unitPrice item,
       c = CallAddItem productId quantity unitPrice
       /\ isDraft (PurchaseOrder_state po) = true
       /\ (List.length (PurchaseOrder_items po) < MAX_ITEMS)%nat
       /\ item_of po item
       /\ PurchaseOrder_items (after c po) = (PurchaseOrder_items po ++ [item])%list.
Proof.
  destruct c; cbn [after].
  - destruct (addItem_cases productId quantity unitPrice po)
      as [[_ ->] | (item & D & L & I & ->)].
    + now left.
    + right. exists productId, quantity, unitPrice, item.
      split; [reflexivity |]. split; [exact D |]. split; [exact L |].
      split; [exact I | reflexivity].
  - left. now rewrite calculateTotalPrice_pure.
  - left. apply (transition_cases toApprovedFrom).
  - left. apply (transition_cases toShippedFrom).
  - left. apply (transition_cases toCompletedFrom).
  - left. apply (transition_cases toCancelledFrom).
  - now left.
Qed.

(** X2.  The item list only grows, and only at its end.  A call that
    is not [addItem], and an [addItem] that throws, leave it as it was.
    An [addItem] that returns was made on a draft with room left, and
    appends exactly one item: the one the item constructor builds from
    this order's id, the given product and quantity, and the given
    price in the order's currency. *)
Theorem calls_append_only (c : Call) (po : PurchaseOrder) :
  match c with
  | CallAddItem productId quantity unitPrice =>
      (throws (fst (addItem productId quantity unitPrice po))
       /\ PurchaseOrder_items (after c po) = PurchaseOrder_items po)
      \/ (fst (addItem productId quantity unitPrice po) = Normal tt
          /\ isDraft (PurchaseOrder_state po) = true
          /\ (List.length (PurchaseOrder_items po) < MAX_ITEMS)%nat
          /\ exists money item,
               Money_new unitPrice (PurchaseOrder_currency po) = Normal money
               /\ PurchaseOrderItem_new (VString (PurchaseOrder_id po)) productId quantity
                    (VMoney money) = Normal item
               /\ item_of po item
               /\ PurchaseOrder_items (after c po)
                  = (PurchaseOrder_items po ++ [item])%list)
  | _ => PurchaseOrder_items (after c po) = PurchaseOrder_items po
  end.
Proof.
  destruct c; cbn [after].
  - destruct (addItem_cases productId quantity unitPrice po)
      as [[T S] | (item & D & L & I & E)].
    + left. split; [exact T | now rewrite S].
    + right.
      assert (R : fst (addItem productId quantity unitPrice po) = Normal tt)
        by now rewrite E.
      split; [exact R |]. split; [exact D |]. split; [exact L |].
      apply addItem_Normal in R as (_ & _ & money & item' & _ & M & N & S).
      rewrite E in S. cbn [snd] in S.
      assert (item' = item).
      { injection S as S. apply app_inj_tail in S as [_ S]. now symmetry. }
      subst item'. exists money, item. rewrite E.
      split; [exact M |]. split; [exact N |]. split; [exact I | reflexivity].
  - now rewrite calculateTotalPrice_pure.
  - apply (transition_cases toApprovedFrom).
  - apply (transition_cases toShippedFrom).
  - apply (transition_cases toCompletedFrom).
  - apply (transition_cases toCancelledFrom).
  - reflexivity.
Qed.

Lemma item_of_identity po po' item :
  identity_of po' = identity_of po -> item_of po item -> item_of po' item.
Proof.
  unfold identity_of, item_of. intros E (H1 & H2 & H3).
  injection E as -> _ -> _. repeat split; assumption.
Qed.

Lemma reachable_items (po : PurchaseOrder) :
  reachable po ->
  (List.length (PurchaseOrder_items po) <= MAX_ITEMS)%nat
  /\ Forall (item_of po) (PurchaseOrder_items po).
Proof.
  induction 1 as [host supplierId currency orderDate po Hnew | c po Hreach [IHn IHf]].
  - rewrite PurchaseOrder_new_outcome in Hnew.
    destruct (ToBoolean supplierId); [| discriminate].
    injection Hnew as <-. cbn. split; [lia | constructor].
  - pose proof (after_identity c po) as Hid.
    assert (Old : Forall (item_of (after c po)) (PurchaseOrder_items po)).
    { eapply Forall_impl; [| exact IHf].
      intros item. now apply item_of_identity. }
    destruct (after_items c po)
      as [-> | (productId & quantity & unitPrice & item & _ & _ & L & I & ->)].
    + split; assumption.
    + split.
      * rewrite length_app. cbn. lia.
      * apply Forall_app. split; [exact Old |].
        constructor; [| constructor]. now apply (item_of_identity po).
Qed.

(** X3.  Every order built through the public interface holds at most
    50 items, each bound to the order's own id, priced in the order's
    currency and with a quantity that passed the item constructor. *)
Theorem reachable_items_invariant (po : PurchaseOrder) :
  reachable po ->
  (List.length (PurchaseOrder_items po) <= MAX_ITEMS)%nat
  /\ Forall (item_of po) (PurchaseOrder_items po).
Proof. apply reachable_items. Qed.

Lemma reachable_items_invariant_witness :
  (List.length (PurchaseOrder_items two_item_order) <= MAX_ITEMS)%nat
  /\ Forall (item_of two_item_order) (PurchaseOrder_items two_item_order).
Proof.
  apply reachable_items_invariant.
  apply (reachable_after (CallAddItem sample_product (int 1) (VNumber (dec 500)))).
  apply (reachable_after (CallAddItem sample_product (int 2) (VNumber (dec 1000)))).
  apply (reachable_new sample_host sample_supplier (VCurrency USD) VUndefined).
  reflexivity.
Defined.

(** X4.  A cancelled order is frozen: no call, whatever its arguments,
    changes any field of it. *)
Theorem cancelled_order_is_frozen (c : Call) (po : PurchaseOrder) :
  get_state po = CANCELLED ->
  after c po = po.
Proof.
  unfold get_state. intros E.
  assert (S : PurchaseOrder_state po = mkPurchaseOrderState CANCELLED).
  { destruct (PurchaseOrder_state po) as [v]. cbn in E. now rewrite E. }
  destruct c; cbn [after].
  - destruct (addItem_cases productId quantity unitPrice po)
      as [[_ ->] | (item & D & _)]; [reflexivity |].
    rewrite S in D. discriminate D.
  - apply calculateTotalPrice_pure.
  - pose proof (transition_outcome toApprovedFrom po) as H. cbn zeta in H.
    fold approve in H.
    assert (T : toApprovedFrom (PurchaseOrder_state po)
                = Throw (ValidationError "Cannot transition from Cancelled to Approved"))
      by (rewrite S; reflexivity).
    rewrite T in H. now rewrite H.
  - pose proof (transition_outcome toShippedFrom po) as H. cbn zeta in H.
    fold ship in H.
    assert (T : toShippedFrom (PurchaseOrder_state po)
                = Throw (ValidationError "Cannot transition from Cancelled to Shipped"))
      by (rewrite S; reflexivity).
    rewrite T in H. now rewrite H.
  - pose proof (transition_outcome toCompletedFrom po) as H. cbn zeta in H.
    fold complete in H.
    assert (T : toCompletedFrom (PurchaseOrder_state po)
                = Throw (ValidationError "Cannot transition from Cancelled to Completed"))
      by (rewrite S; reflexivity).
    rewrite T in H. now rewrite H.
  - pose proof (transition_outcome toCancelledFrom po) as H. cbn zeta in H.
    fold cancel in H.
    assert (T : toCancelledFrom (PurchaseOrder_state po)
                = Normal (mkPurchaseOrderState CANCELLED))
      by (rewrite S; reflexivity).
    rewrite T in H. rewrite H. cbn [snd].
    destruct po; cbn in *. now rewrite S.
  - reflexivity.
Qed.

Lemma cancelled_order_is_frozen_witness :
  after (CallAddItem sample_product (int 1) (int 1)) (snd (cancel draft_order))
  = snd (cancel draft_order).
Proof.
  apply cancelled_order_is_frozen. reflexivity.
Defined.

(** A quantity the item constructor lets through passes the guard of
    [Money.multiply] as well. *)
Lemma quantity_guard_multiplier q :
  quantity_guard q = false ->
  Number.finite q = true /\ Number.ltb q Number.zero = false.
Proof.
  unfold quantity_guard. intros G.
  apply orb_false_iff in G as [G _]. apply orb_false_iff in G as [G1 G2].
  apply negb_false_iff in G1. split.
  - destruct q; try reflexivity; discriminate G1.
  - unfold Number.ltb, SFltb. unfold Number.leb, SFleb in G2.
    destruct (SFcompare q Number.zero) as [[| |] |]; try reflexivity; discriminate G2.
Qed.

(** With a Currency at hand the Money constructor can only object to
    the amount. *)
Lemma Money_new_with_Currency x c :
  Money_new (VNumber x) (VCurrency c) = Normal (mkMoney (Number.toFixed2 x) c)
  \/ Money_new (VNumber x) (VCurrency c) = Throw (ValidationError AMOUNT_RANGE).
Proof.
  unfold Money_new.
  destruct (negb (Number.finite x) || Number.ltb x Number.zero); [now right | now left].
Qed.

(** The subtotal of an item with a validated quantity is the Money of
    the binary64 product; the multiplier guard cannot fire. *)
Lemma calculateSubtotal_validated item :
  quantity_guard (PurchaseOrderItem_quantity item) = false ->
  calculateSubtotal item
  = Money_new
      (VNumber (Number.mul (Money_amount (PurchaseOrderItem_unitPrice item))
                  (PurchaseOrderItem_quantity item)))
      (VCurrency (Money_currency (PurchaseOrderItem_unitPrice item))).
Proof.
  intros G. apply quantity_guard_multiplier in G as [F L].
  unfold calculateSubtotal, Money_multiply. now rewrite F, L.
Qed.

Section Total.

Variable c : Currency.

Let summed (sum : Money) (item : PurchaseOrderItem) : Completion Money :=
  subtotal <- calculateSubtotal item ;;
  Money_add sum (VMoney subtotal).

Let priced (item : PurchaseOrderItem) : Prop :=
  Money_currency (PurchaseOrderItem_unitPrice item) = c
  /\ quantity_guard (PurchaseOrderItem_quantity item) = false.

Lemma summed_cases sum item :
  Money_currency sum = c -> priced item ->
  (exists total, summed sum item = Normal total /\ Money_currency total = c)
  \/ summed sum item = Throw (ValidationError AMOUNT_RANGE).
Proof.
  intros Hs [Hc G]. unfold summed.
  rewrite (calculateSubtotal_validated item G), Hc.
  destruct (Money_new_with_Currency
              (Number.mul (Money_amount (PurchaseOrderItem_unitPrice item))
                 (PurchaseOrderItem_quantity item)) c) as [-> | ->];
    [| now right].
  cbn [bind]. unfold Money_add. cbn [Money_currency Money_amount].
  assert (E : Currency_equals (Money_currency sum) (VCurrency c) = true)
    by now apply Currency_equals_eq.
  rewrite E. cbn [negb]. rewrite Hs.
  destruct (Money_new_with_Currency
              (Number.add (Money_amount sum)
                 (Number.toFixed2
                    (Number.mul (Money_amount (PurchaseOrderItem_unitPrice item))
                       (PurchaseOrderItem_quantity item)))) c) as [-> | ->];
    [left | now right].
  eexists. split; reflexivity.
Qed.

Lemma reduce_summed_cases items sum :
  Money_currency sum = c -> Forall priced items ->
  (exists total, reduce summed items sum = Normal total /\ Money_currency total = c)
  \/ reduce summed items sum = Throw (ValidationError AMOUNT_RANGE).
Proof.
  intros Hs Hf. revert sum Hs.
  induction Hf as [| item items Hi Hf IH]; intros sum Hs.
  - left. exists sum. split; [reflexivity | exact Hs].
  - cbn [reduce].
    destruct (summed_cases sum item Hs Hi) as [(total & -> & Ht) | ->].
    + cbn [bind]. now apply IH.
    + now right.
Qed.

End Total.

(** X5.  On an order built through the public interface the total fails in
    two ways only: with the empty-order message when there is no item,
    and with Money's amount message when a product or sum leaves the
    finite range.  Neither the multiplier guard nor the currency guard
    of [Money.add] can fire, and a returned total is in the order's
    currency. *)
Theorem reachable_total_outcomes (po : PurchaseOrder) :
  reachable po ->
  (PurchaseOrder_items po = []
   /\ fst (calculateTotalPrice po) = Throw (ValidationError EMPTY_ORDER))
  \/ (PurchaseOrder_items po <> []
      /\ ((exists total,
              fst (calculateTotalPrice po) = Normal total
              /\ VCurrency (Money_currency total) = PurchaseOrder_currency po)
          \/ fst (calculateTotalPrice po) = Throw (ValidationError AMOUNT_RANGE))).
Proof.
  intros Hreach. destruct (reachable_items po Hreach) as [_ Hf].
  run_method.
  destruct (PurchaseOrder_items po) as [| item items] eqn:E.
  - left. split; reflexivity.
  - right. split; [discriminate |]. cbn [List.length Nat.eqb].
    pose proof (Forall_inv Hf) as (_ & Hc & _).
    set (c := Money_currency (PurchaseOrderItem_unitPrice item)) in *.
    rewrite <- Hc.
    change (Money_new (VNumber Number.zero) (VCurrency c))
      with (Normal (mkMoney Number.zero c)).
    cbn [fst].
    assert (Hp : Forall (fun it =>
                          Money_currency (PurchaseOrderItem_unitPrice it) = c
                          /\ quantity_guard (PurchaseOrderItem_quantity it) = false)
                   (item :: items)).
    { eapply Forall_impl; [| exact Hf].
      intros it (_ & Hi & G). split; [| exact G].
      rewrite <- Hc in Hi. now injection Hi. }
    destruct (reduce_summed_cases c (item :: items) (mkMoney Number.zero c)
                eq_refl Hp) as [(total & -> & Ht) | ->].
    + left. exists total. split; [reflexivity | now rewrite Ht].
    + now right.
Qed.

Lemma reachable_total_outcomes_witness :
  (PurchaseOrder_items two_item_order = []
   /\ fst (calculateTotalPrice two_item_order) = Throw (ValidationError EMPTY_ORDER))
  \/ (PurchaseOrder_items two_item_order <> []
      /\ ((exists total,
              fst (calculateTotalPrice two_item_order) = Normal total
              /\ VCurrency (Money_currency total)
                 = PurchaseOrder_currency two_item_order)
          \/ fst (calculateTotalPrice two_item_order)
             = Throw (ValidationError AMOUNT_RANGE))).
Proof.
  apply reachable_total_outcomes.
  apply (reachable_after (CallAddItem sample_product (int 1) (VNumber (dec 500)))).
  apply (reachable_after (CallAddItem sample_product (int 2) (VNumber (dec 1000)))).
  apply (reachable_new sample_host sample_supplier (VCurrency USD) VUndefined).
  reflexivity.
Defined.

(** X6.  An order constructed with something that is no Currency can never
    hold an item: every [addItem] throws, so its total always fails
    with the empty-order message. *)
Theorem order_without_Currency_stays_empty (po : PurchaseOrder) :
  reachable po ->
  instanceof_Currency (PurchaseOrder_currency po) = false ->
  PurchaseOrder_items po = []
  /\ (forall productId quantity unitPrice,
         throws (fst (addItem productId quantity unitPrice po)))
  /\ fst (calculateTotalPrice po) = Throw (ValidationError EMPTY_ORDER).
Proof.
  intros Hreach Hc.
  assert (No : forall item, ~ item_of po item).
  { intros item (_ & H & _). rewrite <- H in Hc. discriminate Hc. }
  assert (E : PurchaseOrder_items po = []).
  { destruct (reachable_items po Hreach) as [_ Hf].
    destruct (PurchaseOrder_items po) as [| item items]; [reflexivity |].
    exfalso. apply (No item). exact (Forall_inv Hf). }
  split; [exact E |]. split.
  - intros productId quantity unitPrice.
    destruct (addItem_cases productId quantity unitPrice po)
      as [[T _] | (item & _ & _ & I & _)]; [exact T |].
    exfalso. exact (No item I).
  - run_method. now rewrite E.
Qed.

Lemma order_without_Currency_stays_empty_witness :
  throws (fst (addItem sample_product (int 1) (int 1)
                 (mkPurchaseOrder (Host_uuidv4 sample_host) sample_supplier
                    (VString "USD") (mkDateTime (Host_now sample_host)) []
                    (mkPurchaseOrderState DRAFT)))).
Proof.
  refine (proj1 (proj2 (order_without_Currency_stays_empty _ _ _)) _ _ _).
  - apply (reachable_new sample_host sample_supplier (VString "USD") VUndefined).
    reflexivity.
  - reflexivity.
Defined.

(* ================================================================= *)
(** ** purchase-order-state.js: the lifecycle as a whole *)

Lemma includes_In (l : list string) (s : string) :
  includes l s = true <-> In s l.
Proof.
  unfold includes. rewrite existsb_exists. split.
  - intros (x & Hx & E). apply String.eqb_eq in E. now subst.
  - intros H. exists s. split; [exact H | apply String.eqb_refl].
Qed.

(** X7.  The constructor accepts the six state names and nothing else. *)
Theorem PurchaseOrderState_new_validates (value : string) :
  In value VALID_STATES
  /\ PurchaseOrderState_new value = Normal (mkPurchaseOrderState value)
  \/ ~ In value VALID_STATES /\ throws (PurchaseOrderState_new value).
Proof.
  unfold PurchaseOrderState_new, validateState.
  destruct (includes VALID_STATES value) eqn:E; cbn [negb bind].
  - left. split; [now apply includes_In | reflexivity].
  - right. split; [| auto with completion].
    intros H. apply includes_In in H. congruence.
Qed.

(** X8.  The lifecycle never moves backwards and never leaves the six
    states: what a transition returns on a valid state is a valid state
    later in the order Draft, Submitted, Approved, Shipped, Completed,
    Cancelled; the one exception is cancelling a Cancelled state, which
    returns it unchanged. *)
Theorem transitions_only_advance (s s' : PurchaseOrderState) :
  In (PurchaseOrderState_value s) VALID_STATES ->
  transition s s' ->
  In (PurchaseOrderState_value s') VALID_STATES
  /\ (rank (PurchaseOrderState_value s) < rank (PurchaseOrderState_value s')
      \/ PurchaseOrderState_value s = CANCELLED /\ s' = s).
Proof.
  intros Hv Ht. destruct s as [v]. cbn [PurchaseOrderState_value] in *.
  assert (Cases : v = DRAFT \/ v = SUBMITTED \/ v = APPROVED \/ v = SHIPPED
                  \/ v = COMPLETED \/ v = CANCELLED).
  { cbn in Hv. intuition congruence. }
  destruct Cases as [-> | [-> | [-> | [-> | [-> | ->]]]]];
    destruct Ht as [H | [H | [H | [H | H]]]];
    try discriminate H; injection H as <-; cbn;
    (split; [tauto |]); try (left; lia); right; split; reflexivity.
Qed.

Lemma transitions_only_advance_witness :
  rank DRAFT < rank CANCELLED.
Proof.
  destruct (transitions_only_advance (mkPurchaseOrderState DRAFT)
              (mkPurchaseOrderState CANCELLED)) as [_ [H | [H _]]].
  - cbn. tauto.
  - do 4 right. reflexivity.
  - exact H.
  - discriminate H.
Defined.

(* ================================================================= *)
(** ** currency.js *)

(** X9.  The constructor accepts the four codes and nothing else, and
    [equals] holds of a Currency and a value exactly when the value is
    a Currency of the same code. *)
Theorem Currency_validates_and_compares (code : string) (this : Currency) (other : Value) :
  (In code Currency_VALID_CODES /\ Currency_new code = Normal (mkCurrency code)
   \/ ~ In code Currency_VALID_CODES /\ throws (Currency_new code))
  /\ (Currency_equals this other = true <-> other = VCurrency this).
Proof.
  split.
  - unfold Currency_new.
    destruct (includes Currency_VALID_CODES code) eqn:E; cbn [negb].
    + left. split; [now apply includes_In | reflexivity].
    + right. split; [| auto with completion].
      intros H. apply includes_In in H. congruence.
  - split.
    + destruct other as [ | | ? | ? | ? | c | ? | ? | ? | ? | ]; try discriminate.
      intros H. apply Currency_equals_eq in H. now subst.
    + intros ->. now apply Currency_equals_eq.
Qed.

(* ================================================================= *)
(** ** money.js: what a Money holds *)

Section Unsigned.

Local Open Scope Z_scope.

Lemma iter_pos_invariant {A} (P : A -> Prop) (f : A -> A) :
  (forall x, P x -> P (f x)) ->
  forall n x, P x -> P (iter_pos f n x).
Proof.
  intros Hf. induction n as [n IH | n IH |]; intros x Hx; cbn.
  - apply IH, IH, Hf, Hx.
  - apply IH, IH, Hx.
  - apply Hf, Hx.
Qed.

Lemma shr_1_nonneg mrs : 0 <= shr_m mrs -> 0 <= shr_m (shr_1 mrs).
Proof.
  destruct mrs as [m r s]. cbn [shr_m]. intros H.
  destruct m as [| [p | p |] | p]; cbn; lia.
Qed.

Lemma shr_fexp_nonneg m e l :
  0 <= m -> 0 <= shr_m (fst (shr_fexp Number.prec Number.emax m e l)).
Proof.
  intros H. unfold shr_fexp, shr.
  assert (H0 : 0 <= shr_m (shr_record_of_loc m l)).
  { destruct l as [| []]; exact H. }
  destruct (fexp Number.prec Number.emax (Zdigits2 m + e) - e); cbn [fst];
    try exact H0.
  apply (iter_pos_invariant (fun mrs => 0 <= shr_m mrs)); [apply shr_1_nonneg | exact H0].
Qed.

Lemma round_nearest_even_nonneg m l : 0 <= m -> 0 <= round_nearest_even m l.
Proof.
  intros H. unfold round_nearest_even.
  destruct l as [| []]; try destruct (Z.even m); lia.
Qed.

(** Rounding a non-negative mantissa with a clear sign bit gives
    neither NaN nor a set sign bit. *)
Lemma binary_round_aux_unsigned m e l :
  0 <= m -> unsigned (binary_round_aux Number.prec Number.emax false m e l).
Proof.
  intros H. unfold binary_round_aux.
  pose proof (shr_fexp_nonneg m e l H) as H1.
  destruct (shr_fexp Number.prec Number.emax m e l) as [mrs' e'].
  cbn [fst] in H1.
  pose proof (shr_fexp_nonneg _ e' loc_Exact
                (round_nearest_even_nonneg _ (loc_of_shr_record mrs') H1)) as H2.
  destruct (shr_fexp Number.prec Number.emax
              (round_nearest_even (shr_m mrs') (loc_of_shr_record mrs')) e' loc_Exact)
    as [mrs'' e''].
  cbn [fst] in H2.
  destruct (shr_m mrs'') as [| p | p]; [reflexivity | | lia].
  destruct (e'' <=? Number.emax - Number.prec); reflexivity.
Qed.

Lemma ofHundredths_unsigned n : 0 <= n -> unsigned (Number.ofHundredths false n).
Proof.
  intros H. unfold Number.ofHundredths.
  destruct n as [| p | p]; [reflexivity | | lia].
  unfold SFdiv_core_binary.
  set (e' := Z.min _ _). set (m' := match 0 - 0 - e' with Z0 => _ | _ => _ end).
  assert (Hm : 0 <= m').
  { unfold m'. destruct (0 - 0 - e'); try lia. apply Z.shiftl_nonneg. lia. }
  pose proof (Z.div_pos m' 100 Hm ltac:(lia)) as Hq.
  unfold Z.div in Hq. destruct (Z.div_eucl m' 100) as [q r]. cbn [fst] in Hq.
  now apply binary_round_aux_unsigned.
Qed.

Lemma toFixed2_unsigned x :
  Number.finite x = true -> Number.ltb x Number.zero = false ->
  unsigned (Number.toFixed2 x).
Proof.
  intros F L. destruct x as [s | s | | s m e]; try discriminate.
  - reflexivity.
  - destruct s; [discriminate |]. cbn [Number.toFixed2].
    apply ofHundredths_unsigned. apply hundredths_nearest.
Qed.

(** On unsigned Numbers [===] is equality. *)
Lemma SFeqb_unsigned x y :
  unsigned x -> unsigned y -> (SFeqb x y = true <-> x = y).
Proof.
  destruct x as [sx | sx | | sx mx ex], y as [sy | sy | | sy my ey];
    cbn [unsigned]; intros Hx Hy; try contradiction; subst;
    unfold SFeqb; cbn [SFcompare]; try (split; [discriminate | discriminate]);
    try (split; reflexivity).
  destruct (Z.compare_spec ex ey) as [E | E | E];
    try (split; [discriminate | intros H; injection H as _ H; lia]).
  subst ey. change (Pos.compare_cont Eq mx my) with (Pos.compare mx my).
  destruct (Pos.compare_spec mx my) as [E | E | E].
  - subst. split; reflexivity.
  - split; [discriminate | intros H; injection H as H; lia].
  - split; [discriminate | intros H; injection H as H; lia].
Qed.

End Unsigned.

(** X10.  Whatever [new Money], [add] or [multiply] returns holds an amount
    that is neither NaN nor negative (nor the negative zero), so the
    guard of the constructor is an invariant of the class. *)
Theorem Money_amount_unsigned (this : Money) (amount currency other : Value) (money : Money) :
  Money_new amount currency = Normal money
  \/ Money_add this other = Normal money
  \/ Money_multiply this other = Normal money ->
  unsigned (Money_amount money).
Proof.
  assert (New : forall a c m, Money_new a c = Normal m -> unsigned (Money_amount m)).
  { intros a c m H. apply Money_new_Normal in H as (x & c' & _ & F & L & _ & ->).
    now apply toFixed2_unsigned. }
  intros [H | [H | H]].
  - now apply New in H.
  - unfold Money_add in H.
    destruct other as [ | | ? | ? | ? | ? | o | ? | ? | ? | ]; try discriminate.
    destruct (negb _); [discriminate |]. now apply New in H.
  - unfold Money_multiply in H.
    destruct other as [ | | ? | k | ? | ? | ? | ? | ? | ? | ]; try discriminate.
    destruct (negb _ || _); [discriminate |]. now apply New in H.
Qed.

Lemma Money_amount_unsigned_witness :
  unsigned (Money_amount (mkMoney (dec 1000) USD)).
Proof.
  apply (Money_amount_unsigned (mkMoney (dec 1000) USD) (VNumber (dec 1000))
           (VCurrency USD) VNull).
  left. reflexivity.
Defined.

(** X11.  On Money values as the class produces them, [equals] is equality
    of amount and currency, and it is false on anything that is not a
    Money. *)
Theorem Money_equals_structural (a b : Money) (other : Value) :
  unsigned (Money_amount a) -> unsigned (Money_amount b) ->
  (Money_equals a (VMoney b) = true <-> a = b)
  /\ (~ is_Money other -> Money_equals a other = false).
Proof.
  intros Ha Hb. split.
  - unfold Money_equals. rewrite andb_true_iff, (SFeqb_unsigned _ _ Ha Hb),
      Currency_equals_eq.
    destruct a as [x c], b as [y d]; cbn. split.
    + intros [-> ->]. reflexivity.
    + intros H. injection H as -> ->. split; reflexivity.
  - intros N. destruct other; try reflexivity.
    exfalso. apply N. now eexists.
Qed.

Lemma Money_equals_structural_witness :
  Money_equals (mkMoney (dec 1000) USD) (VMoney (mkMoney (dec 1000) USD)) = true.
Proof.
  apply (Money_equals_structural (mkMoney (dec 1000) USD) (mkMoney (dec 1000) USD) VNull);
    reflexivity.
Defined.

(* ================================================================= *)
(** ** Regular expressions: the matcher is the semantics *)

Section Regex.

Lemma matches_nil_nullable r : matches r "" <-> nullable r = true.
Proof.
  split.
  - intros H. remember "" as s eqn:Es.
    induction H as [| a c Hc | r1 r2 s1 s2 H1 IH1 H2 IH2 | r1 r2 s H IH | r1 r2 s H IH
                    | r | r s1 s2 H1 IH1 H2 IH2]; cbn; try reflexivity.
    + discriminate Es.
    + destruct s1; [| discriminate Es]. cbn in Es. subst s2.
      now rewrite IH1, IH2.
    + now rewrite IH.
    + rewrite IH by assumption. apply orb_true_r.
  - induction r as [| | a | r1 IH1 r2 IH2 | r1 IH1 r2 IH2 | r IH]; cbn; intros H;
      try discriminate.
    + constructor.
    + apply andb_true_iff in H as [H1 H2].
      change "" with ("" ++ ""). constructor; auto.
    + apply orb_true_iff in H as [H | H];
        [apply matches_Alt_l | apply matches_Alt_r]; auto.
    + constructor.
Qed.

Lemma matches_Cat_inv r1 r2 s :
  matches (Cat r1 r2) s ->
  exists s1 s2, s = s1 ++ s2 /\ matches r1 s1 /\ matches r2 s2.
Proof. intros H. inversion H; subst. eauto. Qed.

Lemma matches_Alt_inv r1 r2 s :
  matches (Alt r1 r2) s -> matches r1 s \/ matches r2 s.
Proof. intros H. inversion H; subst; auto. Qed.

Lemma matches_Class_inv accept s :
  matches (Class accept) s -> exists c, s = String c "" /\ accept c = true.
Proof. intros H. inversion H; subst. eauto. Qed.

(** A non-empty match of [r*] starts with a non-empty match of [r]. *)
Lemma matches_Star_cons r c s :
  matches (Star r) (String c s) ->
  exists s1 s2, s = s1 ++ s2 /\ matches r (String c s1) /\ matches (Star r) s2.
Proof.
  intros H. remember (Star r) as r' eqn:Er. remember (String c s) as s' eqn:Es.
  induction H as [| | | | | | r0 s1 s2 H1 _ H2 IH2]; try discriminate.
  injection Er as ->.
  destruct s1 as [| c1 s1].
  - cbn in Es. now apply IH2.
  - cbn in Es. injection Es as -> <-. now exists s1, s2.
Qed.

Lemma matches_derivative r c s :
  matches (derivative c r) s <-> matches r (String c s).
Proof.
  revert s.
  induction r as [| | a | r1 IH1 r2 IH2 | r1 IH1 r2 IH2 | r IH]; intros s; cbn.
  - split; intros H; inversion H.
  - split; intros H; inversion H.
  - destruct (a c) eqn:E; split; intros H; inversion H; subst.
    + now constructor.
    + constructor.
    + congruence.
  - assert (Front : forall s, matches (Cat (derivative c r1) r2) s ->
                              matches (Cat r1 r2) (String c s)).
    { intros s0 H. apply matches_Cat_inv in H as (s1 & s2 & -> & H1 & H2).
      change (String c (s1 ++ s2)) with (String c s1 ++ s2).
      constructor; [now apply IH1 | exact H2]. }
    assert (Back : forall s, matches (Cat r1 r2) (String c s) ->
                             matches (Cat (derivative c r1) r2) s
                             \/ (nullable r1 = true /\ matches (derivative c r2) s)).
    { intros s0 H. apply matches_Cat_inv in H as (s1 & s2 & E & H1 & H2).
      destruct s1 as [| c1 s1].
      - cbn in E. subst s2. right.
        split; [now apply matches_nil_nullable | now apply IH2].
      - cbn in E. injection E as <- ->. left.
        constructor; [now apply IH1 | exact H2]. }
    destruct (nullable r1) eqn:N; split; intros H.
    + apply matches_Alt_inv in H as [H | H]; [now apply Front |].
      change (String c s) with ("" ++ String c s).
      constructor; [now apply matches_nil_nullable | now apply IH2].
    + destruct (Back s H) as [H' | [_ H']];
        [now apply matches_Alt_l | now apply matches_Alt_r].
    + now apply Front.
    + destruct (Back s H) as [H' | [H' _]]; [exact H' | discriminate].
  - split; intros H; apply matches_Alt_inv in H as [H | H].
    + apply matches_Alt_l. now apply IH1.
    + apply matches_Alt_r. now apply IH2.
    + apply matches_Alt_l. now apply IH1.
    + apply matches_Alt_r. now apply IH2.
  - split; intros H.
    + apply matches_Cat_inv in H as (s1 & s2 & -> & H1 & H2).
      change (String c (s1 ++ s2)) with (String c s1 ++ s2).
      constructor; [now apply IH | exact H2].
    + apply matches_Star_cons in H as (s1 & s2 & -> & H1 & H2).
      constructor; [now apply IH | exact H2].
Qed.

(** [test] decides [matches]. *)
Lemma test_matches r s : test r s = true <-> matches r s.
Proof.
  revert r. induction s as [| c s IH]; intros r; cbn.
  - symmetry. apply matches_nil_nullable.
  - rewrite IH. apply matches_derivative.
Qed.

End Regex.

(* ================================================================= *)
(** ** supplier.js *)

Section Email.

Variable accept : ascii -> bool.

Let accepted (w : string) : Prop :=
  forall c, In c (list_ascii_of_string w) -> accept c = true.

Lemma matches_Star_Class w : matches (Star (Class accept)) w <-> accepted w.
Proof.
  split.
  - intros H. remember (Star (Class accept)) as r eqn:Er.
    induction H as [| | | | | | r0 s1 s2 H1 _ H2 IH2]; try discriminate.
    + intros c [].
    + injection Er as ->.
      apply matches_Class_inv in H1 as (c1 & -> & Hc).
      intros c [<- | Hin]; [exact Hc | now apply IH2].
  - induction w as [| c w IH]; intros H.
    + constructor.
    + change (String c w) with (String c "" ++ w). constructor.
      * constructor. apply H. now left.
      * apply IH. intros c' Hc'. apply H. now right.
Qed.

Lemma matches_Plus_Class w :
  matches (Plus (Class accept)) w <-> w <> "" /\ accepted w.
Proof.
  unfold Plus. split.
  - intros H. apply matches_Cat_inv in H as (s1 & s2 & -> & H1 & H2).
    apply matches_Class_inv in H1 as (c & -> & Hc).
    apply matches_Star_Class in H2. split; [discriminate |].
    intros c' [<- | Hin]; [exact Hc | now apply H2].
  - intros [Hne H]. destruct w as [| c w]; [contradiction |].
    change (String c w) with (String c "" ++ w). constructor.
    + constructor. apply H. now left.
    + apply matches_Star_Class. intros c' Hc'. apply H. now right.
Qed.

End Email.

Lemma matches_char (a : ascii) s : matches (Class (Ascii.eqb a)) s <-> s = String a "".
Proof.
  split.
  - intros H. apply matches_Class_inv in H as (c & -> & Hc).
    apply Ascii.eqb_eq in Hc. now subst.
  - intros ->. constructor. apply Ascii.eqb_refl.
Qed.

Lemma isValidEmail_iff (email : string) :
  isValidEmail email = true <-> address email.
Proof.
  unfold isValidEmail, address, word. rewrite test_matches. unfold emailRegex. split.
  - intros H.
    apply matches_Cat_inv in H as (local & s1 & -> & Hl & H).
    apply matches_Cat_inv in H as (at_ & s2 & -> & Ha & H).
    apply matches_Cat_inv in H as (domain & s3 & -> & Hd & H).
    apply matches_Cat_inv in H as (dot & tail & -> & Hp & Ht).
    apply matches_char in Ha, Hp. subst at_ dot.
    apply matches_Plus_Class in Hl, Hd, Ht.
    exists local, domain, tail. repeat split; tauto.
  - intros (local & domain & tail & -> & Hl & Hd & Ht).
    constructor; [now apply matches_Plus_Class |].
    constructor; [now apply matches_char |].
    constructor; [now apply matches_Plus_Class |].
    constructor; [now apply matches_char |].
    now apply matches_Plus_Class.
Qed.

(** X12.  [isValidEmail] accepts exactly the strings
    [local@domain.tail] whose three parts are non-empty and free of
    whitespace and at signs; dots may occur anywhere inside the parts. *)
Theorem isValidEmail_address (email : string) :
  isValidEmail email = true <-> address email.
Proof. apply isValidEmail_iff. Qed.

(** When the constructor returns, and what. *)
Lemma Supplier_new_Normal id name contactEmail lastOrderTotalPrice supplier :
  Supplier_new id name contactEmail lastOrderTotalPrice = Normal supplier
  <-> exists sid n price,
        id = VSupplierId sid
        /\ name = VString n /\ (2 <= String.length n <= 100)%nat
        /\ (forall email, contactEmail = Some email -> isValidEmail email = true)
        /\ lastOrderTotalPrice = match price with
                                 | Some m => VMoney m
                                 | None => VNull
                                 end
        /\ supplier = mkSupplier sid n contactEmail price.
Proof.
  split.
  - unfold Supplier_new.
    destruct id as [ | | ? | ? | ? | ? | ? | ? | sid | ? | ]; try discriminate.
    destruct name as [ | | ? | ? | n | ? | ? | ? | ? | ? | ]; try discriminate.
    destruct (Nat.ltb_spec (String.length n) 2); [discriminate |].
    destruct (Nat.ltb_spec 100 (String.length n)); [discriminate |]. cbn [orb].
    assert (Email : match contactEmail with
                    | Some email => negb (isValidEmail email)
                    | None => false
                    end = false ->
                    forall email, contactEmail = Some email -> isValidEmail email = true).
    { intros G email ->. now apply negb_false_iff in G. }
    destruct (match contactEmail with Some _ => _ | None => _ end);
      [discriminate |].
    specialize (Email eq_refl).
    destruct lastOrderTotalPrice as [ | | ? | ? | ? | ? | price | ? | ? | ? | ];
      try discriminate; intros Hs; injection Hs as <-.
    + exists sid, n, None. repeat split; try assumption; lia.
    + exists sid, n, (Some price). repeat split; try assumption; lia.
  - intros (sid & n & price & -> & -> & Hn & He & -> & ->).
    unfold Supplier_new.
    destruct (Nat.ltb_spec (String.length n) 2); [lia |].
    destruct (Nat.ltb_spec 100 (String.length n)); [lia |]. cbn [orb].
    assert (G : match contactEmail with
                | Some email => negb (isValidEmail email)
                | None => false
                end = false).
    { destruct contactEmail as [email |]; [| reflexivity].
      now rewrite (He email eq_refl). }
    rewrite G. now destruct price.
Qed.

(** X13.  The Supplier constructor returns exactly when [id] is a
    SupplierId, [name] a string of 2 to 100 characters, [contactEmail]
    null or an address, and [lastOrderTotalPrice] null or a Money; on
    anything else it throws a ValidationError. *)
Theorem Supplier_new_validates id name contactEmail lastOrderTotalPrice :
  supplier_arguments id name contactEmail lastOrderTotalPrice
  /\ returns (Supplier_new id name contactEmail lastOrderTotalPrice)
  \/ ~ supplier_arguments id name contactEmail lastOrderTotalPrice
     /\ throws (Supplier_new id name contactEmail lastOrderTotalPrice).
Proof.
  destruct (Supplier_new id name contactEmail lastOrderTotalPrice) as [supplier | e] eqn:E.
  - left. split; [| now exists supplier].
    apply Supplier_new_Normal in E as (sid & n & price & -> & -> & Hn & He & -> & _).
    repeat split.
    + now exists sid.
    + now exists n.
    + intros email H. apply isValidEmail_iff. now apply He.
    + destruct price as [m |]; [right; now exists m | now left].
  - right. split; [| apply throws_Throw].
    intros ((sid & ->) & (n & -> & Hn) & He & Hp).
    assert (N : exists price,
               Supplier_new (VSupplierId sid) (VString n) contactEmail lastOrderTotalPrice
               = Normal (mkSupplier sid n contactEmail price)).
    { destruct Hp as [-> | (m & ->)]; [exists None | exists (Some m)];
        apply Supplier_new_Normal;
        [exists sid, n, None | exists sid, n, (Some m)];
        repeat split; try assumption; try lia;
        intros email H; apply isValidEmail_iff; now apply He. }
    destruct N as [price N]. rewrite N in E. discriminate.
Qed.

(* ================================================================= *)
(** ** Numbers: whole amounts are exact *)

Section Whole.

Local Open Scope Z_scope.

(** Shifting out [sh] zero bits loses nothing. *)
Lemma iter_pos_shr_1_zeros sh : forall K,
  iter_pos shr_1 sh (Build_shr_record (Zpos (Pos.iter xO K sh)) false false)
  = Build_shr_record (Zpos K) false false.
Proof.
  induction sh as [sh IH | sh IH |]; intros K; cbn [iter_pos Pos.iter].
  - cbn [shr_1 orb]. rewrite IH. apply IH.
  - rewrite IH. apply IH.
  - reflexivity.
Qed.

Lemma Zpos_shiftl k (n : N) : Zpos (Pos.shiftl k n) = Zpos k * 2 ^ Z.of_N n.
Proof.
  destruct n as [| n]; cbn [Pos.shiftl Z.of_N].
  - lia.
  - apply Zpos_iter_xO.
Qed.

Lemma digits2_pos_shiftl k (n : N) :
  Zpos (digits2_pos (Pos.shiftl k n)) = Zpos (digits2_pos k) + Z.of_N n.
Proof.
  destruct n as [| n]; cbn [Pos.shiftl Z.of_N].
  - lia.
  - rewrite digits2_pos_iter_xO. lia.
Qed.

(** An exact mantissa of 53 bits followed by zeros rounds to itself. *)
Lemma binary_round_aux_zeros s K (n : N) e :
  digits2_pos K = 53%positive ->
  -1074 <= e + Z.of_N n <= 971 ->
  binary_round_aux Number.prec Number.emax s (Zpos (Pos.shiftl K n)) e loc_Exact
  = S754_finite s K (e + Z.of_N n).
Proof.
  intros D He. destruct n as [| sh]; cbn [Pos.shiftl Z.of_N] in *.
  - rewrite Z.add_0_r in *. now apply binary_round_aux_exact.
  - assert (F : fexp Number.prec Number.emax
                  (Zpos (digits2_pos (Pos.iter xO K sh)) + e) - e = Zpos sh).
    { rewrite digits2_pos_iter_xO, Pos2Z.inj_add, D.
      unfold fexp, emin, Number.prec, Number.emax. lia. }
    unfold binary_round_aux, shr_fexp at 1. cbn [Zdigits2 shr_record_of_loc].
    rewrite F. cbn [shr]. rewrite iter_pos_shr_1_zeros.
    cbn [shr_m loc_of_shr_record round_nearest_even].
    assert (F' : fexp Number.prec Number.emax (53 + (e + Zpos sh)) - (e + Zpos sh) = 0).
    { unfold fexp, emin, Number.prec, Number.emax. lia. }
    unfold shr_fexp. cbn [Zdigits2 shr_record_of_loc]. rewrite D, F'.
    cbn [shr shr_m]. unfold Number.emax, Number.prec.
    destruct (Z.leb_spec (e + Zpos sh) (1024 - 53)); [reflexivity | lia].
Qed.


Lemma ofZ_canon k :
  Zpos (digits2_pos k) <= 53 ->
  Number.ofZ (Zpos k) = S754_finite false (canon k) (Zpos (digits2_pos k) - 53).
Proof. apply ofZ_pos. Qed.

(** Rounding the exact value [k], written with at least 53 bits, gives
    the Number of [k]. *)
Lemma binary_round_aux_integer k M e :
  Zpos (digits2_pos k) <= 53 ->
  e <= Zpos (digits2_pos k) - 53 ->
  Zpos M = Zpos k * 2 ^ (- e) ->
  binary_round_aux Number.prec Number.emax false (Zpos M) e loc_Exact
  = Number.ofZ (Zpos k).
Proof.
  intros D He HM. rewrite ofZ_canon by exact D.
  set (d := Zpos (digits2_pos k)) in *.
  assert (EM : M = Pos.shiftl (canon k) (Z.to_N (d - 53 - e))).
  { apply Pos2Z.inj. rewrite Zpos_shiftl. unfold canon. rewrite Zpos_shiftl, HM.
    fold d. rewrite !Z2N.id by lia. rewrite <- Z.mul_assoc, <- Z.pow_add_r by lia.
    f_equal. f_equal. lia. }
  rewrite EM.
  rewrite binary_round_aux_zeros.
  - f_equal. rewrite Z2N.id by lia. lia.
  - apply Pos2Z.inj. unfold canon. rewrite digits2_pos_shiftl. fold d.
    rewrite Z2N.id by lia. lia.
  - rewrite Z2N.id by lia. pose proof (Pos2Z.is_pos (digits2_pos k)). fold d in H. lia.
Qed.

Lemma digits2_pos_le i j : (i <= j)%positive -> Zpos (digits2_pos i) <= Zpos (digits2_pos j).
Proof.
  intros H. pose proof (digits2_pos_bounds i) as [Bi _].
  pose proof (digits2_pos_bounds j) as [_ Bj].
  destruct (Z.le_gt_cases (Zpos (digits2_pos i)) (Zpos (digits2_pos j))) as [L | G];
    [exact L | exfalso].
  assert (2 ^ Zpos (digits2_pos j) <= 2 ^ (Zpos (digits2_pos i) - 1))
    by (apply Z.pow_le_mono_r; lia).
  lia.
Qed.

Lemma digits2_pos_53 k : Zpos k < 2 ^ 53 -> Zpos (digits2_pos k) <= 53.
Proof.
  intros H. pose proof (digits2_pos_bounds k) as [B _].
  destruct (Z.le_gt_cases (Zpos (digits2_pos k)) 53) as [L | G]; [exact L | exfalso].
  assert (2 ^ 53 <= 2 ^ (Zpos (digits2_pos k) - 1)) by (apply Z.pow_le_mono_r; lia).
  lia.
Qed.

Lemma shl_align_value m e e' :
  e' <= e -> Zpos (fst (shl_align m e e')) = Zpos m * 2 ^ (e - e').
Proof.
  intros H. unfold shl_align.
  destruct (e' - e) as [| p | p] eqn:E; cbn [fst]; try lia.
  - replace (e - e') with 0 by lia. lia.
  - rewrite Zpos_iter_xO. f_equal. f_equal. lia.
Qed.

Lemma canon_value k :
  Zpos (digits2_pos k) <= 53 ->
  Zpos (canon k) = Zpos k * 2 ^ (53 - Zpos (digits2_pos k)).
Proof. intros D. unfold canon. rewrite Zpos_shiftl, Z2N.id by lia. reflexivity. Qed.

(** Sums of non-negative integers below 2^53 are exact. *)
Lemma add_ofZ i j :
  0 <= i -> 0 <= j -> i + j < 2 ^ 53 ->
  Number.add (Number.ofZ i) (Number.ofZ j) = Number.ofZ (i + j).
Proof.
  intros Hi Hj H.
  destruct i as [| i | i]; [| | lia].
  { destruct j as [| j | j]; [reflexivity | | lia].
    cbn [Z.add]. rewrite ofZ_canon by (apply digits2_pos_53; lia). reflexivity. }
  destruct j as [| j | j]; [| | lia].
  { rewrite Z.add_0_r. rewrite ofZ_canon by (apply digits2_pos_53; lia). reflexivity. }
  assert (Di : Zpos (digits2_pos i) <= 53) by (apply digits2_pos_53; lia).
  assert (Dj : Zpos (digits2_pos j) <= 53) by (apply digits2_pos_53; lia).
  assert (Dij : Zpos (digits2_pos (i + j)) <= 53) by (apply digits2_pos_53; lia).
  pose proof (digits2_pos_le i (i + j) ltac:(lia)) as Li.
  pose proof (digits2_pos_le j (i + j) ltac:(lia)) as Lj.
  rewrite (ofZ_canon i Di), (ofZ_canon j Dj).
  unfold Number.add, SFadd. cbn [cond_Zopp].
  set (di := Zpos (digits2_pos i)) in *. set (dj := Zpos (digits2_pos j)) in *.
  set (ez := Z.min (di - 53) (dj - 53)).
  assert (Vi : Zpos (fst (shl_align (canon i) (di - 53) ez)) = Zpos i * 2 ^ (- ez)).
  { rewrite shl_align_value by (unfold ez; lia). rewrite canon_value by exact Di.
    fold di. rewrite <- Z.mul_assoc, <- Z.pow_add_r by (unfold ez; lia).
    f_equal. f_equal. lia. }
  assert (Vj : Zpos (fst (shl_align (canon j) (dj - 53) ez)) = Zpos j * 2 ^ (- ez)).
  { rewrite shl_align_value by (unfold ez; lia). rewrite canon_value by exact Dj.
    fold dj. rewrite <- Z.mul_assoc, <- Z.pow_add_r by (unfold ez; lia).
    f_equal. f_equal. lia. }
  rewrite Vi, Vj, <- Z.mul_add_distr_r.
  assert (P : 0 < 2 ^ (- ez)) by (apply Z.pow_pos_nonneg; unfold ez; lia).
  remember ((Zpos i + Zpos j) * 2 ^ (- ez)) as v eqn:ES. symmetry in ES.
  destruct v as [| M | M]; try lia.
  cbn [binary_normalize]. unfold binary_round.
  assert (DS : Zpos (digits2_pos M) = Zpos (digits2_pos (i + j)) - ez).
  { assert (M = Pos.shiftl (i + j) (Z.to_N (- ez))) as ->.
    { apply Pos2Z.inj. rewrite Zpos_shiftl, Z2N.id by (unfold ez; lia).
      symmetry. exact ES. }
    rewrite digits2_pos_shiftl, Z2N.id by (unfold ez; lia). lia. }
  rewrite DS.
  replace (Zpos (digits2_pos (i + j)) - ez + ez) with (Zpos (digits2_pos (i + j))) by lia.
  assert (F : fexp Number.prec Number.emax (Zpos (digits2_pos (i + j)))
              = Zpos (digits2_pos (i + j)) - 53).
  { unfold fexp, emin, Number.prec, Number.emax. lia. }
  rewrite F. unfold shl_align.
  destruct (Zpos (digits2_pos (i + j)) - 53 - ez) as [| p | p] eqn:Ep;
    try (unfold ez in Ep; lia).
  - change (Zpos i + Zpos j) with (Zpos (i + j)) in ES.
    apply binary_round_aux_integer; [exact Dij | unfold ez in *; lia | now rewrite ES].
  - change (Zpos i + Zpos j) with (Zpos (i + j)) in ES.
    apply binary_round_aux_integer; [exact Dij | unfold ez in *; lia | now rewrite ES].
Qed.

(** Products of non-negative integers below 2^53 are exact. *)
Lemma mul_ofZ i j :
  0 <= i < 2 ^ 53 -> 0 <= j < 2 ^ 53 -> i * j < 2 ^ 53 ->
  Number.mul (Number.ofZ i) (Number.ofZ j) = Number.ofZ (i * j).
Proof.
  intros [Hi Hi'] [Hj Hj'] H.
  destruct i as [| i | i]; [| | lia].
  { destruct j as [| j | j]; [reflexivity | | lia].
    cbn [Z.mul]. rewrite ofZ_canon by (apply digits2_pos_53; lia). reflexivity. }
  destruct j as [| j | j]; [| | lia].
  { rewrite Z.mul_0_r. rewrite ofZ_canon by (apply digits2_pos_53; lia). reflexivity. }
  assert (Di : Zpos (digits2_pos i) <= 53) by (apply digits2_pos_53; lia).
  assert (Dj : Zpos (digits2_pos j) <= 53) by (apply digits2_pos_53; lia).
  assert (Dij : Zpos (digits2_pos (i * j)) <= 53) by (apply digits2_pos_53; lia).
  pose proof (digits2_pos_le i (i * j) ltac:(nia)) as Li.
  pose proof (digits2_pos_le j (i * j) ltac:(nia)) as Lj.
  rewrite (ofZ_canon i Di), (ofZ_canon j Dj).
  unfold Number.mul, SFmul. cbn [xorb].
  change (Zpos i * Zpos j) with (Zpos (i * j)).
  apply binary_round_aux_integer; [exact Dij | lia |].
  rewrite Pos2Z.inj_mul, (canon_value i Di), (canon_value j Dj), Pos2Z.inj_mul.
  set (di := Zpos (digits2_pos i)) in *. set (dj := Zpos (digits2_pos j)) in *.
  replace (- (di - 53 + (dj - 53))) with ((53 - di) + (53 - dj)) by lia.
  rewrite Z.pow_add_r by lia. ring.
Qed.

(** A non-negative integer below 2^53 has no fraction to round. *)
Lemma toFixed2_ofZ k :
  0 <= k < 2 ^ 53 -> Number.toFixed2 (Number.ofZ k) = Number.ofZ k.
Proof.
  intros [H0 H].
  destruct k as [| k | k]; [reflexivity | | lia].
  assert (D : Zpos (digits2_pos k) <= 53) by (apply digits2_pos_53; lia).
  rewrite (ofZ_canon k D). cbn [Number.toFixed2].
  set (d := Zpos (digits2_pos k)) in *.
  assert (Hh : Number.hundredths (canon k) (d - 53) = 100 * Zpos k).
  { unfold Number.hundredths. rewrite (canon_value k D). fold d.
    destruct (d - 53) as [| p | p] eqn:E; try lia.
    - replace (53 - d) with 0 by lia. cbn. lia.
    - replace (53 - d) with (Zpos p) by lia.
      assert (P : 0 < 2 ^ Zpos p) by (apply Z.pow_pos_nonneg; lia).
      rewrite Z.pow_add_r, Z.pow_1_r by lia.
      replace (200 * (Zpos k * 2 ^ Zpos p) + 2 ^ Zpos p)
        with ((200 * Zpos k + 1) * 2 ^ Zpos p) by ring.
      rewrite (Z.mul_comm (2 ^ Zpos p) 2), Z.div_mul_cancel_r by lia.
      replace (200 * Zpos k + 1) with (1 + (100 * Zpos k) * 2) by ring.
      rewrite Z.div_add by lia. reflexivity. }
  rewrite Hh. unfold Number.ofHundredths. cbn [Z.mul].
  change (Zpos (100 * k)) with (100 * Zpos k).
  unfold SFdiv_core_binary.
  set (d1 := Zdigits2 (100 * Zpos k)).
  assert (Hd1 : d + 6 <= d1 <= d + 7).
  { unfold d1. change (100 * Zpos k) with (Zpos (100 * k)). cbn [Zdigits2].
    pose proof (digits2_pos_bounds k) as [Bl Bu]. fold d in Bl, Bu.
    pose proof (digits2_pos_bounds (100 * k)) as [Cl Cu].
    rewrite Pos2Z.inj_mul in Cl, Cu.
    set (x := Zpos (digits2_pos (100 * k))) in *.
    split.
    - destruct (Z.le_gt_cases (d + 6) x) as [L | G]; [exact L | exfalso].
      assert (2 ^ x <= 2 ^ (d + 5)) by (apply Z.pow_le_mono_r; lia).
      replace (d + 5) with ((d - 1) + 6) in H1 by lia.
      rewrite Z.pow_add_r in H1 by lia. change (2 ^ 6) with 64 in H1. lia.
    - destruct (Z.le_gt_cases x (d + 7)) as [L | G]; [exact L | exfalso].
      assert (2 ^ (d + 7) <= 2 ^ (x - 1)) by (apply Z.pow_le_mono_r; lia).
      rewrite Z.pow_add_r in H1 by lia. change (2 ^ 7) with 128 in H1. lia. }
  change (Zdigits2 100) with 7.
  assert (He : Z.min (fexp Number.prec Number.emax (d1 + 0 - (7 + 0))) (0 - 0) = d1 - 60).
  { unfold fexp, emin, Number.prec, Number.emax. lia. }
  rewrite He.
  set (m' := match 0 - 0 - (d1 - 60) with
             | 0 => 100 * Zpos k
             | Zpos _ => Z.shiftl (100 * Zpos k) (0 - 0 - (d1 - 60))
             | Zneg _ => 0
             end).
  assert (Hm : m' = (Zpos k * 2 ^ (60 - d1)) * 100).
  { unfold m'. destruct (0 - 0 - (d1 - 60)) as [| p | p] eqn:E; try lia.
    - replace (60 - d1) with 0 by lia. cbn. lia.
    - rewrite Z.shiftl_mul_pow2 by lia. replace (60 - d1) with (Zpos p) by lia. ring. }
  assert (Hdiv : Z.div_eucl m' 100 = (Zpos k * 2 ^ (60 - d1), 0)).
  { pose proof (Z.div_eucl_eq m' 100 ltac:(lia)) as Eq.
    pose proof (Z.mod_pos_bound m' 100 ltac:(lia)) as Bd.
    unfold Z.modulo in Bd. destruct (Z.div_eucl m' 100) as [q r].
    assert (P : 0 < 2 ^ (60 - d1)) by (apply Z.pow_pos_nonneg; lia).
    assert (r = 0 /\ q = Zpos k * 2 ^ (60 - d1)) as [-> ->]; [| reflexivity].
    rewrite Hm in Eq. clear - Eq Bd. set (v := Zpos k * 2 ^ (60 - d1)) in *.
    clearbody v. lia. }
  rewrite Hdiv. change (new_location 100 0) with loc_Exact.
  assert (P : 0 < 2 ^ (60 - d1)) by (apply Z.pow_pos_nonneg; lia).
  destruct (Zpos k * 2 ^ (60 - d1)) as [| M | M] eqn:EM; try lia.
  clearbody d1. subst d. rewrite <- (ofZ_canon k D).
  apply binary_round_aux_integer; [exact D | lia |].
  rewrite <- EM. f_equal. f_equal. lia.
Qed.

Lemma ofZ_guard k :
  0 <= k < 2 ^ 53 ->
  Number.finite (Number.ofZ k) = true /\ Number.ltb (Number.ofZ k) Number.zero = false.
Proof.
  intros [H0 H]. destruct k as [| k | k]; [split; reflexivity | | lia].
  rewrite ofZ_canon by (apply digits2_pos_53; lia). split; reflexivity.
Qed.

End Whole.

(* ================================================================= *)
(** ** money.js and purchase-order.js on whole amounts *)

Lemma Money_new_whole k c :
  whole k ->
  Money_new (VNumber (Number.ofZ k)) (VCurrency c) = Normal (mkMoney (Number.ofZ k) c).
Proof.
  intros W. apply Money_new_Normal. exists (Number.ofZ k), c.
  destruct (ofZ_guard k W) as [F L]. repeat split; try assumption.
  now rewrite toFixed2_ofZ.
Qed.

Lemma Money_add_whole i j c :
  (0 <= i)%Z -> (0 <= j)%Z -> (i + j < 2 ^ 53)%Z ->
  Money_add (mkMoney (Number.ofZ i) c) (VMoney (mkMoney (Number.ofZ j) c))
  = Normal (mkMoney (Number.ofZ (i + j)) c).
Proof.
  intros Hi Hj H. unfold Money_add. cbn [Money_currency Money_amount].
  assert (E : Currency_equals c (VCurrency c) = true) by now apply Currency_equals_eq.
  rewrite E. cbn [negb]. rewrite add_ofZ by assumption.
  apply Money_new_whole. unfold whole. lia.
Qed.

Lemma Money_multiply_whole i q c :
  whole i -> whole q -> (i * q < 2 ^ 53)%Z ->
  Money_multiply (mkMoney (Number.ofZ i) c) (VNumber (Number.ofZ q))
  = Normal (mkMoney (Number.ofZ (i * q)) c).
Proof.
  intros Wi Wq H. unfold Money_multiply. cbn [Money_currency Money_amount].
  destruct (ofZ_guard q Wq) as [F L]. rewrite F, L. cbn [negb orb].
  rewrite mul_ofZ by assumption.
  apply Money_new_whole. unfold whole in *. nia.
Qed.

(** X14.  A whole amount is stored as it is given, and on whole amounts
    [add] is exact integer addition as long as the sum stays below
    2^53; there it is associative. *)
Theorem Money_add_whole_associative (i j k : Z) (c : Currency) :
  (0 <= i)%Z -> (0 <= j)%Z -> (0 <= k)%Z -> (i + j + k < 2 ^ 53)%Z ->
  let a := mkMoney (Number.ofZ i) c in
  let b := mkMoney (Number.ofZ j) c in
  let d := mkMoney (Number.ofZ k) c in
  Money_new (int i) (VCurrency c) = Normal a
  /\ (ab <- Money_add a (VMoney b) ;; Money_add ab (VMoney d))
     = Normal (mkMoney (Number.ofZ (i + j + k)) c)
  /\ (bd <- Money_add b (VMoney d) ;; Money_add a (VMoney bd))
     = Normal (mkMoney (Number.ofZ (i + j + k)) c).
Proof.
  intros Hi Hj Hk H. cbv zeta. repeat split.
  - apply Money_new_whole. unfold whole. lia.
  - rewrite Money_add_whole by lia. cbn [bind]. apply Money_add_whole; lia.
  - rewrite Money_add_whole by lia. cbn [bind].
    rewrite Money_add_whole by lia. now rewrite Z.add_assoc.
Qed.

Lemma Money_add_whole_associative_witness :
  (ab <- Money_add (mkMoney (Number.ofZ 1) USD) (VMoney (mkMoney (Number.ofZ 2) USD)) ;;
   Money_add ab (VMoney (mkMoney (Number.ofZ 3) USD)))
  = (bd <- Money_add (mkMoney (Number.ofZ 2) USD) (VMoney (mkMoney (Number.ofZ 3) USD)) ;;
     Money_add (mkMoney (Number.ofZ 1) USD) (VMoney bd)).
Proof.
  destruct (Money_add_whole_associative 1 2 3 USD) as (_ & L & R);
    [lia | lia | lia | reflexivity |].
  cbv zeta in L, R. rewrite L, R. reflexivity.
Defined.

Section Lines.

Local Open Scope Z_scope.

Variable c : Currency.

Lemma valid_line_total lines :
  Forall valid_line lines -> 0 <= lines_total lines.
Proof.
  induction 1 as [| line lines [Hp Hq] _ IH]; [cbn; lia |].
  unfold lines_total in *. cbn [fold_right]. nia.
Qed.

(** Folding the subtotals of whole lines adds up their integer values. *)
Lemma reduce_lines id lines : forall acc,
  0 <= acc ->
  Forall valid_line lines ->
  acc + lines_total lines < 2 ^ 53 ->
  reduce (fun sum item =>
            subtotal <- calculateSubtotal item ;;
            Money_add sum (VMoney subtotal))
    (map (line_item id c) lines) (mkMoney (Number.ofZ acc) c)
  = Normal (mkMoney (Number.ofZ (acc + lines_total lines)) c).
Proof.
  induction lines as [| line lines IH]; intros acc Hacc Hv Hs.
  - cbn. now rewrite Z.add_0_r.
  - pose proof (Forall_inv Hv) as [Hp Hq].
    pose proof (Forall_inv_tail Hv) as Hv'.
    pose proof (valid_line_total lines Hv') as Ht.
    unfold lines_total in Hs. cbn [fold_right] in Hs. fold (lines_total lines) in Hs.
    cbn [map reduce]. unfold calculateSubtotal at 1.
    cbn [line_item PurchaseOrderItem_unitPrice PurchaseOrderItem_quantity].
    rewrite Money_multiply_whole by (unfold whole; nia).
    cbn [bind]. rewrite Money_add_whole by nia. cbn [bind].
    rewrite IH by (try assumption; nia).
    unfold lines_total. cbn [fold_right]. fold (lines_total lines).
    now rewrite Z.add_assoc.
Qed.

End Lines.

(** What [addItem] does with a valid line on a draft with room left. *)
Lemma add_line_appends po c line :
  PurchaseOrder_id po <> "" ->
  PurchaseOrder_currency po = VCurrency c ->
  isDraft (PurchaseOrder_state po) = true ->
  (List.length (PurchaseOrder_items po) < MAX_ITEMS)%nat ->
  valid_line line -> whole (Line_unitPrice line) ->
  add_line po line
  = mkPurchaseOrder (PurchaseOrder_id po) (PurchaseOrder_supplierId po)
      (PurchaseOrder_currency po) (PurchaseOrder_orderDate po)
      (PurchaseOrder_items po ++ [line_item (PurchaseOrder_id po) c line])%list
      (PurchaseOrder_state po).
Proof.
  intros Hid Hc D L [Hp Hq] W. unfold add_line, int.
  rewrite (addItem_returns _ _ _ _ (mkMoney (Number.ofZ (Line_unitPrice line)) c)
             (line_item (PurchaseOrder_id po) c line) D L); [reflexivity | | |].
  - exists (Number.ofZ (Line_unitPrice line)).
    destruct (ofZ_guard _ W). repeat split; assumption.
  - rewrite Hc. now apply Money_new_whole.
  - apply PurchaseOrderItem_new_Normal.
    exists (PurchaseOrder_id po), (Line_productId line),
      (Number.ofZ (Line_quantity line)), (mkMoney (Number.ofZ (Line_unitPrice line)) c).
    repeat split; try assumption. now apply quantity_guard_ofZ.
Qed.

Lemma add_lines_appends c lines : forall po,
  PurchaseOrder_id po <> "" ->
  PurchaseOrder_currency po = VCurrency c ->
  isDraft (PurchaseOrder_state po) = true ->
  (List.length (PurchaseOrder_items po) + List.length lines <= MAX_ITEMS)%nat ->
  Forall (fun line => valid_line line /\ whole (Line_unitPrice line)) lines ->
  add_lines lines po
  = mkPurchaseOrder (PurchaseOrder_id po) (PurchaseOrder_supplierId po)
      (PurchaseOrder_currency po) (PurchaseOrder_orderDate po)
      (PurchaseOrder_items po ++ map (line_item (PurchaseOrder_id po) c) lines)%list
      (PurchaseOrder_state po).
Proof.
  induction lines as [| line lines IH]; intros po Hid Hc D L Hv.
  - cbn. rewrite app_nil_r. now destruct po.
  - pose proof (Forall_inv Hv) as [Hl W].
    pose proof (Forall_inv_tail Hv) as Hv'.
    cbn [add_lines fold_left]. fold (add_lines lines (add_line po line)).
    cbn [List.length] in L.
    rewrite (add_line_appends po c line Hid Hc D ltac:(lia) Hl W).
    rewrite IH; cbn [PurchaseOrder_id PurchaseOrder_supplierId PurchaseOrder_currency
                       PurchaseOrder_orderDate PurchaseOrder_items PurchaseOrder_state];
      try assumption.
    + now rewrite <- app_assoc.
    + rewrite length_app. cbn. lia.
Qed.

(** X15.  With whole prices the total is exact: after the constructor and
    one returning [addItem] per line (at most 50 lines, quantities from
    1 to 1000), [calculateTotalPrice] returns the integer sum of price
    times quantity, provided that sum stays below 2^53. *)
Theorem total_of_whole_lines host supplierId c orderDate po (lines : list Line) :
  PurchaseOrder_new host supplierId (VCurrency c) orderDate = Normal po ->
  Host_uuidv4 host <> "" ->
  lines <> [] ->
  (List.length lines <= MAX_ITEMS)%nat ->
  Forall valid_line lines ->
  (lines_total lines < 2 ^ 53)%Z ->
  PurchaseOrder_items (add_lines lines po)
  = map (line_item (PurchaseOrder_id po) c) lines
  /\ fst (calculateTotalPrice (add_lines lines po))
     = Normal (mkMoney (Number.ofZ (lines_total lines)) c).
Proof.
  intros Hnew Hid Hne Hlen Hv Hs.
  rewrite PurchaseOrder_new_outcome in Hnew.
  destruct (ToBoolean supplierId); [| discriminate].
  injection Hnew as <-.
  assert (Hw : Forall (fun line => valid_line line /\ whole (Line_unitPrice line)) lines).
  { clear Hne Hlen. induction Hv as [| line lines [Hp Hq] Hv IH]; constructor.
    - split; [now split |]. unfold whole.
      pose proof (valid_line_total lines Hv).
      unfold lines_total in Hs. cbn [fold_right] in Hs. fold (lines_total lines) in Hs. nia.
    - apply IH. pose proof (valid_line_total lines Hv).
      unfold lines_total in Hs. cbn [fold_right] in Hs. fold (lines_total lines) in Hs. nia. }
  rewrite (add_lines_appends c lines); cbn [PurchaseOrder_id PurchaseOrder_currency
      PurchaseOrder_state PurchaseOrder_items PurchaseOrder_supplierId
      PurchaseOrder_orderDate List.length app];
    try assumption; try reflexivity.
  split; [reflexivity |].
  run_method. cbn [PurchaseOrder_items PurchaseOrder_currency].
  destruct lines as [| line lines]; [contradiction |].
  cbn [map List.length Nat.eqb].
  change (Money_new (VNumber Number.zero) (VCurrency c))
    with (Normal (mkMoney (Number.ofZ 0) c)).
  cbn [fst].
  change (line_item (Host_uuidv4 host) c line :: map (line_item (Host_uuidv4 host) c) lines)
    with (map (line_item (Host_uuidv4 host) c) (line :: lines)).
  rewrite (reduce_lines c (Host_uuidv4 host) (line :: lines) 0%Z); try assumption;
    try reflexivity; lia.
Qed.

Lemma total_of_whole_lines_witness :
  fst (calculateTotalPrice
         (add_lines [mkLine (mkProductId "9b2e4d6f-1a3c-4b5d-8e7f-6a5b4c3d2e1f") 2 10;
                     mkLine (mkProductId "9b2e4d6f-1a3c-4b5d-8e7f-6a5b4c3d2e1f") 1 5]
            draft_order))
  = Normal (mkMoney (Number.ofZ 25) USD).
Proof.
  refine (proj2 (total_of_whole_lines sample_host sample_supplier USD VUndefined
                   draft_order _ _ _ _ _ _ _)).
  - reflexivity.
  - discriminate.
  - discriminate.
  - cbn. unfold MAX_ITEMS. lia.
  - repeat constructor; cbn; lia.
  - cbn. lia.
Defined.

(* ================================================================= *)
(** ** purchase-order.js: what the constructor checks *)

(** X16.  The constructor fails exactly when [supplierId] is falsy
    (absent, null, false, a zero, NaN or the empty string).  On any
    truthy [supplierId], of whatever type, and any [currency] at all it
    returns a Draft order with no items, the generated id, the two
    arguments as given, and as [orderDate] the DateTime passed in or,
    for anything else, the current instant. *)
Theorem PurchaseOrder_new_checks_supplierId_only host supplierId currency orderDate :
  ToBoolean supplierId = true
  /\ PurchaseOrder_new host supplierId currency orderDate
     = Normal (mkPurchaseOrder (generateUUID host) supplierId currency
                 match orderDate with
                 | VDateTime d => d
                 | _ => mkDateTime (Host_now host)
                 end
                 [] (mkPurchaseOrderState DRAFT))
  \/ ToBoolean supplierId = false
     /\ PurchaseOrder_new host supplierId currency orderDate
        = Throw (ValidationError "supplierId is required").
Proof.
  rewrite PurchaseOrder_new_outcome.
  destruct (ToBoolean supplierId); [left | right]; split; reflexivity.
Qed.

(* ================================================================= *)
(** ** money.js: the stored amount *)

(** [Number(amount.toFixed(2))] is shown to be the binary64 value
    nearest to the two-place decimal, ties to even, against a
    statement of "nearest" over the integers: the quotient of the
    division by 100 has 53 or 54 bits, the rounding moves it by at
    most half a unit of the last place kept, and no binary64 value
    lies strictly between neighbours of that spacing. *)

Section Nearest.

Local Open Scope Z_scope.

(** The bit length of a positive number is the only [k] with
    [2^(k-1) <= p < 2^k]. *)
Lemma digits2_pos_unique p k :
  2 ^ (k - 1) <= Zpos p < 2 ^ k -> Zpos (digits2_pos p) = k.
Proof.
  intros [L U]. pose proof (digits2_pos_bounds p) as [L' U'].
  set (d := Zpos (digits2_pos p)) in *.
  assert (0 < k).
  { destruct (Z.lt_ge_cases 0 k) as [Hk | Hk]; [exact Hk | exfalso].
    destruct k as [| k | k]; cbn in U; lia. }
  destruct (Z.lt_trichotomy d k) as [Hd | [Hd | Hd]]; [exfalso | exact Hd | exfalso].
  - assert (2 ^ d <= 2 ^ (k - 1)) by (apply Z.pow_le_mono_r; lia). lia.
  - assert (2 ^ k <= 2 ^ (d - 1)) by (apply Z.pow_le_mono_r; lia). lia.
Qed.

(** What [valid_binary] says of a finite Number. *)
Lemma binary64_finite s m e :
  valid_binary Number.prec Number.emax (S754_finite s m e) = true ->
  -1074 <= e <= 971 /\ Zpos m < 2 ^ 53
  /\ (2 ^ 52 <= Zpos m \/ e = -1074).
Proof.
  cbn [valid_binary]. unfold bounded, canonical_mantissa, fexp, emin,
    Number.prec, Number.emax.
  intros V. apply andb_true_iff in V as [C B].
  apply Z.eqb_eq in C. apply Z.leb_le in B.
  pose proof (digits2_pos_bounds m) as [L U].
  set (d := Zpos (digits2_pos m)) in *.
  assert (Hd : d <= 53) by lia.
  split; [lia |]. split.
  - eapply Z.lt_le_trans; [exact U |]. apply Z.pow_le_mono_r; lia.
  - destruct (Z.eq_dec e (-1074)) as [E | E]; [now right | left].
    assert (d = 53) as Hd53 by lia. rewrite Hd53 in L. exact L.
Qed.

Section Grid.

Variables (M E : Z).
Hypothesis HM : 2 ^ 52 <= M < 2 ^ 53.
Hypothesis HE : -1073 <= E <= 971.

Let g : Z := 2 ^ (E + 1074).

(** Where a binary64 value can lie with respect to the value [M * 2^E]
    of a normal one: on it, a full step of its spacing away, or, below
    a power of two, half a step below. *)
Lemma binary64_grid z :
  binary64 z ->
  (M + 1) * g <= scaled z
  \/ scaled z = M * g
  \/ scaled z <= (M - 1) * g
  \/ (M = 2 ^ 52 /\ 2 * scaled z <= (2 * M - 1) * g).
Proof.
  intros [V F].
  assert (G : 0 < g) by (apply Z.pow_pos_nonneg; lia).
  change (2 ^ 52) with 4503599627370496 in *.
  change (2 ^ 53) with 9007199254740992 in *.
  destruct z as [s | s | | s m e]; try discriminate F.
  - right. right. left. cbn. nia.
  - apply binary64_finite in V as (He & Hm & _).
    change (2 ^ 53) with 9007199254740992 in Hm.
    destruct s; cbn [scaled cond_Zopp].
    { right. right. left.
      assert (0 < 2 ^ (e + 1074)) by (apply Z.pow_pos_nonneg; lia). nia. }
    destruct (Z.le_gt_cases E e) as [Le | Gt].
    + assert (P : 2 ^ (e + 1074) = 2 ^ (e - E) * g).
      { unfold g. rewrite <- Z.pow_add_r by lia. f_equal. lia. }
      assert (0 < 2 ^ (e - E)) by (apply Z.pow_pos_nonneg; lia).
      rewrite P. set (k := Zpos m * 2 ^ (e - E)).
      replace (Zpos m * (2 ^ (e - E) * g)) with (k * g) by (unfold k; ring).
      destruct (Z.lt_trichotomy k M) as [Hk | [Hk | Hk]].
      * right. right. left. nia.
      * right. left. now rewrite Hk.
      * left. nia.
    + assert (P : g = 2 ^ (E - e) * 2 ^ (e + 1074)).
      { unfold g. rewrite <- Z.pow_add_r by lia. f_equal. lia. }
      assert (H0 : 0 < 2 ^ (e + 1074)) by (apply Z.pow_pos_nonneg; lia).
      set (u := 2 ^ (e + 1074)) in *.
      destruct (Z.eq_dec (E - e) 1) as [E1 | E1].
      * rewrite E1 in P. change (2 ^ 1) with 2 in P.
        destruct (Z.eq_dec M 4503599627370496) as [EM | EM].
        -- right. right. right. split; [exact EM |]. nia.
        -- right. right. left. nia.
      * assert (4 <= 2 ^ (E - e)).
        { change 4 with (2 ^ 2). apply Z.pow_le_mono_r; lia. }
        right. right. left. nia.
Qed.

(** A normal value within half a step of [n / 100] (a quarter when it
    is a power of two approached from below), even on a tie, is a
    nearest binary64 value, ties to even. *)
Lemma nearest_of_bounds n Mp :
  M = Zpos Mp ->
  let y := S754_finite false Mp E in
  2 * distance n y <= 100 * g ->
  (M = 2 ^ 52 -> 100 * (M * g) <= n * 2 ^ 1074 \/ 4 * distance n y <= 100 * g) ->
  (2 * distance n y = 100 * g -> Z.even M = true) ->
  (forall z, binary64 z -> distance n y <= distance n z)
  /\ (forall z, binary64 z -> distance n z = distance n y ->
                scaled z <> scaled y -> even_mantissa y).
Proof.
  intros EM y A B C.
  assert (G : 0 < g) by (apply Z.pow_pos_nonneg; lia).
  assert (Sy : scaled y = M * g) by (cbn; now rewrite EM).
  assert (Even52 : M = 2 ^ 52 -> Z.even M = true) by (intros ->; reflexivity).
  unfold distance in *. rewrite Sy in *.
  set (T := n * 2 ^ 1074) in *. clearbody T.
  split; intros z Hz; destruct (binary64_grid z Hz) as [H | [H | [H | [H52 H]]]];
    set (sz := scaled z) in *; clearbody sz.
  - lia.
  - rewrite H. lia.
  - lia.
  - specialize (B H52). lia.
  - intros Eq _. unfold y, even_mantissa. rewrite <- EM. apply C. lia.
  - intros _ Ne. contradiction.
  - intros Eq _. unfold y, even_mantissa. rewrite <- EM. apply C. lia.
  - intros _ _. unfold y, even_mantissa. rewrite <- EM. now apply Even52.
Qed.

End Grid.

Section Rounding.

(** The location [SFdiv_core_binary] computes for a remainder out of
    100. *)
Lemma new_location_spec r : 0 <= r < 100 -> loc_spec (new_location 100 r) r 100.
Proof.
  intros H. split; [exact H |].
  change (new_location 100 r)
    with (if r =? 0 then loc_Exact else loc_Inexact (2 * r ?= 100)).
  destruct (Z.eqb_spec r 0) as [-> | N]; [reflexivity |].
  destruct (Z.compare_spec (2 * r) 100); lia.
Qed.

(** Rounding to nearest, ties to even, moves by at most half a unit,
    and onto an even number when by exactly half. *)
Lemma round_nearest_even_spec q l num den :
  loc_spec l num den ->
  let q' := round_nearest_even q l in
  (q' = q \/ q' = q + 1)
  /\ 2 * Z.abs (den * q' - (den * q + num)) <= den
  /\ (2 * Z.abs (den * q' - (den * q + num)) = den -> Z.even q' = true)
  /\ (q' = q -> den * q' <= den * q + num).
Proof.
  intros [B L]. cbv zeta. unfold round_nearest_even.
  destruct l as [| []].
  - repeat split; try lia; intros; exfalso; lia.
  - pose proof (Z.even_succ q) as Es. pose proof (Z.negb_even q) as Ne.
    destruct (Z.even q) eqn:Ev.
    + repeat split; try lia; auto.
    + replace (q + 1) with (Z.succ q) by lia.
      repeat split; try lia;
        try (intros _; rewrite Es, <- Ne; reflexivity);
        intros; exfalso; lia.
  - repeat split; try lia; intros; exfalso; lia.
  - repeat split; try lia; intros; exfalso; lia.
Qed.

(** One step of shifting halves the mantissa and doubles the scale of
    what was cut off. *)
Lemma shr_1_spec qp l num den :
  loc_spec l num den ->
  (1 < qp)%positive ->
  let mrs := shr_1 (shr_record_of_loc (Zpos qp) l) in
  exists b, (b = 0 \/ b = 1)
            /\ Zpos qp = 2 * shr_m mrs + b
            /\ loc_spec (loc_of_shr_record mrs) (den * b + num) (2 * den).
Proof.
  intros [B L] Hq. cbv zeta.
  destruct qp as [p | p |]; [exists 1 | exists 0 | lia];
    destruct l as [| []];
    cbn [shr_1 shr_record_of_loc loc_of_shr_record shr_m orb]; unfold loc_spec in *;
    repeat split; lia.
Qed.

(** A quotient of 53 bits is not shifted, one of 54 bits by one place. *)
Lemma shr_fexp_53 qp e l :
  Zpos (digits2_pos qp) = 53 -> -1074 <= e ->
  shr_fexp Number.prec Number.emax (Zpos qp) e l
  = (shr_record_of_loc (Zpos qp) l, e).
Proof.
  intros D He. unfold shr_fexp. cbn [Zdigits2]. rewrite D.
  replace (fexp Number.prec Number.emax (53 + e) - e) with 0
    by (unfold fexp, emin, Number.prec, Number.emax; lia).
  reflexivity.
Qed.

Lemma shr_fexp_54 qp e l :
  Zpos (digits2_pos qp) = 54 -> -1075 <= e ->
  shr_fexp Number.prec Number.emax (Zpos qp) e l
  = (shr_1 (shr_record_of_loc (Zpos qp) l), e + 1).
Proof.
  intros D He. unfold shr_fexp. cbn [Zdigits2]. rewrite D.
  replace (fexp Number.prec Number.emax (54 + e) - e) with 1
    by (unfold fexp, emin, Number.prec, Number.emax; lia).
  reflexivity.
Qed.

(** After rounding, a mantissa that reached 2^53 is renormalised. *)
Lemma round_finish q' e :
  2 ^ 52 <= q' <= 2 ^ 53 -> -1074 <= e <= 970 ->
  exists Mp E,
    (let '(mrs, e'') := shr_fexp Number.prec Number.emax q' e loc_Exact in
     match shr_m mrs with
     | 0 => S754_zero false
     | Zpos m =>
         if e'' <=? Number.emax - Number.prec then S754_finite false m e''
         else S754_infinity false
     | Zneg _ => S754_nan
     end) = S754_finite false Mp E
    /\ (q' < 2 ^ 53 /\ Zpos Mp = q' /\ E = e
        \/ q' = 2 ^ 53 /\ Zpos Mp = 2 ^ 52 /\ E = e + 1).
Proof.
  intros Hq He.
  destruct (Z.eq_dec q' (2 ^ 53)) as [-> | N].
  - exists 4503599627370496%positive, (e + 1).
    split; [| right; repeat split].
    change (2 ^ 53) with (Zpos 9007199254740992).
    rewrite shr_fexp_54 by (try reflexivity; lia).
    cbn [shr_record_of_loc shr_1 shr_m orb].
    unfold Number.emax, Number.prec.
    destruct (Z.leb_spec (e + 1) (1024 - 53)); [reflexivity | lia].
  - destruct q' as [| p | p]; try (cbn in Hq; lia).
    exists p, e. split; [| left; repeat split; lia].
    rewrite shr_fexp_53; [| apply digits2_pos_unique; lia | lia].
    cbn [shr_record_of_loc shr_m].
    unfold Number.emax, Number.prec.
    destruct (Z.leb_spec e (1024 - 53)); [reflexivity | lia].
Qed.

(** Rounding a quotient of 53 or 54 bits with remainder [r] out of 100. *)
Lemma round_quotient qp e r :
  2 ^ 52 <= Zpos qp < 2 ^ 54 -> 0 <= r < 100 -> -1074 <= e <= 900 ->
  exists Mp E,
    binary_round_aux Number.prec Number.emax false (Zpos qp) e (new_location 100 r)
    = S754_finite false Mp E
    /\ 2 ^ 52 <= Zpos Mp < 2 ^ 53 /\ e <= E <= e + 2
    /\ 2 * Z.abs (100 * (Zpos Mp * 2 ^ (E - e)) - (100 * Zpos qp + r))
       <= 100 * 2 ^ (E - e)
    /\ (Zpos Mp = 2 ^ 52 ->
        100 * (Zpos Mp * 2 ^ (E - e)) <= 100 * Zpos qp + r
        \/ 4 * Z.abs (100 * (Zpos Mp * 2 ^ (E - e)) - (100 * Zpos qp + r))
           <= 100 * 2 ^ (E - e))
    /\ (2 * Z.abs (100 * (Zpos Mp * 2 ^ (E - e)) - (100 * Zpos qp + r))
        = 100 * 2 ^ (E - e) -> Z.even (Zpos Mp) = true).
Proof.
  intros Hq Hr He.
  pose proof (new_location_spec r Hr) as L.
  set (l := new_location 100 r) in *. clearbody l.
  unfold binary_round_aux.
  destruct (Z.lt_ge_cases (Zpos qp) (2 ^ 53)) as [H53 | H54].
  - rewrite shr_fexp_53; [| apply digits2_pos_unique; lia | lia].
    assert (Lr : loc_of_shr_record (shr_record_of_loc (Zpos qp) l) = l)
      by (destruct l as [| []]; reflexivity).
    cbn [shr_m shr_record_of_loc]. rewrite Lr.
    replace (shr_m (shr_record_of_loc (Zpos qp) l)) with (Zpos qp)
      by (destruct l as [| []]; reflexivity).
    destruct (round_nearest_even_spec (Zpos qp) l r 100 L) as (Hc & Hb & Ht & Hd).
    set (q' := round_nearest_even (Zpos qp) l) in *. clearbody q'.
    destruct (round_finish q' e ltac:(lia) ltac:(lia)) as (Mp & E & -> & Hf).
    exists Mp, E. split; [reflexivity |].
    change (2 ^ 52) with 4503599627370496 in *.
    change (2 ^ 53) with 9007199254740992 in *.
    destruct Hf as [(Hlt & HM & ->) | (Heq & HM & ->)].
    + replace (e - e) with 0 by lia. change (2 ^ 0) with 1.
      rewrite HM. repeat split; try lia;
        try (intros E52; left; lia); try (intros Tie; apply Ht; lia);
        try (intros _; reflexivity).
    + replace (e + 1 - e) with 1 by lia. change (2 ^ 1) with 2.
      rewrite HM. repeat split; try lia;
        try (intros E52; left; lia); try (intros Tie; apply Ht; lia);
        try (intros _; reflexivity).
  - assert (Q1 : (1 < qp)%positive).
    { change (2 ^ 53) with 9007199254740992 in H54. lia. }
    rewrite shr_fexp_54; [| apply digits2_pos_unique; lia | lia].
    destruct (shr_1_spec qp l r 100 L Q1) as (b & Hb01 & Hqb & L').
    set (mrs := shr_1 (shr_record_of_loc (Zpos qp) l)) in *. clearbody mrs.
    set (q1 := shr_m mrs) in *. clearbody q1.
    destruct (round_nearest_even_spec q1 (loc_of_shr_record mrs) (100 * b + r)
                (2 * 100) L') as (Hc & Hb & Ht & Hd).
    set (q' := round_nearest_even q1 (loc_of_shr_record mrs)) in *. clearbody q'.
    change (2 ^ 52) with 4503599627370496 in *.
    change (2 ^ 53) with 9007199254740992 in *.
    change (2 ^ 54) with 18014398509481984 in *.
    destruct (round_finish q' (e + 1)) as (Mp & E & -> & Hf).
    { change (2 ^ 52) with 4503599627370496.
      change (2 ^ 53) with 9007199254740992. lia. }
    { lia. }
    exists Mp, E. split; [reflexivity |].
    change (2 ^ 52) with 4503599627370496 in *.
    change (2 ^ 53) with 9007199254740992 in *.
    destruct Hf as [(Hlt & HM & ->) | (Heq & HM & ->)].
    + replace (e + 1 - e) with 1 by lia. change (2 ^ 1) with 2.
      rewrite HM. repeat split; try lia;
        try (intros E52; left; lia); try (intros Tie; apply Ht; lia);
        try (intros _; reflexivity).
    + replace (e + 1 + 1 - e) with 2 by lia. change (2 ^ 2) with 4.
      rewrite HM. repeat split; try lia;
        try (intros E52; left; lia); try (intros Tie; apply Ht; lia);
        try (intros _; reflexivity).
Qed.

End Rounding.

Section Stored.

(** The quotient and remainder [Number(...)] rounds for a literal
    [n / 100] with [n] below 2^60. *)
Lemma SFdiv_core_hundredths np :
  Zpos np < 2 ^ 60 ->
  let s := 60 - Zpos (digits2_pos np) in
  exists q r,
    SFdiv_core_binary Number.prec Number.emax (Zpos np) 0 100 0
    = (q, - s, new_location 100 r)
    /\ 0 <= s /\ 0 <= r < 100 /\ Zpos np * 2 ^ s = 100 * q + r
    /\ 2 ^ 52 <= q < 2 ^ 54.
Proof.
  intros Hn. cbv zeta.
  pose proof (digits2_pos_bounds np) as [Bl Bu].
  set (d1 := Zpos (digits2_pos np)) in *.
  assert (Hd : 1 <= d1 <= 60).
  { split; [unfold d1; lia |].
    destruct (Z.le_gt_cases d1 60) as [L | G]; [exact L | exfalso].
    assert (2 ^ 60 <= 2 ^ (d1 - 1)) by (apply Z.pow_le_mono_r; lia). lia. }
  unfold SFdiv_core_binary. cbn [Zdigits2]. fold d1.
  change (Zpos (digits2_pos 100)) with 7.
  assert (He : Z.min (fexp Number.prec Number.emax (d1 + 0 - (7 + 0))) (0 - 0) = d1 - 60).
  { unfold fexp, emin, Number.prec, Number.emax. lia. }
  rewrite He.
  set (m' := match 0 - 0 - (d1 - 60) with
             | 0 => Zpos np
             | Zpos _ => Z.shiftl (Zpos np) (0 - 0 - (d1 - 60))
             | Zneg _ => 0
             end).
  assert (Hm : m' = Zpos np * 2 ^ (60 - d1)).
  { unfold m'. destruct (0 - 0 - (d1 - 60)) as [| p | p] eqn:E; try lia.
    - replace (60 - d1) with 0 by lia. cbn. lia.
    - rewrite Z.shiftl_mul_pow2 by lia. f_equal. f_equal. lia. }
  assert (Hb : 2 ^ 59 <= m' < 2 ^ 60).
  { rewrite Hm. split.
    - replace 59 with ((d1 - 1) + (60 - d1)) by lia.
      rewrite Z.pow_add_r by lia.
      apply Z.mul_le_mono_nonneg_r; [apply Z.pow_nonneg; lia | exact Bl].
    - replace 60 with (d1 + (60 - d1)) at 2 by lia.
      rewrite Z.pow_add_r by lia.
      apply Z.mul_lt_mono_pos_r; [apply Z.pow_pos_nonneg; lia | exact Bu]. }
  pose proof (Z.div_eucl_eq m' 100 ltac:(lia)) as Eq.
  pose proof (Z.mod_pos_bound m' 100 ltac:(lia)) as Bd.
  unfold Z.modulo in Bd. destruct (Z.div_eucl m' 100) as [q r].
  exists q, r. split; [f_equal; f_equal; lia |].
  split; [lia |]. split; [exact Bd |]. split; [rewrite <- Hm; exact Eq |].
  change (2 ^ 59) with 576460752303423488 in Hb.
  change (2 ^ 60) with 1152921504606846976 in Hb.
  change (2 ^ 52) with 4503599627370496.
  change (2 ^ 54) with 18014398509481984. lia.
Qed.

(** [Number(...)] of a literal [n / 100] with [0 < n < 2^60] is a
    nearest binary64 value. *)
Lemma ofHundredths_nearest n :
  0 < n < 2 ^ 60 -> nearest_binary64 n (Number.ofHundredths false n).
Proof.
  intros [H0 Hn]. destruct n as [| np | np]; try lia.
  unfold Number.ofHundredths.
  destruct (SFdiv_core_hundredths np Hn) as (q & r & -> & Hs & Hr & Hq & Hb).
  pose proof (digits2_pos_bounds np) as [_ Bu].
  set (s := 60 - Zpos (digits2_pos np)) in *.
  assert (Hs' : s <= 59) by (unfold s; lia).
  destruct q as [| qp | qp]; try (cbn in Hb; lia).
  destruct (round_quotient qp (- s) r Hb Hr ltac:(lia))
    as (Mp & E & -> & HM & HE & A & B & C).
  set (k := 2 ^ (E - - s)) in *.
  set (h := 2 ^ (- s + 1074)).
  assert (Hh : 0 < h) by (apply Z.pow_pos_nonneg; lia).
  assert (Hk : 0 < k) by (apply Z.pow_pos_nonneg; lia).
  assert (Hg : 2 ^ (E + 1074) = k * h).
  { unfold k, h. rewrite <- Z.pow_add_r by lia. f_equal. lia. }
  assert (HU : 2 ^ 1074 = 2 ^ s * h).
  { unfold h. rewrite <- Z.pow_add_r by lia. f_equal. lia. }
  assert (D : distance (Zpos np) (S754_finite false Mp E)
              = h * Z.abs (100 * (Zpos Mp * k) - (100 * Zpos qp + r))).
  { unfold distance. cbn [scaled cond_Zopp]. rewrite Hg, HU.
    replace (100 * (Zpos Mp * (k * h)) - Zpos np * (2 ^ s * h))
      with (h * (100 * (Zpos Mp * k) - Zpos np * 2 ^ s)) by ring.
    rewrite Hq, Z.abs_mul, (Z.abs_eq h) by lia. reflexivity. }
  set (a := Z.abs (100 * (Zpos Mp * k) - (100 * Zpos qp + r))) in *.
  assert (V : binary64 (S754_finite false Mp E)).
  { split; [| reflexivity].
    cbn [valid_binary]. unfold bounded, canonical_mantissa.
    rewrite (digits2_pos_unique Mp 53) by (change (53 - 1) with 52; exact HM).
    unfold fexp, emin, Number.prec, Number.emax.
    apply andb_true_iff. split; [apply Z.eqb_eq | apply Z.leb_le]; lia. }
  split; [exact V |]. split; [reflexivity |].
  apply (nearest_of_bounds (Zpos Mp) E HM ltac:(lia) (Zpos np) Mp eq_refl).
  - rewrite D, Hg. nia.
  - intros E52. destruct (B E52) as [B1 | B2].
    + left. rewrite Hg, HU.
      replace (Zpos np * (2 ^ s * h)) with ((Zpos np * 2 ^ s) * h) by ring.
      rewrite Hq. nia.
    + right. rewrite D, Hg. nia.
  - rewrite D, Hg. intros T. apply C. nia.
Qed.

(** An integer-valued binary64 value from 2^52 on is printed and read
    back unchanged. *)
Lemma ofHundredths_integer m e :
  valid_binary Number.prec Number.emax (S754_finite false m e) = true ->
  0 <= e ->
  Number.ofHundredths false (100 * Zpos m * 2 ^ e) = S754_finite false m e.
Proof.
  intros V He. apply binary64_finite in V as (Hr & Hu & [Hl | Hx]); [| lia].
  assert (P : 0 < 2 ^ e) by (apply Z.pow_pos_nonneg; lia).
  assert (D : digits2_pos m = 53%positive).
  { apply Pos2Z.inj. apply digits2_pos_unique. change (53 - 1) with 52. lia. }
  destruct (100 * Zpos m * 2 ^ e) as [| np | np] eqn:En; try lia.
  unfold Number.ofHundredths, SFdiv_core_binary. cbn [Zdigits2].
  change (Zpos (digits2_pos 100)) with 7.
  set (d1 := Zpos (digits2_pos np)).
  assert (Hd : 59 + e <= d1 <= 60 + e).
  { pose proof (digits2_pos_bounds np) as [Bl Bu]. fold d1 in Bl, Bu.
    rewrite <- En in Bl, Bu.
    change (2 ^ 52) with 4503599627370496 in Hl.
    change (2 ^ 53) with 9007199254740992 in Hu.
    split.
    - destruct (Z.le_gt_cases (59 + e) d1) as [L | G]; [exact L | exfalso].
      assert (2 ^ d1 <= 2 ^ (58 + e)) by (apply Z.pow_le_mono_r; lia).
      rewrite Z.pow_add_r in H by lia.
      change (2 ^ 58) with 288230376151711744 in H. nia.
    - destruct (Z.le_gt_cases d1 (60 + e)) as [L | G]; [exact L | exfalso].
      assert (2 ^ (60 + e) <= 2 ^ (d1 - 1)) by (apply Z.pow_le_mono_r; lia).
      rewrite Z.pow_add_r in H by lia.
      change (2 ^ 60) with 1152921504606846976 in H. nia. }
  set (e' := Z.min (fexp Number.prec Number.emax (d1 + 0 - (7 + 0))) (0 - 0)).
  assert (He' : -1 <= e' <= 0 /\ e + - e' >= 0).
  { unfold e', fexp, emin, Number.prec, Number.emax. lia. }
  set (m' := match 0 - 0 - e' with
             | 0 => Zpos np
             | Zpos _ => Z.shiftl (Zpos np) (0 - 0 - e')
             | Zneg _ => 0
             end).
  assert (Hm : m' = (Zpos m * 2 ^ (e - e')) * 100).
  { assert (m' = Zpos np * 2 ^ (- e')) as ->.
    { unfold m'. destruct (0 - 0 - e') as [| p | p] eqn:E; try lia.
      - replace (- e') with 0 by lia. cbn. lia.
      - rewrite Z.shiftl_mul_pow2 by lia. f_equal. f_equal. lia. }
    rewrite <- En. replace (e - e') with (e + - e') by lia.
    rewrite Z.pow_add_r by lia. ring. }
  assert (P' : 0 < 2 ^ (e - e')) by (apply Z.pow_pos_nonneg; lia).
  assert (Hdiv : Z.div_eucl m' 100 = (Zpos m * 2 ^ (e - e'), 0)).
  { pose proof (Z.div_eucl_eq m' 100 ltac:(lia)) as Eq.
    pose proof (Z.mod_pos_bound m' 100 ltac:(lia)) as Bd.
    unfold Z.modulo in Bd. destruct (Z.div_eucl m' 100) as [q r].
    assert (r = 0 /\ q = Zpos m * 2 ^ (e - e')) as [-> ->]; [| reflexivity].
    rewrite Hm in Eq. clear - Eq Bd. set (v := Zpos m * 2 ^ (e - e')) in *.
    clearbody v. lia. }
  rewrite Hdiv. change (new_location 100 0) with loc_Exact.
  assert (EM : Zpos m * 2 ^ (e - e') = Zpos (Pos.shiftl m (Z.to_N (e - e')))).
  { rewrite Zpos_shiftl, Z2N.id by lia. reflexivity. }
  rewrite EM, binary_round_aux_zeros; [| exact D | rewrite Z2N.id by lia; lia].
  f_equal. rewrite Z2N.id by lia. lia.
Qed.

(** What [new Money] stores for a finite amount that is not below zero
    is that amount rounded to two decimal places. *)
Lemma toFixed2_rounds x :
  valid_binary Number.prec Number.emax x = true ->
  Number.finite x = true ->
  Number.ltb x Number.zero = false ->
  rounded_to_2_places x (Number.toFixed2 x).
Proof.
  intros V F L.
  destruct x as [s | s | | s m e]; try discriminate.
  - reflexivity.
  - destruct s; [discriminate |].
    cbn [rounded_to_2_places Number.toFixed2].
    exists (Number.hundredths m e).
    destruct (hundredths_nearest m e) as [H0 Hn].
    split; [exact H0 |]. split; [exact Hn |].
    assert (Zero : nearest_binary64 0 (S754_zero false)).
    { split; [split; reflexivity |]. split; [reflexivity |]. split.
      - intros z _. unfold distance. cbn [scaled]. lia.
      - intros z _ Ez Nz. exfalso. apply Nz.
        unfold distance in Ez. cbn [scaled] in *. lia. }
    destruct (Z.le_gt_cases 0 e) as [Pe | Ne].
    + assert (Hh : Number.hundredths m e = 100 * Zpos m * 2 ^ e)
        by (destruct e; try lia; reflexivity).
      rewrite Hh, (ofHundredths_integer m e V Pe).
      assert (Dz : distance (100 * Zpos m * 2 ^ e) (S754_finite false m e) = 0).
      { unfold distance. cbn [scaled cond_Zopp].
        pose proof (binary64_finite _ _ _ V) as (Hr & _).
        rewrite Z.pow_add_r by lia.
        replace (100 * (Zpos m * (2 ^ e * 2 ^ 1074)) - 100 * Zpos m * 2 ^ e * 2 ^ 1074)
          with 0 by ring.
        reflexivity. }
      split; [split; [exact V | reflexivity] |]. split; [reflexivity |].
      rewrite Dz. split.
      * intros z _. unfold distance. lia.
      * intros z _ Ez Nz. exfalso. apply Nz.
        unfold distance in Ez, Dz. lia.
    + destruct (Z.eq_dec (Number.hundredths m e) 0) as [-> | Nz]; [exact Zero |].
      apply ofHundredths_nearest. split; [lia |].
      apply binary64_finite in V as (_ & Hu & _).
      destruct e as [| e | p]; try lia.
      unfold nearest_hundredths in Hn.
      set (n := Number.hundredths m (Zneg p)) in *. clearbody n.
      assert (2 <= 2 ^ Zpos p).
      { change 2 with (2 ^ 1) at 1. apply Z.pow_le_mono_r; lia. }
      change (2 ^ 53) with 9007199254740992 in Hu.
      change (2 ^ 60) with 1152921504606846976.
      set (w := 2 ^ Zpos p) in *. clearbody w. nia.
Qed.

End Stored.

Section Pinned.

(** A non-negative binary64 value is determined by its value. *)
Lemma scaled_le_inj m e m' e' :
  valid_binary Number.prec Number.emax (S754_finite false m e) = true ->
  valid_binary Number.prec Number.emax (S754_finite false m' e') = true ->
  e <= e' ->
  scaled (S754_finite false m e) = scaled (S754_finite false m' e') ->
  m = m' /\ e = e'.
Proof.
  intros V V' Le. cbn [scaled cond_Zopp]. intros Eq.
  apply binary64_finite in V as (He & Hm & _).
  apply binary64_finite in V' as (He' & Hm' & Hn').
  assert (P : 2 ^ (e' + 1074) = 2 ^ (e' - e) * 2 ^ (e + 1074)).
  { rewrite <- Z.pow_add_r by lia. f_equal. lia. }
  assert (G : 0 < 2 ^ (e + 1074)) by (apply Z.pow_pos_nonneg; lia).
  rewrite P in Eq.
  assert (Em : Zpos m = Zpos m' * 2 ^ (e' - e)).
  { apply (Z.mul_cancel_r _ _ (2 ^ (e + 1074))); [lia |]. rewrite Eq. ring. }
  destruct (Z.eq_dec e e') as [<- | Ne].
  - replace (e - e) with 0 in Em by lia. change (2 ^ 0) with 1 in Em.
    split; [| reflexivity]. apply Pos2Z.inj. lia.
  - exfalso. destruct Hn' as [Hn' | Hn']; [| lia].
    assert (2 <= 2 ^ (e' - e)).
    { change 2 with (2 ^ 1) at 1. apply Z.pow_le_mono_r; lia. }
    change (2 ^ 52) with 4503599627370496 in Hn'.
    change (2 ^ 53) with 9007199254740992 in Hm. nia.
Qed.

Lemma scaled_inj y y' :
  binary64 y -> binary64 y' ->
  match y with S754_zero s | S754_finite s _ _ => s = false | _ => False end ->
  match y' with S754_zero s | S754_finite s _ _ => s = false | _ => False end ->
  scaled y = scaled y' -> y = y'.
Proof.
  intros [V _] [V' _] S S' Eq.
  destruct y as [s | s | | s m e]; try contradiction;
    destruct y' as [s' | s' | | s' m' e']; try contradiction; subst s s'.
  - reflexivity.
  - exfalso. cbn [scaled cond_Zopp] in Eq.
    apply binary64_finite in V' as (He' & _).
    assert (0 < 2 ^ (e' + 1074)) by (apply Z.pow_pos_nonneg; lia). nia.
  - exfalso. cbn [scaled cond_Zopp] in Eq.
    apply binary64_finite in V as (He & _).
    assert (0 < 2 ^ (e + 1074)) by (apply Z.pow_pos_nonneg; lia). nia.
  - destruct (Z.le_ge_cases e e') as [L | L].
    + destruct (scaled_le_inj m e m' e' V V' L Eq) as [-> ->]. reflexivity.
    + symmetry in Eq.
      destruct (scaled_le_inj m' e' m e V' V L Eq) as [-> ->]. reflexivity.
Qed.

(** Above a non-negative binary64 value of even mantissa, the next
    binary64 value has an odd one: a value of even mantissa further up
    has another binary64 value strictly in between. *)
Lemma between_even y y' :
  binary64 y -> binary64 y' ->
  match y with S754_zero s | S754_finite s _ _ => s = false | _ => False end ->
  match y' with S754_zero s | S754_finite s _ _ => s = false | _ => False end ->
  even_mantissa y -> even_mantissa y' ->
  scaled y < scaled y' ->
  exists z, binary64 z /\ scaled y < scaled z < scaled y'.
Proof.
  intros [V _] [V' _] S S' Ev Ev' Lt.
  destruct y' as [s' | s' | | s' m' e']; try contradiction; subst s'.
  { exfalso. destruct y as [s | s | | s m e]; try contradiction; subst s.
    - cbn in Lt. lia.
    - cbn [scaled cond_Zopp] in Lt.
      apply binary64_finite in V as (He & _).
      assert (0 < 2 ^ (e + 1074)) by (apply Z.pow_pos_nonneg; lia). nia. }
  pose proof (binary64_finite _ _ _ V') as (He' & Hm' & Hn').
  assert (G' : 0 < 2 ^ (e' + 1074)) by (apply Z.pow_pos_nonneg; lia).
  cbn [even_mantissa] in Ev'.
  assert (M2' : 2 <= Zpos m').
  { destruct m'; try discriminate Ev'. lia. }
  destruct y as [s | s | | s m e]; try contradiction; subst s.
  - exists (S754_finite false 1 (-1074)). split; [split; reflexivity |].
    cbn [scaled cond_Zopp]. change (2 ^ (-1074 + 1074)) with 1.
    assert (1 <= 2 ^ (e' + 1074)) by lia. nia.
  - pose proof (binary64_finite _ _ _ V) as (He & Hm & Hn).
    cbn [even_mantissa] in Ev.
    assert (G : 0 < 2 ^ (e + 1074)) by (apply Z.pow_pos_nonneg; lia).
    exists (S754_finite false (m + 1) e).
    assert (Odd : Z.even (Zpos (m + 1)) = false).
    { rewrite Pos2Z.inj_add. change (Zpos m + 1) with (Z.succ (Zpos m)).
      rewrite Z.even_succ, <- Z.negb_even, Ev. reflexivity. }
    split.
    + split; [| reflexivity].
      cbn [valid_binary] in *. unfold bounded, canonical_mantissa in *.
      apply andb_true_iff in V as [C B]. apply andb_true_iff. split; [| exact B].
      apply Z.eqb_eq in C. apply Z.eqb_eq.
      assert (Dg : Zpos (digits2_pos (m + 1)) = Zpos (digits2_pos m));
        [| rewrite Dg; exact C].
      apply digits2_pos_unique.
      pose proof (digits2_pos_bounds m) as [L U].
      set (d := Zpos (digits2_pos m)) in *.
      assert (1 <= d) by (unfold d; lia).
      rewrite Pos2Z.inj_add. split; [lia |].
      assert (Zpos m + 1 <> 2 ^ d).
      { intros Eq. rewrite Pos2Z.inj_add, Eq in Odd.
        replace d with (Z.succ (d - 1)) in Odd by lia.
        rewrite Z.pow_succ_r, Z.even_mul in Odd by lia. discriminate Odd. }
      lia.
    + cbn [scaled cond_Zopp] in *. rewrite Pos2Z.inj_add. split; [nia |].
      destruct (Z.le_gt_cases e e') as [Le | Gt].
      * assert (P : 2 ^ (e' + 1074) = 2 ^ (e' - e) * 2 ^ (e + 1074)).
        { rewrite <- Z.pow_add_r by lia. f_equal. lia. }
        rewrite P in *.
        assert (K : 0 < 2 ^ (e' - e)) by (apply Z.pow_pos_nonneg; lia).
        set (g := 2 ^ (e + 1074)) in *. clearbody g.
        assert (Lk : Zpos m < Zpos m' * 2 ^ (e' - e)) by nia.
        assert (Nk : Zpos m' * 2 ^ (e' - e) <> Zpos m + 1).
        { intros Eq. rewrite Pos2Z.inj_add, <- Eq, Z.even_mul, Ev' in Odd.
          discriminate Odd. }
        set (k := Zpos m' * 2 ^ (e' - e)) in *.
        replace (Zpos m' * (2 ^ (e' - e) * g)) with (k * g) by (unfold k; ring).
        clearbody k. nia.
      * exfalso. destruct Hn as [Hn | Hn]; [| lia].
        assert (P : 2 ^ (e + 1074) = 2 ^ (e - e') * 2 ^ (e' + 1074)).
        { rewrite <- Z.pow_add_r by lia. f_equal. lia. }
        rewrite P in Lt.
        assert (2 <= 2 ^ (e - e')).
        { change 2 with (2 ^ 1) at 1. apply Z.pow_le_mono_r; lia. }
        change (2 ^ 52) with 4503599627370496 in Hn.
        change (2 ^ 53) with 9007199254740992 in Hm'.
        set (g := 2 ^ (e' + 1074)) in *. clearbody g.
        set (k := 2 ^ (e - e')) in *. clearbody k. nia.
Qed.

(** The definition pins the value: at most one Number is the nearest
    to [n / 100]. *)
Lemma nearest_binary64_unique n y y' :
  nearest_binary64 n y -> nearest_binary64 n y' -> y = y'.
Proof.
  intros (B & S & N & T) (B' & S' & N' & T').
  assert (D : distance n y' = distance n y).
  { pose proof (N y' B'). pose proof (N' y B). lia. }
  destruct (Z.eq_dec (scaled y) (scaled y')) as [Eq | Ne];
    [now apply scaled_inj |].
  exfalso.
  assert (Ev : even_mantissa y) by (apply (T y' B' D); congruence).
  assert (Ev' : even_mantissa y') by (apply (T' y B (eq_sym D)); congruence).
  unfold distance in *.
  destruct (Z.lt_trichotomy (scaled y) (scaled y')) as [Lt | [Eq | Gt]];
    [| contradiction |].
  - destruct (between_even y y' B B' S S' Ev Ev' Lt) as (z & Bz & Hz).
    pose proof (N z Bz). lia.
  - destruct (between_even y' y B' B S' S Ev' Ev Gt) as (z & Bz & Hz).
    pose proof (N z Bz). lia.
Qed.

End Pinned.

End Nearest.

(** C9.  [new Money({amount, currency})] throws a ValidationError when
    [amount] is not a finite number, is negative, or [currency] is not
    a Currency; on every other pair it returns a Money whose amount is
    the given one rounded to two decimal places: the binary64 value
    nearest to the nearest two-place decimal. *)
Theorem Money_new_validates_and_rounds amount currency :
  canonical amount ->
  (exists x c,
      amount = VNumber x /\ currency = VCurrency c
      /\ nonnegative_finite amount
      /\ Money_new amount currency = Normal (mkMoney (Number.toFixed2 x) c)
      /\ rounded_to_2_places x (Number.toFixed2 x))
  \/ (~ (nonnegative_finite amount /\ is_Currency currency)
      /\ throws (Money_new amount currency)).
Proof.
  intros V.
  destruct (Money_new amount currency) as [money | e] eqn:E.
  - left. pose proof E as E'.
    apply Money_new_Normal in E' as (x & c & -> & F & L & -> & ->).
    exists x, c. repeat split.
    + exists x. repeat split; assumption.
    + now apply toFixed2_rounds.
  - right. split; [| apply throws_Throw].
    intros [(x & -> & F & L) (c & ->)].
    assert (N : Money_new (VNumber x) (VCurrency c)
                = Normal (mkMoney (Number.toFixed2 x) c)).
    { apply Money_new_Normal. exists x, c. repeat split; assumption. }
    rewrite N in E. discriminate.
Qed.

(** [new Money({amount: 0.125, currency: USD})] stores 0.13. *)
Lemma Money_new_validates_and_rounds_witness :
  canonical (VNumber (S754_finite false 4503599627370496 (-55)))
  /\ Money_new (VNumber (S754_finite false 4503599627370496 (-55))) (VCurrency USD)
     = Normal (mkMoney (dec 13) USD)
  /\ rounded_to_2_places (S754_finite false 4503599627370496 (-55)) (dec 13).
Proof.
  assert (V : canonical (VNumber (S754_finite false 4503599627370496 (-55))))
    by reflexivity.
  split; [exact V |].
  destruct (Money_new_validates_and_rounds
              (VNumber (S754_finite false 4503599627370496 (-55))) (VCurrency USD) V)
    as [(x & c & Ex & Ec & _ & N & R) | [Hn _]].
  - injection Ex as <-. injection Ec as <-.
    change (Number.toFixed2 (S754_finite false 4503599627370496 (-55)))
      with (dec 13) in N, R.
    split; [exact N | exact R].
  - exfalso. apply Hn. split.
    + exists (S754_finite false 4503599627370496 (-55)).
      repeat split; reflexivity.
    + now exists USD.
Defined.
